(* ===== verification/_CoqProject ===== *)
-Q . S2P
Prelude.v
JsNumber.v
JsObject.v
JsString.v
JsNumberText.v
Scoring.v
Classifier.v
Catalog.v
ScoreRefinement.v
Explanation.v
Feedback.v
Quiz.v
QuizRuns.v
QuizInvariants.v
Render.v
QuizStorage.v
QuizSpec.v
