(* ===== verification/Prelude.v ===== *)
(** * CrushBot: a verification development of [src/src/App.jsx]

    The program is a single React component, [CrushBot], with a small
    scoring core.  Its parts, and how they interact:

    - the weight table [WEIGHTS] and [calculateFinalScore] (lines 8-24):
      a weighted sum of seven KPI values, scaled by 100 and rounded with
      [Math.round];
    - the classifier [getCategoryFromScore] (lines 26-30): three ordered
      categories with thresholds 30 and 65;
    - the question catalog [QUESTIONS] (lines 36-120): seven questions,
      six with fixed options and one slider, each tied to one KPI key;
    - the explanation requester [generateAIExplanation] (lines 126-174):
      a prompt built from the score, the category and the KPIs, one
      [fetch] to a text-generation service, and a canned text per
      category when anything throws;
    - the component's state and handlers [handleAnswer], [processResults],
      [handleFeedback], [handleReset] (lines 180-267) and the buttons
      rendered per stage (lines 273-1201): a state machine whose
      transitions are delayed by [setTimeout] and by two promises (the
      explanation request and the feedback write to [window.storage]).

    Control flows as the spec says: answers are collected one per
    question; after the last one the KPIs are scored, classified and sent
    to the explanation requester; the result screen then offers a
    feedback write and a reset.

    ** Files

    - [Prelude] (this file): the notation scope [crush_scope], the hint
      database [crush], tactics, and generic lemmas on lists, paths
      through a list of choices and rounding on [Q].
    - [JsNumber]: JavaScript numbers as IEEE-754 binary64, with the
      Standard Library's executable [SpecFloat] (round to nearest even,
      precision 53, [emax] 1024): number literals ([dec]), [+], [*],
      [Math.round], the falsy test behind [x || 0], and the exact
      rational value of a double.
    - [JsObject]: a plain JavaScript object as an ordered association
      list with JavaScript's property semantics (a spread-and-set
      [{...o, [k]: v}] keeps the position of an existing key and appends a
      new one).
    - [Scoring]: [WEIGHTS] and [calculateFinalScore] on doubles, as the
      code computes, and a reference scoring in exact rational arithmetic
      on the decimal literals, the contract the spec states.
    - [Classifier]: [getCategoryFromScore] on doubles and on integers.
    - [Catalog]: [QUESTIONS] as records, and the values each question can
      produce through the UI.
    - [ScoreRefinement]: the refinement of the exact scoring by the
      double-precision one on every answer the catalog allows.
    - [JsString]: [trim] (on the UTF-8 encoding, with every ECMAScript
      white space), [join], integers printed in decimal, [String(n)] and
      [toFixed(0)].
    - [JsNumberText]: [Number::toString] of every double (the shortest
      digits that read back, then ECMAScript's plain, fractional or
      exponential layout), used by the progress bar's width (line 467),
      and [parseFloat] (leading white space, sign, [Infinity], the
      longest decimal prefix, correct rounding), used on the slider's
      [e.target.value] (line 507).
    - [Explanation]: [generateAIExplanation]: the prompt, the request
      body, the parsing of the reply with the points where JavaScript
      throws, and the fallback texts.  The service is a function argument.
    - [Feedback]: [JSON.stringify], [toISOString] (Hinnant's civil-date
      algorithm), the key [feedback_<ms>] and the stored record.
    - [Quiz]: the component itself.  Its nine [useState] hooks are the
      record [ui]; a [world] adds the clock, the [setTimeout] timers with
      the values their closures captured, the awaited promises, the shared
      storage, the requests sent and whether rendering crashed.  The
      handlers ([handleAnswer], [processResults], [handleFeedback],
      [handleReset]) and the timer bodies ([afterAnswer], [run_callback])
      are definitions of the same names; [intro_view], [questions_view],
      [result_view] and [feedback_view] are the controls each stage
      renders; [step] is one event (a click, a slider move, time passing,
      a promise settling) and [reachable] the states a fresh start reaches
      ([reach_from] of this file).
    - [QuizRuns]: runs of the component: a quiz answered at the pace of
      the code, and the scenarios of double clicks, resets and feedback
      clicks, evaluated.
    - [QuizInvariants]: the invariant [world_ok] of every reachable world
      (KPI objects of the catalogue, slider on a step, score and category
      consistent, timers sorted) and what follows from it.
    - [Render]: what each stage shows ([render]): the counter and the
      progress width of the question header, the question's controls
      with the options' animation delays and the slider's value label,
      and the result card with [getScoreEmoji], [getScoreColor] and the
      score text; [screen_texts] is the text content of every stage in
      document order.
    - [QuizStorage]: the invariant of the shared storage: only feedback
      records, under [feedback_<ms>] keys, are written to it.
    - [QuizSpec]: the spec's flow (intro, questions, loading, result,
      feedback, reset) as the abstract machine [spec_step], the
      abstraction [abs] of a world, the environment the spec assumes
      ([calm_event]: one event at a time, no click while an answer is
      pending, one feedback click, no reset with work pending), and the
      refinement of the machine by the component.

    ** Theorems

    - The component ([QuizRuns], [QuizInvariants]): in every reachable
      state, under any interleaving of clicks, timers, promises, resets
      and crashes, a set score is an integer in [0,100] with the
      classifier's category ([reachable_score_shown], by rule induction on
      [reachable] with the invariant [world_ok]), and the state keeps its
      types ([reachable_state_typed]).  A quiz answered at the pace of the
      code reaches the result with the score of the collected answers and
      one request ([quiz_run_completes]); the same user who then gives
      feedback reaches the feedback screen with exactly one stored record
      of that score, its category and the click's time
      ([quiz_feedback_recorded]).  No callback sets a new timer, so
      waiting until the last timer is due leaves none running
      ([timers_quiesce]).
    - The defects, each for every world of the shape that exposes it: two
      clicks on an option of question [k] skip question [k + 1], crash on
      [k = 5] and send two requests on [k = 6]
      ([double_click_answers_twice]); a reset cancels neither the
      thank-you timer ([reset_keeps_thanks_timer]) nor an awaited
      explanation, which brings back a result screen with no score
      ([result_without_score]); two feedback clicks in the same
      millisecond leave only the second record
      ([feedback_same_ms_overwrites]).
    - Refinement of the spec's flow ([QuizSpec]): in the environment the
      spec assumes, every reachable world has one of nine shapes
      ([calm_shape], one per point of the flow) and every step of the
      component is a step of [spec_step] or leaves the abstract state
      unchanged ([calm_step_refines]); such runs never crash, keep at most
      one timer and one promise outstanding ([calm_no_crash]) and always
      show a score on the result screen ([calm_result_screen]).
    - Screen and storage ([Render], [QuizStorage]): in every reachable
      state a result screen shows an integer percentage in the colour and
      with the emoji of its category, or a bare [%] in red
      ([result_screen_consistent]); the progress bar grows strictly to
      exactly 100%; the slider's label names an end exactly at that end;
      the shared storage holds only feedback records whose score is null
      or an integer percentage with its category.  A storage write that
      fails is swallowed by the [catch]: the storage is unchanged and the
      feedback screen still follows 1500 ms later
      ([storage_write_settles]).
    - Refinement of the scoring: for every one of the 45056 answer
      combinations of the catalog, the double-precision score equals the
      exactly rounded score, except at exact .5 ties, where it may be one
      lower.  The check is an exhaustive evaluation by [vm_compute] over a
      tree of partial sums, related to the universally quantified
      statement by [forall_paths_spec] of this file.
    - Scoring and classifier: the score depends on the KPI object only
      through its lookups (the insertion order does not matter) and a
      missing KPI counts as 0; the three categories partition the safe
      integers at 30 and 65.
    - Explanation: on every reply that makes the [try] block throw, by
      the reply's shape ([reply_throws]), the explanation is the
      category's fallback; on every [content] array of text and other
      segments it is the texts joined and trimmed, never the fallback; the
      HTTP status is ignored; catalog values print as exact percentages.
    - Feedback: for every integer score, category, judgement and time the
      stored value is the JSON text of the record, fields in the order of
      the object literal ([feedback_value_format]).

    Further lemmas of the files record evaluated runs and facts of the
    JavaScript built-ins that the findings cite: the tie [64.5] scored
    64, the spec's worked example, [NaN] classified [high], the
    round trip of [parseFloat] and [Number::toString], the calendar
    algorithm of [toISOString], and the stable order of equal timers.

    ** Bounds and choices

    Doubles are [SpecFloat]'s [spec_float] at precision 53 and [emax]
    1024, the binary64 format of ECMAScript.  A decimal literal [(m, k)]
    is the correctly rounded quotient [m / 10^k], which is what a
    JavaScript engine reads for the literal.  The slider's values are
    the doubles nearest [k/10], [k = 0..10]: the browser serializes the
    range input's step values as short decimal strings
    ([range_value_text]) and the code reads them back with the modelled
    [parseFloat]; the serialization is the one modelled piece of
    behaviour that is not code of the repository.  [fire_until] takes one
    more round of fuel than there are timers; no callback schedules a
    timer, so this fuel always suffices ([wait_fires_due]).  Time is in
    integer milliseconds; timers of equal due time fire in the order they
    were scheduled.  [Number::toString] is [js_number_text]; the
    components whose theorems do not depend on how non-integral numbers
    print ([Explanation], [Feedback], [Quiz]) take it as a section
    variable, which [Render] instantiates.  Its search tries [k = 1..17]
    digits (fuel 16 after the first), enough since 17 significant digits
    identify every double; [strip_zeros] gets 17 rounds of fuel, one per
    digit.

    ** Not modelled

    The [<style jsx>] blocks (about 700 of the file's 1201 lines), icons,
    animation delays and the [scrollIntoView] effect are presentation and
    change no state; [render] keeps the data and the texts each stage
    shows.  Every line of [App.jsx] outside the [<style jsx>] blocks,
    imports and closing brackets is mapped to a definition; this is why
    the map covers about a third of the file's lines: the rest is CSS.  Also left out: the network
    transport of [fetch] (the service is an arbitrary function of the
    request), the third argument [true] of [window.storage.set] (one
    shared storage is modelled), and the browser's scheduling beyond the
    order of timers.
*)

From Stdlib Require Export ZArith QArith Qround List String Lia Lqa Morphisms Setoid.
Export ListNotations.

Declare Scope crush_scope.
Delimit Scope crush_scope with crush.

Create HintDb crush discriminated.
Create Rewrite HintDb crush_rw.

(** Inversion with cleanup. *)
Ltac inv H := inversion H; subst; clear H.

(** Close a closed boolean check by evaluation in the virtual machine. *)
Ltac by_eval := vm_compute; reflexivity.

(** ** Paths through a list of choices

    [forall_paths cs f b P] checks [P] on [fold_left f xs b] for every
    list [xs] that picks one element of each list of [cs], sharing the
    partial folds of common prefixes.  This is the executable form of a
    universally quantified statement over all answer combinations. *)

Fixpoint forall_paths {A B : Type} (cs : list (list A)) (f : B -> A -> B)
    (b : B) (P : B -> bool) : bool :=
  match cs with
  | [] => P b
  | c :: cs' => forallb (fun a => forall_paths cs' f (f b a) P) c
  end.

Lemma forall_paths_spec {A B : Type} (cs : list (list A)) (f : B -> A -> B)
    (P : B -> bool) :
  forall b, forall_paths cs f b P = true ->
  forall xs, Forall2 (fun x c => In x c) xs cs -> P (fold_left f xs b) = true.
Proof.
  induction cs as [|c cs IH]; intros b Hc xs Hxs; inv Hxs; simpl in *.
  - exact Hc.
  - rewrite forallb_forall in Hc. apply IH; auto.
Qed.

(** ** Rounding half up on the rationals

    [round_half_up q] is the integer nearest to [q], the larger one on a
    tie: the rounding the spec asks of the score. *)

Definition round_half_up (q : Q) : Z := Qfloor (q + (1 # 2)).

(** [q] lies exactly half-way between two integers. *)
Definition is_tie (q : Q) : bool := Qeq_bool (inject_Z (round_half_up q)) (q + (1 # 2)).

Lemma round_half_up_spec (q : Q) :
  inject_Z (round_half_up q) <= q + (1 # 2) < inject_Z (round_half_up q) + 1.
Proof.
  unfold round_half_up. split.
  - apply Qfloor_le.
  - pose proof (Qlt_floor (q + (1 # 2))) as H.
    rewrite inject_Z_plus in H. exact H.
Qed.

Lemma round_half_up_le (q r : Q) : q <= r -> (round_half_up q <= round_half_up r)%Z.
Proof.
  intros H. unfold round_half_up. apply Qfloor_resp_le.
  apply Qplus_le_compat; [exact H | apply Qle_refl].
Qed.

Lemma round_half_up_inject (z : Z) : round_half_up (inject_Z z) = z.
Proof.
  unfold round_half_up, Qfloor, Qplus, inject_Z; simpl.
  symmetry. apply (Z.div_unique _ _ _ 1); lia.
Qed.

Lemma round_half_up_bounds (q : Q) (lo hi : Z) :
  inject_Z lo <= q <= inject_Z hi ->
  (lo <= round_half_up q <= hi)%Z.
Proof.
  intros [H1 H2]. split.
  - rewrite <- (round_half_up_inject lo). now apply round_half_up_le.
  - rewrite <- (round_half_up_inject hi). now apply round_half_up_le.
Qed.

#[export] Instance round_half_up_Proper : Proper (Qeq ==> eq) round_half_up.
Proof.
  intros q r H. apply Z.le_antisymm; apply round_half_up_le, Qle_lteq; right;
    [exact H | symmetry; exact H].
Qed.

#[export] Instance is_tie_Proper : Proper (Qeq ==> eq) is_tie.
Proof.
  intros q r H. unfold is_tie. rewrite (round_half_up_Proper q r H).
  apply Bool.eq_true_iff_eq. rewrite !Qeq_bool_iff. rewrite H. reflexivity.
Qed.

#[export] Hint Resolve round_half_up_le round_half_up_bounds : crush.

(** ** Distinct strings, decided *)

Fixpoint nodup_strings (l : list string) : bool :=
  match l with
  | [] => true
  | x :: xs => negb (existsb (String.eqb x) xs) && nodup_strings xs
  end.

Lemma nodup_strings_spec (l : list string) : nodup_strings l = true -> NoDup l.
Proof.
  induction l as [|x xs IH]; simpl; intros H; constructor.
  - apply andb_prop in H as [H _]. intros Hin. apply Bool.negb_true_iff in H.
    rewrite <- Bool.not_true_iff_false, existsb_exists in H. apply H.
    exists x. split; [exact Hin | apply String.eqb_refl].
  - apply IH. apply andb_prop in H as [_ H]. exact H.
Qed.

Lemma is_tie_pos (q : Q) : is_tie q = true -> 0 <= q -> (1 <= round_half_up q)%Z.
Proof.
  unfold is_tie. intros H Hq. apply Qeq_bool_iff in H.
  assert (0 < inject_Z (round_half_up q)) as Hp.
  { rewrite H. apply Qlt_le_trans with (1 # 2); [reflexivity|].
    rewrite <- (Qplus_0_l (1 # 2)) at 1. apply Qplus_le_compat; [exact Hq | apply Qle_refl]. }
  unfold Qlt in Hp. simpl in Hp. lia.
Qed.

Lemma Forall2_In_l {A B : Type} (R : A -> B -> Prop) (xs : list A) (ys : list B) (x : A) :
  Forall2 R xs ys -> In x xs -> exists y, In y ys /\ R x y.
Proof.
  induction 1 as [|x' y' xs ys Hr _ IH]; simpl; [tauto|].
  intros [<-|Hin]; [eauto|]. destruct (IH Hin) as (y & Hy & Hr'). eauto.
Qed.


(** ** States reachable by a step function

    [reach_from step allowed init] holds of the states a run from an
    initial state reaches by steps whose event [allowed] accepts.  An
    invariant that holds initially and that every allowed step preserves
    holds of every such state ([reach_invariant]): the establish/preserve
    rule of an event loop. *)

(** String concatenation is associative; [crush_rw] puts a concatenation
    in its right-nested form. *)
Lemma str_app_assoc (s1 s2 s3 : string) : ((s1 ++ s2) ++ s3)%string = (s1 ++ s2 ++ s3)%string.
Proof. induction s1 as [|c s1 IH]; simpl; [reflexivity | now rewrite IH]. Qed.

#[export] Hint Rewrite str_app_assoc : crush_rw.

(** A boolean check of every index below [n] proves it of each. *)
Lemma forallb_seq (f : nat -> bool) (n : nat) :
  forallb f (seq 0 n) = true -> forall i, (i < n)%nat -> f i = true.
Proof. intros H i Hi. rewrite forallb_forall in H. apply H, in_seq. lia. Qed.

Section Reach.

Context {S E : Type} (step : S -> E -> option S) (allowed : S -> E -> bool) (init : S -> Prop).

Inductive reach_from : S -> Prop :=
| reach_start (s : S) : init s -> reach_from s
| reach_next (s s' : S) (e : E) : reach_from s -> allowed s e = true -> step s e = Some s' -> reach_from s'.

Lemma reach_invariant (Inv : S -> Prop) :
  (forall s, init s -> Inv s) ->
  (forall s e s', Inv s -> allowed s e = true -> step s e = Some s' -> Inv s') ->
  forall s, reach_from s -> Inv s.
Proof. intros Hi Hp s Hr. induction Hr; eauto. Qed.

End Reach.
