(* ===== verification/JsNumber.v ===== *)
(** JavaScript numbers: IEEE-754 binary64 through the Standard Library's
    executable [SpecFloat], with the operations [calculateFinalScore] and
    [getCategoryFromScore] use, and the render's [/] and [===]: number
    literals, [+], [*], [<],
    [Math.round] and the [x || 0] default.  The main lemma says that the
    safe integers (absolute value below 2^53) are represented exactly and
    compare as integers. *)

From S2P Require Import Prelude.
From Stdlib Require Export SpecFloat.

Local Open Scope Z_scope.

(** ** The binary64 format *)

Definition prec : Z := 53.
Definition emax : Z := 1024.

(** A JavaScript number value. *)
Definition number : Type := spec_float.

(** The number with integer value [z] (exact when [|z| < 2^53]). *)
Definition of_Z (z : Z) : number := binary_normalize prec emax z 0 false.

(** The number literal written [m * 10^-k] in decimal (so [dec 15 2] is
    the literal [0.15]), read as the correctly rounded quotient of two
    exact integers, as a JavaScript engine reads a decimal literal. *)
Definition dec (m : Z) (k : nat) : number :=
  SFdiv prec emax (of_Z m) (of_Z (10 ^ Z.of_nat k)).

(** A decimal literal as written in the source: [(m, k)] is [m * 10^-k];
    [literal] is the number a JavaScript engine reads for it and
    [decimal_Q] its exact value. *)
Definition decimal : Type := (Z * nat)%type.

Definition literal (d : decimal) : number := dec (fst d) (snd d).

Definition decimal_Q (d : decimal) : Q := fst d # Z.to_pos (10 ^ Z.of_nat (snd d)).

Definition add (x y : number) : number := SFadd prec emax x y.
Definition mul (x y : number) : number := SFmul prec emax x y.

(** [x < y] on numbers: false when either is NaN. *)
Definition lt (x y : number) : bool := SFltb x y.

Definition div (x y : number) : number := SFdiv prec emax x y.

(** [x === y] on numbers: [+0] equals [-0], NaN equals nothing. *)
Definition strict_eq (x y : number) : bool := SFeqb x y.


(** The exact rational value of a finite number. *)
Definition to_Q (x : number) : option Q :=
  match x with
  | S754_zero _ => Some 0%Q
  | S754_finite s m e =>
      let z := if s then Zneg m else Zpos m in
      Some (if 0 <=? e then inject_Z (z * 2 ^ e) else z # Z.to_pos (2 ^ (- e)))
  | _ => None
  end.

(** ** [Math.round]

    ECMAScript: NaN, the infinities and integral numbers are returned
    unchanged; otherwise the integral number closest to [x], the one
    closer to +Infinity on a tie, with the sign of [x] when that integer
    is zero.  [round_finite] is [floor (x + 1/2)] on the exact value
    [m * 2^e]. *)

Definition round_finite (s : bool) (m : positive) (e : Z) : Z :=
  let z := if s then Zneg m else Zpos m in
  if 0 <=? e then Z.shiftl z e else Z.shiftr (2 * z + 2 ^ (- e)) (1 - e).

Definition math_round (x : number) : number :=
  match x with
  | S754_finite s m e =>
      let n := round_finite s m e in
      if n =? 0 then S754_zero s else of_Z n
  | _ => x
  end.

(** ** Truthiness and [x || 0]

    [truthy] is ToBoolean on numbers: false exactly for [+0], [-0] and
    NaN.  [or_zero] is [v || 0] where [v] is a property read that is
    [undefined] ([None]) when the key is absent. *)

Definition truthy (x : number) : bool :=
  match x with
  | S754_zero _ | S754_nan => false
  | _ => true
  end.

Definition or_zero (v : option number) : number :=
  match v with
  | Some x => if truthy x then x else of_Z 0
  | None => of_Z 0
  end.

(** Structural equality of numbers ([+0] and [-0] differ, NaN equals
    NaN): equality of the model, not JavaScript's [===]. *)
Definition number_eqb (x y : number) : bool :=
  match x, y with
  | S754_zero s1, S754_zero s2 => Bool.eqb s1 s2
  | S754_infinity s1, S754_infinity s2 => Bool.eqb s1 s2
  | S754_nan, S754_nan => true
  | S754_finite s1 m1 e1, S754_finite s2 m2 e2 => Bool.eqb s1 s2 && Pos.eqb m1 m2 && Z.eqb e1 e2
  | _, _ => false
  end.

(** ** Safe integers

    A safe integer has a canonical binary64 form whose mantissa is the
    integer shifted left to 53 bits; [canon] computes it.  Two safe
    integers compare as doubles exactly as they compare as integers. *)

Definition safe_int (z : Z) : Prop := - 2 ^ 53 < z < 2 ^ 53.

(** The canonical mantissa and exponent of a positive integer of at most
    53 bits. *)
Definition canon (p : positive) : positive * Z :=
  match 53 - Zpos (digits2_pos p) with
  | Zpos k => (Pos.iter xO p k, - Zpos k)
  | _ => (p, 0)
  end.

Lemma digits2_pos_bounds (p : positive) :
  2 ^ (Zpos (digits2_pos p) - 1) <= Zpos p < 2 ^ Zpos (digits2_pos p).
Proof.
  induction p as [p IH|p IH|]; cbn [digits2_pos].
  3: simpl; lia.
  all: rewrite Pos2Z.inj_succ, Z.pow_succ_r by lia;
       replace (Z.succ (Zpos (digits2_pos p)) - 1) with (Zpos (digits2_pos p)) by lia.
  all: remember (Zpos (digits2_pos p)) as d.
  all: assert (2 ^ d = 2 * 2 ^ (d - 1)) by (rewrite <- Z.pow_succ_r by lia; f_equal; lia).
  all: lia.
Qed.

Lemma digits2_pos_iter_xO (p k : positive) :
  digits2_pos (Pos.iter xO p k) = (digits2_pos p + k)%positive.
Proof.
  induction k as [|k IH] using Pos.peano_ind.
  - simpl. lia.
  - rewrite Pos.iter_succ. simpl. rewrite IH. lia.
Qed.

Lemma iter_xO_mul (p k : positive) : Zpos (Pos.iter xO p k) = Zpos p * 2 ^ Zpos k.
Proof.
  induction k as [|k IH] using Pos.peano_ind.
  - simpl. lia.
  - rewrite Pos.iter_succ, Pos2Z.inj_xO, IH, Pos2Z.inj_succ, Z.pow_succ_r by lia. lia.
Qed.

Lemma round_aux_exact (s : bool) (m : positive) (e : Z) :
  Zpos (digits2_pos m) = 53 -> -1074 <= e <= 971 ->
  binary_round_aux prec emax s (Zpos m) e loc_Exact = S754_finite s m e.
Proof.
  intros Hm He. unfold binary_round_aux, shr_fexp.
  change (Zdigits2 (Zpos m)) with (Zpos (digits2_pos m)). rewrite Hm.
  assert (Hf : fexp prec emax (53 + e) - e = 0) by (unfold fexp, emin, prec, emax; lia).
  rewrite Hf. unfold shr. cbn [shr_record_of_loc loc_of_shr_record round_nearest_even shr_m].
  change (Zdigits2 (Zpos m)) with (Zpos (digits2_pos m)). rewrite Hm, Hf.
  cbn [shr_m]. rewrite (proj2 (Z.leb_le _ _)) by (unfold emax, prec; lia). reflexivity.
Qed.

Lemma binary_round_small (s : bool) (p : positive) :
  Zpos (digits2_pos p) <= 53 ->
  binary_round prec emax s p 0 = S754_finite s (fst (canon p)) (snd (canon p)).
Proof.
  intros Hd. unfold binary_round.
  assert (Hf : fexp prec emax (Zpos (digits2_pos p) + 0) = - (53 - Zpos (digits2_pos p)))
    by (unfold fexp, emin, prec, emax; lia).
  rewrite Hf. unfold shl_align, canon. rewrite Z.sub_0_r.
  destruct (53 - Zpos (digits2_pos p)) as [|k|k] eqn:E; cbn [Z.opp fst snd].
  - apply round_aux_exact; lia.
  - apply round_aux_exact; [rewrite digits2_pos_iter_xO; lia | lia].
  - lia.
Qed.

Lemma digits_le_53 (p : positive) : Zpos p < 2 ^ 53 -> Zpos (digits2_pos p) <= 53.
Proof.
  intros H. pose proof (digits2_pos_bounds p) as [H1 _].
  assert (Zpos (digits2_pos p) - 1 < 53); [|lia].
  apply (Z.pow_lt_mono_r_iff 2); lia.
Qed.

Lemma canon_value (p : positive) : Zpos (digits2_pos p) <= 53 ->
  Zpos (fst (canon p)) = Zpos p * 2 ^ (53 - Zpos (digits2_pos p)) /\
  snd (canon p) = Zpos (digits2_pos p) - 53.
Proof.
  intros Hd. unfold canon.
  destruct (53 - Zpos (digits2_pos p)) as [|k|k] eqn:E; cbn [fst snd].
  - split; lia.
  - rewrite iter_xO_mul. split; lia.
  - lia.
Qed.

Lemma canon_compare (p1 p2 : positive) :
  Zpos (digits2_pos p1) <= 53 -> Zpos (digits2_pos p2) <= 53 ->
  match Z.compare (snd (canon p1)) (snd (canon p2)) with
  | Lt => Lt | Gt => Gt | Eq => Pos.compare_cont Eq (fst (canon p1)) (fst (canon p2))
  end = Pos.compare p1 p2.
Proof.
  intros H1 H2.
  destruct (canon_value p1 H1) as [Hm1 He1], (canon_value p2 H2) as [Hm2 He2].
  pose proof (digits2_pos_bounds p1) as [L1 U1].
  pose proof (digits2_pos_bounds p2) as [L2 U2].
  rewrite He1, He2.
  remember (Zpos (digits2_pos p1)) as d1. remember (Zpos (digits2_pos p2)) as d2.
  destruct (Z.compare_spec (d1 - 53) (d2 - 53)) as [E|E|E].
  - assert (d1 = d2) by lia.
    rewrite <- H in Hm2.
    change (Pos.compare (fst (canon p1)) (fst (canon p2)) = Pos.compare p1 p2).
    rewrite (Pos2Z.inj_compare (fst _)), (Pos2Z.inj_compare p1), Hm1, Hm2.
    symmetry. apply Zmult_compare_compat_r. apply Z.lt_gt, Z.pow_pos_nonneg; lia.
  - symmetry. apply Pos.compare_lt_iff. apply Pos2Z.pos_lt_pos.
    assert (2 ^ d1 <= 2 ^ (d2 - 1)) by (apply Z.pow_le_mono_r; lia). lia.
  - symmetry. apply Pos.compare_gt_iff. apply Pos2Z.pos_lt_pos.
    assert (2 ^ d2 <= 2 ^ (d1 - 1)) by (apply Z.pow_le_mono_r; lia). lia.
Qed.

Lemma of_Z_pos (p : positive) : Zpos p < 2 ^ 53 ->
  of_Z (Zpos p) = S754_finite false (fst (canon p)) (snd (canon p)).
Proof. intros H. apply binary_round_small, digits_le_53, H. Qed.

Lemma of_Z_neg (p : positive) : Zpos p < 2 ^ 53 ->
  of_Z (Zneg p) = S754_finite true (fst (canon p)) (snd (canon p)).
Proof. intros H. apply binary_round_small, digits_le_53, H. Qed.

Lemma of_Z_compare (a b : Z) : safe_int a -> safe_int b ->
  SFcompare (of_Z a) (of_Z b) = Some (Z.compare a b).
Proof.
  unfold safe_int. intros Ha Hb.
  destruct a as [|p1|p1], b as [|p2|p2];
    rewrite ?of_Z_pos, ?of_Z_neg by lia; try reflexivity;
    cbn [SFcompare]; f_equal.
  - apply canon_compare; apply digits_le_53; lia.
  - change (Z.neg p1 ?= Z.neg p2) with (CompOpp (Pos.compare p1 p2)).
    rewrite <- (canon_compare p1 p2) by (apply digits_le_53; lia).
    destruct (Z.compare _ _); reflexivity.
Qed.

Lemma lt_of_Z (a b : Z) : safe_int a -> safe_int b -> lt (of_Z a) (of_Z b) = (a <? b).
Proof.
  intros Ha Hb. unfold lt, SFltb. rewrite of_Z_compare by assumption.
  destruct (Z.compare_spec a b) as [E|E|E];
    [rewrite (proj2 (Z.ltb_ge a b)) | rewrite (proj2 (Z.ltb_lt a b)) | rewrite (proj2 (Z.ltb_ge a b))];
    auto; lia.
Qed.

#[export] Hint Rewrite lt_of_Z using (unfold safe_int; lia) : crush_rw.

Lemma number_eqb_eq (x y : number) : number_eqb x y = true <-> x = y.
Proof.
  split.
  - destruct x, y; simpl; intros H; try discriminate;
      repeat rewrite Bool.andb_true_iff in H;
      repeat match goal with
      | H : _ /\ _ |- _ => destruct H
      | H : Bool.eqb _ _ = true |- _ => apply Bool.eqb_prop in H
      | H : Pos.eqb _ _ = true |- _ => apply Pos.eqb_eq in H
      | H : Z.eqb _ _ = true |- _ => apply Z.eqb_eq in H
      end; subst; reflexivity.
  - intros <-. destruct x; simpl; rewrite ?Bool.eqb_reflx, ?Pos.eqb_refl, ?Z.eqb_refl; reflexivity.
Qed.
