(* ===== verification/JsObject.v ===== *)
(** Plain JavaScript objects used as dictionaries: an ordered list of
    properties.  [get] is a property read ([o[k]], [undefined] as [None]),
    [set] is the spread-and-set [{...o, [k]: v}] of [handleAnswer] (a copy
    of [o] where an existing key keeps its position and a new key is
    appended), and [keys] is [Object.keys].  Keys that are array indices,
    which JavaScript enumerates first, do not occur in this program.

    Two objects with the same lookups are equivalent ([obj_equiv]); [get]
    and [set] respect the equivalence, so a client whose result depends on
    lookups only is insensitive to the insertion order of properties. *)

From S2P Require Import Prelude.
From Stdlib Require Import Permutation Morphisms Setoid.

Section JsObject.

Context {V : Type}.

Definition obj : Type := list (string * V).

Definition empty : obj := [].

Fixpoint get (o : obj) (k : string) : option V :=
  match o with
  | [] => None
  | (k', v) :: o' => if String.eqb k k' then Some v else get o' k
  end.

Fixpoint set (o : obj) (k : string) (v : V) : obj :=
  match o with
  | [] => [(k, v)]
  | (k', v') :: o' => if String.eqb k k' then (k, v) :: o' else (k', v') :: set o' k v
  end.

Definition keys (o : obj) : list string := map fst o.

(** An object built by setting the pairs of [l] in order. *)
Definition of_list (l : list (string * V)) : obj :=
  fold_left (fun o kv => set o (fst kv) (snd kv)) l empty.

Definition obj_equiv (o1 o2 : obj) : Prop := forall k, get o1 k = get o2 k.

Lemma get_set_eq (o : obj) (k : string) (v : V) : get (set o k v) k = Some v.
Proof.
  induction o as [|[k' v'] o IH]; simpl; rewrite ?String.eqb_refl; [reflexivity|].
  destruct (String.eqb k k') eqn:E; simpl; rewrite ?String.eqb_refl, ?E; auto.
Qed.

Lemma get_set_ne (o : obj) (k k' : string) (v : V) :
  k <> k' -> get (set o k v) k' = get o k'.
Proof.
  intros Hne. induction o as [|[k0 v0] o IH]; simpl.
  - rewrite (proj2 (String.eqb_neq k' k)); auto.
  - destruct (String.eqb k k0) eqn:E; simpl.
    + apply String.eqb_eq in E. subst k0.
      rewrite (proj2 (String.eqb_neq k' k)); auto.
    + destruct (String.eqb k' k0); auto.
Qed.

(** Setting a key twice keeps only the second value, at the key's place. *)
Lemma set_set (o : obj) (k : string) (v1 v2 : V) : set (set o k v1) k v2 = set o k v2.
Proof.
  induction o as [|[k' v'] o IH]; simpl; [rewrite String.eqb_refl; reflexivity|].
  destruct (String.eqb k k') eqn:E; simpl; rewrite ?String.eqb_refl, ?E, ?IH; reflexivity.
Qed.

Lemma get_set (o : obj) (k k' : string) (v : V) :
  get (set o k v) k' = if String.eqb k' k then Some v else get o k'.
Proof.
  destruct (String.eqb_spec k' k) as [->|Hne].
  - apply get_set_eq.
  - apply get_set_ne. congruence.
Qed.

Lemma keys_set_in (o : obj) (k : string) (v : V) :
  In k (keys o) -> keys (set o k v) = keys o.
Proof.
  induction o as [|[k' v'] o IH]; simpl; [tauto|].
  intros H. destruct (String.eqb_spec k k') as [->|Hne]; simpl; [reflexivity|].
  rewrite IH; [reflexivity|]. destruct H; [congruence|assumption].
Qed.

Lemma keys_set_notin (o : obj) (k : string) (v : V) :
  ~ In k (keys o) -> keys (set o k v) = keys o ++ [k].
Proof.
  induction o as [|[k' v'] o IH]; simpl; [reflexivity|].
  intros H. destruct (String.eqb_spec k k') as [->|Hne]; [tauto|]. simpl.
  rewrite IH; tauto.
Qed.

Lemma keys_set_NoDup (o : obj) (k : string) (v : V) :
  NoDup (keys o) -> NoDup (keys (set o k v)).
Proof.
  intros H. destruct (in_dec String.string_dec k (keys o)) as [Hin|Hin].
  - now rewrite keys_set_in.
  - rewrite keys_set_notin by assumption.
    apply NoDup_app; auto using NoDup_cons, NoDup_nil.
    intros x Hx [<-|[]]. contradiction.
Qed.

Lemma get_In (o : obj) (k : string) (v : V) : get o k = Some v -> In (k, v) o.
Proof.
  induction o as [|[k' v'] o IH]; simpl; [discriminate|].
  destruct (String.eqb_spec k k') as [->|_]; [injection 1 as ->; auto | auto].
Qed.

Lemma In_get (o : obj) (k : string) (v : V) :
  NoDup (keys o) -> In (k, v) o -> get o k = Some v.
Proof.
  induction o as [|[k' v'] o IH]; simpl; [tauto|].
  intros Hnd Hin. inv Hnd. destruct (String.eqb_spec k k') as [->|Hne].
  - destruct Hin as [E|Hin]; [congruence|].
    exfalso. apply H1. apply in_map_iff. exists (k', v). auto.
  - destruct Hin as [E|Hin]; [congruence|auto].
Qed.

(** Lookups of an object with distinct keys do not depend on the order of
    its properties. *)
Lemma get_Permutation (o1 o2 : obj) :
  NoDup (keys o1) -> Permutation o1 o2 -> obj_equiv o1 o2.
Proof.
  intros Hnd Hp k.
  assert (Hnd2 : NoDup (keys o2)) by (eapply Permutation_NoDup; [apply Permutation_map|]; eauto).
  destruct (get o1 k) as [v|] eqn:E1.
  - symmetry. apply In_get; auto. eapply Permutation_in; eauto using get_In.
  - destruct (get o2 k) as [v|] eqn:E2; [|reflexivity].
    apply get_In in E2. apply (Permutation_in _ (Permutation_sym Hp)) in E2.
    apply (In_get _ _ _ Hnd) in E2. congruence.
Qed.

#[export] Instance obj_equiv_Equivalence : Equivalence obj_equiv.
Proof.
  split; repeat intro; [reflexivity | symmetry; auto | etransitivity; eauto].
Qed.

#[export] Instance get_Proper : Proper (obj_equiv ==> eq ==> eq) get.
Proof. intros o1 o2 H k ? <-. apply H. Qed.

#[export] Instance set_Proper : Proper (obj_equiv ==> eq ==> eq ==> obj_equiv) set.
Proof.
  intros o1 o2 H k ? <- v ? <- k'. rewrite !get_set. now rewrite H.
Qed.

Lemma set_notin (o : obj) (k : string) (v : V) :
  ~ In k (keys o) -> set o k v = o ++ [(k, v)].
Proof.
  induction o as [|[k' v'] o IH]; simpl; [reflexivity|].
  intros H. destruct (String.eqb_spec k k') as [->|_]; [tauto|].
  rewrite IH; tauto.
Qed.

(** Setting the pairs of a list with distinct keys, in order, rebuilds
    the list. *)
Lemma of_list_NoDup (l : list (string * V)) : NoDup (map fst l) -> of_list l = l.
Proof.
  induction l as [|[k v] l IH] using rev_ind; [reflexivity|].
  intros Hnd. unfold of_list. rewrite fold_left_app. fold (of_list l).
  rewrite map_app in Hnd. simpl.
  rewrite IH by (eapply NoDup_app_remove_r; eauto).
  apply set_notin. unfold keys. intros Hin.
  apply (Permutation_NoDup (Permutation_app_comm _ _)) in Hnd. inv Hnd. contradiction.
Qed.

Lemma In_set (o : obj) (k : string) (v : V) (kv : string * V) :
  In kv (set o k v) -> kv = (k, v) \/ In kv o.
Proof.
  induction o as [|[k' v'] o IH]; simpl.
  - intros [<-|[]]. left. reflexivity.
  - destruct (String.eqb k k'); simpl; intros [<-|H].
    + left. reflexivity.
    + right. right. exact H.
    + right. left. reflexivity.
    + destruct (IH H) as [->|H']; [left; reflexivity | right; right; exact H'].
Qed.

(** A property read from an object built from a list finds a pair of the
    list. *)
Lemma get_of_list_In (l : list (string * V)) (k : string) (v : V) :
  get (of_list l) k = Some v -> In (k, v) l.
Proof.
  intros H. apply get_In in H. unfold of_list in H.
  assert (Hgen : forall o, In (k, v) (fold_left (fun o kv => set o (fst kv) (snd kv)) l o) ->
                 In (k, v) o \/ In (k, v) l).
  { clear H. induction l as [|[k' v'] l IH]; simpl; [auto|].
    intros o Hin. destruct (IH _ Hin) as [Ho|Hl]; [|right; right; exact Hl].
    destruct (In_set _ _ _ _ Ho) as [E|Ho'].
    - right. left. symmetry. exact E.
    - left. exact Ho'. }
  destruct (Hgen _ H) as [[]|Hl]; exact Hl.
Qed.

End JsObject.

Arguments obj : clear implicits.

#[export] Hint Rewrite @get_set_eq @get_set_ne using congruence : crush_rw.
