(* ===== verification/JsString.v ===== *)
(** JavaScript string operations the program uses, on UTF-8 byte strings:
    [String.prototype.trim], [Array.prototype.join], the decimal printing
    of integers ([Number::toString] on integral numbers and
    [Number.prototype.toFixed(0)]), and the code points the texts are
    made of.

    A JavaScript string is a sequence of UTF-16 code units; here it is the
    UTF-8 encoding of the same code points, so [trim] recognises the
    UTF-8 encodings of every code point that ECMAScript counts as
    WhiteSpace or LineTerminator.  [Number::toString] of non-integral
    numbers is the argument [number_to_string_other]; [JsNumberText]
    defines it. *)

From S2P Require Import Prelude JsNumber.
From Stdlib Require Import Ascii DecimalString DecimalPos DecimalZ.

Local Open Scope nat_scope.
Local Open Scope string_scope.

(** ** Code points *)

(** The number of bytes of the UTF-8 sequence a leading byte starts (1 for
    an invalid or continuation byte). *)
Definition utf8_width (c : ascii) : nat :=
  let n := nat_of_ascii c in
  if Nat.ltb n 128 then 1
  else if Nat.ltb n 192 then 1
  else if Nat.ltb n 224 then 2
  else if Nat.ltb n 240 then 3
  else if Nat.ltb n 248 then 4
  else 1.

(** Split a string into its code points, each the string of its bytes. *)
Fixpoint units_fuel (fuel : nat) (s : string) : list string :=
  match fuel, s with
  | O, _ => []
  | _, EmptyString => []
  | S fuel', String c _ =>
      let w := utf8_width c in
      substring 0 w s :: units_fuel fuel' (substring w (String.length s - w) s)
  end.

Definition units (s : string) : list string := units_fuel (String.length s) s.

Fixpoint concat_units (us : list string) : string :=
  match us with
  | [] => EmptyString
  | u :: us' => u ++ concat_units us'
  end.

Definition byte (n : nat) : ascii := ascii_of_nat n.

Definition bytes (ns : list nat) : string :=
  fold_right (fun n s => String (byte n) s) EmptyString ns.

(** WhiteSpace and LineTerminator of ECMAScript: TAB, LF, VT, FF, CR, SP,
    NBSP, U+1680, U+2000..U+200A, LS, PS, NNBSP, MMSP, U+3000 and the
    byte order mark U+FEFF. *)
Definition js_whitespace : list string :=
  map (fun n => bytes [n]) [9; 10; 11; 12; 13; 32] ++
  [bytes [194; 160]; bytes [225; 154; 128]] ++
  map (fun n => bytes [226; 128; n]) [128; 129; 130; 131; 132; 133; 134; 135; 136; 137; 138] ++
  [bytes [226; 128; 168]; bytes [226; 128; 169]; bytes [226; 128; 175];
   bytes [226; 129; 159]; bytes [227; 128; 128]; bytes [239; 187; 191]].

Definition is_ws_unit (u : string) : bool := existsb (String.eqb u) js_whitespace.

Fixpoint drop_ws (us : list string) : list string :=
  match us with
  | u :: us' => if is_ws_unit u then drop_ws us' else us
  | [] => []
  end.

(** [s.trim()]. *)
Definition trim (s : string) : string := concat_units (rev (drop_ws (rev (drop_ws (units s))))).

(** [xs.join(sep)]. *)
Fixpoint join (sep : string) (xs : list string) : string :=
  match xs with
  | [] => EmptyString
  | [x] => x
  | x :: xs' => x ++ sep ++ join sep xs'
  end.

(** ** Numbers as text *)

(** The decimal digits of an integer, with a minus sign when negative. *)
Definition Z_to_string (z : Z) : string := NilZero.string_of_int (Z.to_int z).

(** Reading an optionally signed decimal integer back. *)
Definition Z_of_string (s : string) : option Z := option_map Z.of_int (NilZero.int_of_string s).

Section NumberText.

(** [Number::toString] on numbers that are not integral or whose magnitude
    is at least 10^21 (the shortest round-trip decimal, in exponent form
    from 10^21 on) is not modelled: it is a parameter of the section. *)
Variable number_to_string_other : number -> string.

Definition integral_value (x : number) : option Z :=
  match x with
  | S754_zero _ => Some 0%Z
  | S754_finite s m e =>
      let z := if s then Zneg m else Zpos m in
      if (0 <=? e)%Z then Some (Z.shiftl z e)
      else if (Z.modulo z (2 ^ (- e)) =? 0)%Z then Some (z / 2 ^ (- e))%Z
      else None
  | _ => None
  end.

(** [String(x)] for a number, as in a template literal. *)
Definition number_to_string (x : number) : string :=
  match x with
  | S754_nan => "NaN"
  | S754_infinity s => if s then "-Infinity" else "Infinity"
  | _ =>
      match integral_value x with
      | Some z => if (Z.abs z <? 10 ^ 21)%Z then Z_to_string z else number_to_string_other x
      | None => number_to_string_other x
      end
  end.

(** [x.toFixed(0)]: the integer nearest to [|x|], the larger one on a tie,
    with a minus sign when [x < 0] (so [(-0.4).toFixed(0)] is ["-0"]). *)
Definition toFixed0 (x : number) : string :=
  match x with
  | S754_nan => "NaN"
  | S754_infinity s => if s then "-Infinity" else "Infinity"
  | S754_zero _ => "0"
  | S754_finite s m e =>
      let a := round_finite false m e in
      if (10 ^ 21 <=? Z.shiftl (Zpos m) e)%Z then number_to_string_other x
      else (if s then "-" else EmptyString) ++ Z_to_string a
  end.

End NumberText.

(** ** Lemmas *)

(** Printing an integer and reading it back gives the integer. *)
Lemma Z_of_to_string (z : Z) : Z_of_string (Z_to_string z) = Some z.
Proof.
  unfold Z_of_string, Z_to_string. rewrite NilZero.isi.
  - simpl. now rewrite DecimalZ.of_to.
  - destruct z; simpl; try discriminate. intros H. injection H.
    apply DecimalPos.Unsigned.to_uint_nonnil.
  - destruct z; simpl; try discriminate. intros H. injection H.
    apply DecimalPos.Unsigned.to_uint_nonnil.
Qed.

Lemma Z_to_string_inj (z1 z2 : Z) : Z_to_string z1 = Z_to_string z2 -> z1 = z2.
Proof.
  intros H. apply (f_equal Z_of_string) in H. rewrite !Z_of_to_string in H. congruence.
Qed.
