(* ===== verification/JsNumberText.v ===== *)
(** ECMAScript's conversions between numbers and decimal text:
    [Number::toString(x)] (ECMA-262 6.1.6.1.20, radix 10), which the code
    calls through template literals and JSX ([`${...}%`] of the progress
    bar, line 467), and [parseFloat] (ECMA-262 19.2.4), which reads the
    slider's value back ([parseFloat(e.target.value)], line 507).

    [shortest] finds the digits [s] and the exponent [n] of ECMA-262's
    step 5: the fewest digits [k] such that the decimal [s * 10^(n-k)]
    reads back as [x], the one closest to [x] when two qualify (the even
    one on a tie).  For each [k] only the two [k]-digit decimals around
    the exact value of [x] can be the closest one that reads back, so the
    search tries those two; [k] runs from 1 to 17, the digits a double
    needs.  [format_decimal] is steps 6 to 10 (plain digits, a decimal
    point inside, a [0.] prefix, or the exponent form).  [parseFloat]
    skips leading white space, reads an optional sign, [Infinity] or the
    longest decimal literal, and rounds it correctly with
    [decimal_to_number]. *)

From S2P Require Import Prelude JsNumber JsString.
From Stdlib Require Import Ascii DecimalString DecimalPos DecimalZ.
From Stdlib Require DecimalFacts.

Local Open Scope string_scope.
Local Open Scope Z_scope.

(** ** Reading a decimal *)

(** The number [s * 10^q] denotes ([s >= 0]), correctly rounded to a
    double: the integer itself when [q >= 0], the correctly rounded
    quotient [s / 10^q] otherwise ([SFdiv] rounds the exact quotient of
    its operands, whatever their size). *)
Definition decimal_to_number (s q : Z) : number :=
  match s with
  | Zpos p =>
      if 0 <=? q then of_Z (s * 10 ^ q)
      else SFdiv prec emax (S754_finite false p 0) (S754_finite false (Z.to_pos (10 ^ (- q))) 0)
  | _ => S754_zero false
  end.

(** ** [Number::toString] *)

(** The number of decimal digits of a positive integer. *)
Definition ndigits (z : Z) : Z := Z.of_nat (String.length (Z_to_string z)).

(** The exact value of [m * 2^e] as a fraction [num / den]. *)
Definition exact_ratio (m : positive) (e : Z) : Z * Z :=
  if 0 <=? e then (Zpos m * 2 ^ e, 1) else (Zpos m, 2 ^ (- e)).

(** [num / den < 10^c]. *)
Definition below_pow10 (num den c : Z) : bool :=
  if 0 <=? c then num <? den * 10 ^ c else num * 10 ^ (- c) <? den.

(** The [n] with [10^(n-1) <= num / den < 10^n]. *)
Definition decimal_exponent (num den : Z) : Z :=
  let c := ndigits num - ndigits den in
  if below_pow10 num den c then c else c + 1.

(** [num / den * 10^j] as a fraction. *)
Definition scaled (num den j : Z) : Z * Z :=
  if 0 <=? j then (num * 10 ^ j, den) else (num, den * 10 ^ (- j)).

(** The [k]-digit decimal with exponent [n] closest to [x = num / den]
    that reads back as [x], if there is one: the exact value lies between
    [fl] and [fl + 1] (in units of [10^(n-k)]). *)
Definition candidate (x : number) (num den n k : Z) : option Z :=
  let '(a, b) := scaled num den (k - n) in
  let fl := a / b in
  let r := a mod b in
  let ok s := number_eqb (decimal_to_number s (n - k)) x in
  if r =? 0 then (if ok fl then Some fl else None)
  else
    match ok fl, ok (fl + 1) with
    | true, true =>
        if 2 * r <? b then Some fl
        else if b <? 2 * r then Some (fl + 1)
        else Some (if Z.even fl then fl else fl + 1)
    | true, false => Some fl
    | false, true => Some (fl + 1)
    | false, false => None
    end.

(** The [k]-digit decimal nearest [num / den], the even one on a tie. *)
Definition nearest (num den n k : Z) : Z :=
  let '(a, b) := scaled num den (k - n) in
  let fl := a / b in
  let r := a mod b in
  if 2 * r <? b then fl else if b <? 2 * r then fl + 1 else if Z.even fl then fl else fl + 1.

(** Drop the trailing zeros of a digit string's value. *)
Fixpoint strip_zeros (fuel : nat) (s : Z) : Z :=
  match fuel with
  | O => s
  | S f => if (s mod 10 =? 0) && (0 <? s) then strip_zeros f (s / 10) else s
  end.

(** Digits [s] found for [k] digits and exponent [n], as the digits
    without trailing zeros and the exponent of their value: a carry to
    [10^k] moves the exponent up by one. *)
Definition digits_result (s k n : Z) : Z * Z :=
  (strip_zeros 17 s, n + (ndigits s - k)).

Fixpoint shortest_from (fuel : nat) (x : number) (num den n k : Z) : Z * Z :=
  match fuel with
  | O => digits_result (nearest num den n k) k n
  | S f =>
      match candidate x num den n k with
      | Some s => digits_result s k n
      | None => shortest_from f x num den n (k + 1)
      end
  end.

(** ECMA-262 step 5 for a positive finite [x = m * 2^e]: the digits [s]
    (no trailing zero) and the exponent [n] of [x]'s shortest decimal
    [s * 10^(n - ndigits s)] that reads back as [x]. *)
Definition shortest (m : positive) (e : Z) : Z * Z :=
  let x := S754_finite false m e in
  let '(num, den) := exact_ratio m e in
  shortest_from 16 x num den (decimal_exponent num den) 1.

(** [j] zero digits. *)
Fixpoint zeros_nat (j : nat) : string :=
  match j with O => EmptyString | S j' => String "0" (zeros_nat j') end.

Definition zeros_text (j : Z) : string := zeros_nat (Z.to_nat j).

Fixpoint str_take (n : nat) (s : string) : string :=
  match n, s with
  | O, _ | _, EmptyString => EmptyString
  | S n', String c s' => String c (str_take n' s')
  end.

Fixpoint str_drop (n : nat) (s : string) : string :=
  match n, s with
  | O, _ => s
  | _, EmptyString => EmptyString
  | S n', String _ s' => str_drop n' s'
  end.

(** ECMA-262 steps 6-10: the text of [s * 10^(n-k)], [k] the number of
    digits of [s]. *)
Definition format_decimal (s n : Z) : string :=
  let ds := Z_to_string s in
  let k := ndigits s in
  if (k <=? n) && (n <=? 21) then ds ++ zeros_text (n - k)
  else if (0 <? n) && (n <=? 21) then str_take (Z.to_nat n) ds ++ "." ++ str_drop (Z.to_nat n) ds
  else if (-6 <? n) && (n <=? 0) then "0." ++ zeros_text (- n) ++ ds
  else
    let es := "e" ++ (if n - 1 <? 0 then "-" else "+") ++ Z_to_string (Z.abs (n - 1)) in
    if k =? 1 then ds ++ es else str_take 1 ds ++ "." ++ str_drop 1 ds ++ es.

(** [Number::toString(x)]. *)
Definition js_number_text (x : number) : string :=
  match x with
  | S754_nan => "NaN"
  | S754_infinity b => if b then "-Infinity" else "Infinity"
  | S754_zero _ => "0"
  | S754_finite b m e =>
      (if b then "-" else EmptyString) ++ let '(s, n) := shortest m e in format_decimal s n
  end.

(** ** [parseFloat] *)

Definition is_digit (c : ascii) : bool :=
  let n := nat_of_ascii c in (Nat.leb 48 n && Nat.leb n 57)%bool.

(** The longest prefix of decimal digits, and the rest. *)
Fixpoint take_digits (s : string) : string * string :=
  match s with
  | String c r =>
      if is_digit c then let '(a, b) := take_digits r in (String c a, b) else (EmptyString, s)
  | EmptyString => (EmptyString, EmptyString)
  end.

Definition digits_Z (ds : string) : Z :=
  match Z_of_string ds with Some z => z | None => 0 end.

(** An optional sign: whether it is [-], and the rest. *)
Definition read_sign (s : string) : bool * string :=
  match s with
  | String c r =>
      if Ascii.eqb c "-"%char then (true, r) else if Ascii.eqb c "+"%char then (false, r) else (false, s)
  | EmptyString => (false, s)
  end.

(** The value of an [ExponentPart] at the start of [s], 0 when there is
    none ([e] or [E], an optional sign, at least one digit). *)
Definition exponent_part (s : string) : Z :=
  match s with
  | String c r =>
      if (Ascii.eqb c "e"%char || Ascii.eqb c "E"%char)%bool then
        let '(neg, r') := read_sign r in
        let '(ds, _) := take_digits r' in
        if String.eqb ds EmptyString then 0 else if neg then - digits_Z ds else digits_Z ds
      else 0
  | EmptyString => 0
  end.

(** The white space at the start of a string removed. *)
Definition trim_start (s : string) : string := concat_units (drop_ws (units s)).

(** The longest [StrUnsignedDecimalLiteral] at the start of [s] ([Infinity],
    or digits with an optional fraction and exponent), NaN when there is
    none. *)
Definition unsigned_literal (s : string) : number :=
  if String.prefix "Infinity" s then S754_infinity false
  else
    let '(d1, r1) := take_digits s in
    let '(d2, r2) :=
      match r1 with
      | String c r => if Ascii.eqb c "."%char then take_digits r else (EmptyString, r1)
      | EmptyString => (EmptyString, r1)
      end in
    if (String.eqb d1 EmptyString && String.eqb d2 EmptyString)%bool then S754_nan
    else decimal_to_number (digits_Z (d1 ++ d2)) (exponent_part r2 - Z.of_nat (String.length d2)).

(** [parseFloat(string)]. *)
Definition parseFloat (str : string) : number :=
  let '(neg, s1) := read_sign (trim_start str) in
  let v := unsigned_literal s1 in
  if neg then SFopp v else v.

(** ** Lemmas on text *)

Fixpoint all_digits (s : string) : bool :=
  match s with
  | String c r => (is_digit c && all_digits r)%bool
  | EmptyString => true
  end.

(** The text after a digit run does not continue it. *)
Definition stops_digits (s : string) : bool :=
  match s with String c _ => negb (is_digit c) | EmptyString => true end.

Lemma str_take_drop n s : str_take n s ++ str_drop n s = s.
Proof. revert n. induction s as [|c s IH]; intros [|n]; simpl; f_equal; auto. Qed.

Lemma length_str_drop n s : String.length (str_drop n s) = (String.length s - n)%nat.
Proof. revert n. induction s as [|c s IH]; intros [|n]; simpl; auto. Qed.

Lemma substring_take n s : substring 0 n s = str_take n s.
Proof. revert n. induction s as [|c s IH]; intros [|n]; simpl; f_equal; auto. Qed.

Lemma str_take_length s : str_take (String.length s) s = s.
Proof. induction s; simpl; f_equal; auto. Qed.

Lemma substring_drop n s : substring n (String.length s - n) s = str_drop n s.
Proof.
  revert n. induction s as [|c s IH]; intros [|n]; try reflexivity.
  - rewrite Nat.sub_0_r, substring_take. apply str_take_length.
  - exact (IH n).
Qed.

Lemma utf8_width_pos c : (1 <= utf8_width c)%nat.
Proof. unfold utf8_width. repeat destruct (Nat.ltb _ _); lia. Qed.

Lemma concat_units_fuel f s : (String.length s <= f)%nat -> concat_units (units_fuel f s) = s.
Proof.
  revert s. induction f as [|f IH]; intros [|c r] Hl; try reflexivity; [simpl in Hl; lia|].
  cbn [units_fuel concat_units]. pose proof (utf8_width_pos c) as Hw.
  rewrite (substring_drop (utf8_width c) (String c r)), IH, substring_take
    by (rewrite length_str_drop; cbn [String.length] in *; lia).
  apply str_take_drop.
Qed.

(** A string that starts with a digit or a minus sign has no white space
    to trim. *)
Lemma trim_start_plain c r :
  (is_digit c || Ascii.eqb c "-"%char)%bool = true -> trim_start (String c r) = String c r.
Proof.
  intros Hc. assert (Hu : units (String c r) = String c EmptyString :: units r).
  { unfold units. cbn [String.length units_fuel].
    replace (utf8_width c) with 1%nat
      by (destruct c as [[] [] [] [] [] [] [] []]; try discriminate; reflexivity).
    replace (substring 1 (S (String.length r) - 1) (String c r)) with r.
    - rewrite substring_take. reflexivity.
    - cbn [substring]. rewrite Nat.sub_succ, Nat.sub_0_r, substring_take. symmetry. apply str_take_length. }
  unfold trim_start. rewrite Hu. cbn [drop_ws].
  replace (is_ws_unit (String c EmptyString)) with false
    by (destruct c as [[] [] [] [] [] [] [] []]; try discriminate; reflexivity).
  cbn [concat_units]. unfold units. rewrite concat_units_fuel by lia. reflexivity.
Qed.

Lemma take_digits_app ds rest :
  all_digits ds = true -> stops_digits rest = true -> take_digits (ds ++ rest) = (ds, rest).
Proof.
  induction ds as [|c ds IH]; simpl; intros Hd Hr.
  - destruct rest as [|c r]; simpl in *; [reflexivity|]. apply Bool.negb_true_iff in Hr. now rewrite Hr.
  - apply andb_prop in Hd as [Hc Hd]. rewrite Hc, IH by assumption. reflexivity.
Qed.

Lemma all_digits_app a b : all_digits (a ++ b) = (all_digits a && all_digits b)%bool.
Proof. induction a as [|c a IH]; simpl; [reflexivity|]. rewrite IH. apply andb_assoc. Qed.

Lemma all_digits_take n s : all_digits s = true -> all_digits (str_take n s) = true.
Proof.
  revert n. induction s as [|c s IH]; intros [|n] H; simpl in *; auto.
  apply andb_prop in H as [H1 H2]. rewrite H1. exact (IH n H2).
Qed.

Lemma all_digits_drop n s : all_digits s = true -> all_digits (str_drop n s) = true.
Proof.
  revert n. induction s as [|c s IH]; intros [|n] H; simpl in *; auto.
  apply andb_prop in H as [_ H2]. exact (IH n H2).
Qed.

Lemma all_digits_zeros j : all_digits (zeros_nat j) = true.
Proof. induction j; simpl; auto. Qed.

(** ** Lemmas on digit strings and their values *)

Lemma Z_to_string_pos p : Z_to_string (Zpos p) = NilEmpty.string_of_uint (Pos.to_uint p).
Proof.
  unfold Z_to_string. simpl. unfold NilZero.string_of_uint.
  destruct (Pos.to_uint p) eqn:E; [exfalso; exact (DecimalPos.Unsigned.to_uint_nonnil p E) | ..]; reflexivity.
Qed.

Lemma all_digits_uint u : all_digits (NilEmpty.string_of_uint u) = true.
Proof. induction u; simpl; auto. Qed.

Lemma all_digits_Z_to_string z : 0 <= z -> all_digits (Z_to_string z) = true.
Proof. destruct z as [|p|p]; intros H; [reflexivity | rewrite Z_to_string_pos; apply all_digits_uint | lia]. Qed.

(** A positive integer prints as a digit followed by digits. *)
Lemma Z_to_string_head p : exists c r, Z_to_string (Zpos p) = String c r /\ is_digit c = true.
Proof.
  rewrite Z_to_string_pos. pose proof (DecimalPos.Unsigned.to_uint_nonnil p) as H.
  destruct (Pos.to_uint p); [congruence | ..]; eexists; eexists; split; reflexivity.
Qed.

Lemma zeros_uint j : zeros_nat j = NilEmpty.string_of_uint (Nat.iter j Decimal.D0 Decimal.Nil).
Proof. induction j; simpl; [reflexivity | now rewrite IHj]. Qed.

Lemma zeros_prefix_uint j u : zeros_nat j ++ NilEmpty.string_of_uint u = NilEmpty.string_of_uint (Nat.iter j Decimal.D0 u).
Proof. induction j; simpl; [reflexivity | now rewrite IHj]. Qed.

Fixpoint digit_list_text (l : list DecimalFacts.digits) : string :=
  match l with
  | nil => EmptyString
  | cons d l' =>
      String (match d with
              | DecimalFacts.d0 => "0" | DecimalFacts.d1 => "1" | DecimalFacts.d2 => "2"
              | DecimalFacts.d3 => "3" | DecimalFacts.d4 => "4" | DecimalFacts.d5 => "5"
              | DecimalFacts.d6 => "6" | DecimalFacts.d7 => "7" | DecimalFacts.d8 => "8"
              | DecimalFacts.d9 => "9" end)%char (digit_list_text l')
  end.

Lemma string_of_uint_list u : NilEmpty.string_of_uint u = digit_list_text (DecimalFacts.to_list u).
Proof. induction u; simpl; f_equal; auto. Qed.

Lemma string_of_uint_app u v :
  NilEmpty.string_of_uint (Decimal.app u v) = NilEmpty.string_of_uint u ++ NilEmpty.string_of_uint v.
Proof.
  rewrite !string_of_uint_list, DecimalFacts.app_spec.
  induction (DecimalFacts.to_list u); simpl; f_equal; auto.
Qed.

Lemma string_of_uint_nil u : NilEmpty.string_of_uint u = EmptyString -> u = Decimal.Nil.
Proof. destruct u; simpl; congruence. Qed.

Lemma Z_of_uint_string u : u <> Decimal.Nil -> Z_of_string (NilEmpty.string_of_uint u) = Some (Z.of_uint u).
Proof.
  intros Hu. unfold Z_of_string.
  replace (NilEmpty.string_of_uint u) with (NilZero.string_of_int (Decimal.Pos u))
    by (simpl; unfold NilZero.string_of_uint; destruct u; congruence).
  rewrite NilZero.isi by congruence. reflexivity.
Qed.

Lemma iter_mul10 j z : Nat.iter j (Z.mul 10) z = z * 10 ^ Z.of_nat j.
Proof.
  induction j as [|j IH]; [simpl; lia|].
  rewrite Nat.iter_succ, IH, Nat2Z.inj_succ, Z.pow_succ_r by lia. ring.
Qed.

Lemma Z_of_uint_to_uint p : Z.of_uint (Pos.to_uint p) = Zpos p.
Proof. unfold Z.of_uint. now rewrite DecimalPos.Unsigned.of_to. Qed.

(** Digits followed by [j] zeros read as the integer times [10^j]. *)
Lemma digits_Z_zeros p j : digits_Z (Z_to_string (Zpos p) ++ zeros_nat j) = Zpos p * 10 ^ Z.of_nat j.
Proof.
  rewrite Z_to_string_pos, zeros_uint, <- string_of_uint_app. unfold digits_Z.
  rewrite Z_of_uint_string, DecimalZ.of_uint_iter_D0, iter_mul10, Z_of_uint_to_uint; [reflexivity|].
  intros E. apply (f_equal NilEmpty.string_of_uint) in E. rewrite string_of_uint_app in E.
  pose proof (DecimalPos.Unsigned.to_uint_nonnil p) as H.
  destruct (Pos.to_uint p); simpl in E; congruence.
Qed.

(** Leading zeros do not change the integer read. *)
Lemma digits_Z_leading p j : digits_Z ("0" ++ zeros_nat j ++ Z_to_string (Zpos p)) = Zpos p.
Proof.
  rewrite Z_to_string_pos, zeros_prefix_uint. unfold digits_Z.
  change ("0" ++ NilEmpty.string_of_uint (Nat.iter j Decimal.D0 (Pos.to_uint p)))
    with (NilEmpty.string_of_uint (Decimal.D0 (Nat.iter j Decimal.D0 (Pos.to_uint p)))).
  rewrite Z_of_uint_string by discriminate. rewrite <- Z_of_uint_to_uint. unfold Z.of_uint. f_equal.
  cbn [Pos.of_uint]. induction j; [reflexivity|]. rewrite Nat.iter_succ. exact IHj.
Qed.

Lemma digits_Z_pos p : digits_Z (Z_to_string (Zpos p)) = Zpos p.
Proof. unfold digits_Z. now rewrite Z_of_to_string. Qed.

Lemma length_zeros j : String.length (zeros_nat j) = j.
Proof. induction j; simpl; auto. Qed.

(** ** Reading back what [format_decimal] prints *)

(** The text after the digits is not a decimal point. *)
Definition no_point (s : string) : bool :=
  match s with String c _ => negb (Ascii.eqb c "."%char) | EmptyString => true end.

Lemma append_empty_r s : s ++ EmptyString = s.
Proof. induction s; simpl; f_equal; auto. Qed.

Lemma prefix_infinity_digit c x : is_digit c = true -> String.prefix "Infinity" (String c x) = false.
Proof. destruct c as [[] [] [] [] [] [] [] []]; intros H; try discriminate; reflexivity. Qed.

Lemma unsigned_digits c r tail :
  is_digit c = true -> all_digits r = true -> stops_digits tail = true -> no_point tail = true ->
  unsigned_literal (String c r ++ tail) = decimal_to_number (digits_Z (String c r)) (exponent_part tail).
Proof.
  intros Hc Hr Ht Hp. unfold unsigned_literal.
  rewrite (prefix_infinity_digit c (r ++ tail) Hc : String.prefix "Infinity" (String c r ++ tail) = false).
  rewrite take_digits_app by first [exact Ht | simpl; rewrite Hc; exact Hr].
  destruct tail as [|c' r']; simpl in Hp |- *.
  - now rewrite append_empty_r.
  - apply Bool.negb_true_iff in Hp. rewrite Hp. cbn [String.eqb andb String.length].
    now rewrite append_empty_r, Z.sub_0_r.
Qed.

Lemma unsigned_point c r d tail :
  is_digit c = true -> all_digits r = true -> all_digits d = true -> stops_digits tail = true ->
  unsigned_literal (String c r ++ "." ++ d ++ tail) =
  decimal_to_number (digits_Z (String c r ++ d)) (exponent_part tail - Z.of_nat (String.length d)).
Proof.
  intros Hc Hr Hd Ht. unfold unsigned_literal.
  rewrite (prefix_infinity_digit c (r ++ "." ++ d ++ tail) Hc
    : String.prefix "Infinity" (String c r ++ "." ++ d ++ tail) = false).
  rewrite take_digits_app by first [reflexivity | simpl; rewrite Hc; exact Hr].
  cbn [append Ascii.eqb Bool.eqb]. rewrite take_digits_app by assumption. reflexivity.
Qed.

Lemma exponent_part_text z :
  exponent_part ("e" ++ (if z <? 0 then "-" else "+") ++ Z_to_string (Z.abs z)) = z.
Proof.
  assert (Hd : take_digits (Z_to_string (Z.abs z)) = (Z_to_string (Z.abs z), EmptyString)).
  { rewrite <- (append_empty_r (Z_to_string (Z.abs z))) at 1.
    apply take_digits_app; [apply all_digits_Z_to_string; lia | reflexivity]. }
  assert (Hne : String.eqb (Z_to_string (Z.abs z)) EmptyString = false).
  { destruct (Z.abs z) eqn:E; [reflexivity| |lia]. destruct (Z_to_string_head p) as (c & r & -> & _). reflexivity. }
  unfold exponent_part. cbn [Ascii.eqb Bool.eqb orb].
  destruct (z <? 0) eqn:Hz; [apply Z.ltb_lt in Hz | apply Z.ltb_ge in Hz];
    cbn [append read_sign Ascii.eqb Bool.eqb]; rewrite Hd, Hne; unfold digits_Z; rewrite Z_of_to_string; cbn [orb]; lia.
Qed.

Lemma decimal_to_number_shift p j :
  0 <= j -> decimal_to_number (Zpos p * 10 ^ j) 0 = decimal_to_number (Zpos p) j.
Proof.
  intros Hj. assert (Hq : 0 < 10 ^ j) by (apply Z.pow_pos_nonneg; lia).
  destruct (Zpos p * 10 ^ j) eqn:E; [lia| |lia].
  unfold decimal_to_number. rewrite <- E. apply Z.leb_le in Hj. rewrite Hj. simpl. now rewrite Z.mul_1_r.
Qed.

Lemma length_app a b : String.length (a ++ b) = (String.length a + String.length b)%nat.
Proof. induction a; simpl; auto. Qed.

Lemma length_Z_to_string p : Z.of_nat (String.length (Z_to_string (Zpos p))) = ndigits (Zpos p).
Proof. reflexivity. Qed.

Lemma ndigits_pos p : 1 <= ndigits (Zpos p).
Proof. destruct (Z_to_string_head p) as (c & r & E & _). unfold ndigits. rewrite E. cbn [String.length]. lia. Qed.

Lemma stops_exponent z : stops_digits ("e" ++ (if z <? 0 then "-" else "+") ++ Z_to_string (Z.abs z)) = true.
Proof. reflexivity. Qed.

Lemma no_point_exponent z : no_point ("e" ++ (if z <? 0 then "-" else "+") ++ Z_to_string (Z.abs z)) = true.
Proof. reflexivity. Qed.

(** [unsigned_literal] reads the text of [format_decimal s n] as the
    number [s * 10^(n - k)] denotes, in each of its four forms. *)
Lemma unsigned_format p n :
  unsigned_literal (format_decimal (Zpos p) n) = decimal_to_number (Zpos p) (n - ndigits (Zpos p)).
Proof.
  pose proof (ndigits_pos p) as Hk. pose proof (all_digits_Z_to_string (Zpos p) ltac:(lia)) as Had.
  destruct (Z_to_string_head p) as (c & r & Hds & Hc).
  assert (Hr : all_digits r = true) by (rewrite Hds in Had; simpl in Had; now apply andb_prop in Had).
  assert (Hlen : Z.of_nat (String.length r) = ndigits (Zpos p) - 1)
    by (unfold ndigits; rewrite Hds; cbn [String.length]; lia).
  unfold format_decimal. set (k := ndigits (Zpos p)) in *.
  destruct ((k <=? n) && (n <=? 21))%bool eqn:HA; [|destruct ((0 <? n) && (n <=? 21))%bool eqn:HB;
    [|destruct ((-6 <? n) && (n <=? 0))%bool eqn:HC]].
  - apply andb_prop in HA as [HA _]. apply Z.leb_le in HA.
    rewrite <- (append_empty_r (_ ++ _)), Hds. change (String c r ++ zeros_text (n - k)) with (String c (r ++ zeros_text (n - k))).
    rewrite unsigned_digits; [| exact Hc | rewrite all_digits_app, Hr; apply all_digits_zeros | reflexivity | reflexivity].
    change (String c (r ++ zeros_text (n - k))) with (String c r ++ zeros_text (n - k)). rewrite <- Hds.
    unfold zeros_text. rewrite digits_Z_zeros, Z2Nat.id by lia. cbn [exponent_part].
    apply decimal_to_number_shift. lia.
  - apply andb_prop in HB as [HB1 HB2]. apply Z.ltb_lt in HB1. apply Z.leb_le in HB2.
    assert (Hnk : n < k) by (apply Bool.andb_false_iff in HA as [HA|HA]; [apply Z.leb_gt in HA | apply Z.leb_gt in HA]; lia).
    rewrite Hds. destruct (Z.to_nat n) as [|m] eqn:Hm; [lia|]. cbn [str_take str_drop].
    rewrite <- (append_empty_r (str_drop m r)).
    change (String c (str_take m r) ++ "." ++ str_drop m r ++ EmptyString)
      with (String c (str_take m r) ++ "." ++ str_drop m r ++ EmptyString).
    rewrite unsigned_point by first [exact Hc | reflexivity | apply all_digits_take, Hr | apply all_digits_drop, Hr].
    rewrite ?append_empty_r. change (String c (str_take m r) ++ str_drop m r) with (String c (str_take m r ++ str_drop m r)).
    rewrite str_take_drop, <- Hds, digits_Z_pos, length_str_drop. cbn [exponent_part].
    f_equal. rewrite Nat2Z.inj_sub by lia. lia.
  - apply andb_prop in HC as [HC1 HC2]. apply Z.ltb_lt in HC1. apply Z.leb_le in HC2.
    replace ("0." ++ zeros_text (- n) ++ Z_to_string (Zpos p))
      with (String "0" EmptyString ++ "." ++ (zeros_text (- n) ++ Z_to_string (Zpos p)) ++ EmptyString)
      by (rewrite append_empty_r; reflexivity).
    rewrite unsigned_point by first [reflexivity | rewrite all_digits_app, Had, andb_true_r; apply all_digits_zeros].
    unfold zeros_text. rewrite digits_Z_leading, length_app, length_zeros. cbn [exponent_part].
    f_equal. unfold k in Hlen |- *. rewrite Nat2Z.inj_add, Z2Nat.id by lia. unfold ndigits. lia.
  - set (es := "e" ++ (if n - 1 <? 0 then "-" else "+") ++ Z_to_string (Z.abs (n - 1))).
    destruct (k =? 1) eqn:Hk1; [apply Z.eqb_eq in Hk1 | apply Z.eqb_neq in Hk1]; rewrite Hds.
    + rewrite unsigned_digits by first [exact Hc | exact Hr | reflexivity].
      rewrite <- Hds, digits_Z_pos. unfold es. rewrite exponent_part_text. f_equal. lia.
    + cbn [str_take str_drop].
      rewrite unsigned_point by first [exact Hc | exact Hr | reflexivity].
      change (String c EmptyString ++ r) with (String c r).
      rewrite <- Hds, digits_Z_pos. unfold es. rewrite exponent_part_text. f_equal. lia.
Qed.

Lemma read_sign_digit c r : is_digit c = true -> read_sign (String c r) = (false, String c r).
Proof. destruct c as [[] [] [] [] [] [] [] []]; intros H; try discriminate; reflexivity. Qed.

(** [parseFloat] of a text that starts with a digit, or with [-] and a
    digit, is its unsigned literal, negated after a [-]. *)
Lemma parseFloat_digit_start (neg : bool) c r : is_digit c = true ->
  parseFloat ((if neg then "-" else EmptyString) ++ String c r) =
  if neg then SFopp (unsigned_literal (String c r)) else unsigned_literal (String c r).
Proof.
  intros Hc. unfold parseFloat. destruct neg; cbn [append].
  - rewrite trim_start_plain by reflexivity. reflexivity.
  - rewrite trim_start_plain, read_sign_digit by (rewrite ?Hc; reflexivity). reflexivity.
Qed.

(** Every text [format_decimal] prints starts with a digit. *)
Lemma format_head p n : exists c r, format_decimal (Zpos p) n = String c r /\ is_digit c = true.
Proof.
  destruct (Z_to_string_head p) as (c & r & Hds & Hc). unfold format_decimal. rewrite Hds.
  destruct ((ndigits (Zpos p) <=? n) && (n <=? 21))%bool; [do 2 eexists; split; [reflexivity | exact Hc]|].
  destruct ((0 <? n) && (n <=? 21))%bool eqn:HB.
  - apply andb_prop in HB as [HB _]. apply Z.ltb_lt in HB.
    destruct (Z.to_nat n) eqn:Hm; [lia|]. do 2 eexists; split; [reflexivity | exact Hc].
  - destruct ((-6 <? n) && (n <=? 0))%bool; [do 2 eexists; split; reflexivity|].
    destruct (ndigits (Zpos p) =? 1); do 2 eexists; split; [reflexivity | exact Hc | reflexivity | exact Hc].
Qed.

(** Reading back the text of a decimal: for every positive digit
    value [s] and exponent [n], with or without a minus sign, [parseFloat]
    of the text ECMAScript's [Number::toString] steps 6-10 print for
    [s * 10^(n-k)] ([k] the number of digits of [s]), in each of its
    forms (plain digits, a decimal point inside, a [0.] prefix, the
    exponent form), is the correctly rounded number [s * 10^(n-k)]. *)
Theorem parseFloat_format_decimal (neg : bool) (s n : Z) : 0 < s ->
  parseFloat ((if neg then "-" else EmptyString) ++ format_decimal s n) =
  if neg then SFopp (decimal_to_number s (n - ndigits s)) else decimal_to_number s (n - ndigits s).
Proof.
  intros Hs. destruct s as [|p|p]; try lia.
  destruct (format_head p n) as (c & r & E & Hc). rewrite E, parseFloat_digit_start by exact Hc.
  rewrite <- E, unsigned_format. reflexivity.
Qed.

(** ** Witness *)

Lemma parseFloat_format_decimal_witness :
  (0 < 14285714285714286)%Z /\
  parseFloat (EmptyString ++ format_decimal 14285714285714286 2) =
    decimal_to_number 14285714285714286 (2 - ndigits 14285714285714286) /\
  format_decimal 14285714285714286 2 = "14.285714285714286".
Proof.
  assert (H : (0 < 14285714285714286)%Z) by lia.
  split; [exact H|]. split; [exact (parseFloat_format_decimal false 14285714285714286 2 H) | by_eval].
Defined.
