(* ===== verification/Scoring.v ===== *)
(** The scoring engine of [App.jsx]: the weight table [WEIGHTS] and
    [calculateFinalScore], computed on doubles as the code computes it,
    and the reference the spec states: the weighted sum of the KPI values
    in exact arithmetic on the decimal literals, scaled by 100 and rounded
    half up ([score_spec]).

    The double-precision score depends on the KPI object only through its
    lookups, so neither the insertion order of the answers nor keys outside
    the weight table change it.  The exact score lies in [0,100] when the
    KPI values lie in [0,1]. *)

From S2P Require Import Prelude JsNumber JsObject.
From Stdlib Require Import Permutation Morphisms Setoid.

Local Open Scope crush_scope.
Local Open Scope string_scope.

(** ** The code *)

(** The literals of [WEIGHTS], as written: [(m, k)] is the decimal
    [m * 10^-k]. *)
Definition WEIGHT_LITERALS : list (string * decimal) :=
  [("story_like_rate", (15%Z, 2%nat));
   ("conversation_initiation_ratio", (20%Z, 2%nat));
   ("reply_speed_score", (15%Z, 2%nat));
   ("date_count_score", (20%Z, 2%nat));
   ("gift_score", (10%Z, 2%nat));
   ("emotional_interest_score", (15%Z, 2%nat));
   ("future_plans_score", (5%Z, 2%nat))].

(** The object [WEIGHTS]: each literal read as a double. *)
Definition WEIGHTS : obj number :=
  map (fun '(k, d) => (k, literal d)) WEIGHT_LITERALS.

(** [WEIGHTS[key]]: a missing key reads [undefined], which [*] turns
    into NaN. *)
Definition weight_of (key : string) : number :=
  match get WEIGHTS key with
  | Some w => w
  | None => S754_nan
  end.

(** One iteration of the [forEach]:
    [total += (kpis[key] || 0) * WEIGHTS[key]]. *)
Definition accumulate (kpis : obj number) (total : number) (key : string) : number :=
  add total (mul (or_zero (get kpis key)) (weight_of key)).

Definition calculateFinalScore (kpis : obj number) : number :=
  let total := fold_left (accumulate kpis) (keys WEIGHTS) (of_Z 0) in
  math_round (mul total (of_Z 100)).

(** ** The reference scoring of the spec *)

Local Open Scope Q_scope.

Definition WEIGHTS_Q : list (string * Q) :=
  map (fun '(k, d) => (k, decimal_Q d)) WEIGHT_LITERALS.

Definition value_or_zero (v : option Q) : Q :=
  match v with Some q => q | None => 0 end.

(** [Σ_k w_k * kpis[k]] over the weight table, a missing KPI counting 0. *)
Definition weighted_sum_Q (kpis : obj Q) : Q :=
  fold_right (fun '(k, w) acc => w * value_or_zero (get kpis k) + acc) 0 WEIGHTS_Q.

Definition score_spec (kpis : obj Q) : Z := round_half_up (weighted_sum_Q kpis * 100).

(** ** The double-precision score depends on lookups only *)

Lemma fold_accumulate_agree (k1 k2 : obj number) (ks : list string) (t : number) :
  (forall key, In key ks -> or_zero (get k1 key) = or_zero (get k2 key)) ->
  fold_left (accumulate k1) ks t = fold_left (accumulate k2) ks t.
Proof.
  intros H. revert t. induction ks as [|k ks IH]; intros t; simpl; [reflexivity|].
  replace (accumulate k1 t k) with (accumulate k2 t k)
    by (unfold accumulate; rewrite (H k) by (simpl; auto); reflexivity).
  apply IH. intros key Hk. apply H. simpl. auto.
Qed.

Lemma calculateFinalScore_agree (k1 k2 : obj number) :
  (forall key, In key (keys WEIGHTS) -> or_zero (get k1 key) = or_zero (get k2 key)) ->
  calculateFinalScore k1 = calculateFinalScore k2.
Proof.
  intros H. unfold calculateFinalScore. now rewrite (fold_accumulate_agree k1 k2).
Qed.

#[export] Instance calculateFinalScore_Proper :
  Proper (obj_equiv ==> eq) calculateFinalScore.
Proof. intros k1 k2 H. apply calculateFinalScore_agree. intros key _. now rewrite (H key). Qed.

(** C21: The score does not depend on the order in which the KPI entries were
    inserted: two objects with distinct keys that are permutations of each
    other score the same. *)
Theorem calculateFinalScore_insertion_order (k1 k2 : obj number) :
  NoDup (keys k1) -> Permutation k1 k2 ->
  calculateFinalScore k1 = calculateFinalScore k2.
Proof. intros Hnd Hp. now rewrite (get_Permutation k1 k2 Hnd Hp). Qed.

(** A key outside the weight table is ignored: setting it does not change
    the score. *)
Theorem calculateFinalScore_extra_key (kpis : obj number) (k : string) (v : number) :
  ~ In k (keys WEIGHTS) ->
  calculateFinalScore (set kpis k v) = calculateFinalScore kpis.
Proof.
  intros Hk. apply calculateFinalScore_agree. intros key Hkey.
  rewrite get_set_ne by congruence. reflexivity.
Qed.

(** C22: A missing KPI counts as 0: adding it with value 0 does not change the
    score. *)
Theorem calculateFinalScore_missing_is_zero (kpis : obj number) (k : string) :
  get kpis k = None ->
  calculateFinalScore (set kpis k (of_Z 0)) = calculateFinalScore kpis.
Proof.
  intros Hk. apply calculateFinalScore_agree. intros key _.
  rewrite get_set. destruct (String.eqb_spec key k) as [->|_]; [rewrite Hk|]; reflexivity.
Qed.

(** ** The exact weighted sum *)

Section WeightedSum.

Variable kpis : obj Q.
Hypothesis kpis_unit : forall k q, get kpis k = Some q -> 0 <= q <= 1.

Lemma value_or_zero_unit (k : string) : 0 <= value_or_zero (get kpis k) <= 1.
Proof.
  destruct (get kpis k) eqn:E; simpl; [eapply kpis_unit; eauto|lra].
Qed.

(** With non-negative weights and values in [0,1], a weighted sum lies
    between 0 and the sum of the weights. *)
Lemma weighted_bounds (ws : list (string * Q)) :
  Forall (fun kw => 0 <= snd kw) ws ->
  0 <= fold_right (fun '(k, w) acc => w * value_or_zero (get kpis k) + acc) 0 ws <=
  fold_right (fun '(k, w) acc => w + acc) 0 ws.
Proof.
  induction ws as [|[k w] ws IH]; intros Hw; simpl; [lra|].
  inv Hw. simpl in H1. destruct (IH H2).
  pose proof (value_or_zero_unit k). nra.
Qed.

End WeightedSum.

Lemma WEIGHTS_Q_nonneg : Forall (fun kw => 0 <= snd kw) WEIGHTS_Q.
Proof. repeat constructor; unfold Qle; simpl; lia. Qed.

Lemma WEIGHTS_Q_sum : fold_right (fun '(k, w) acc => w + acc) 0 WEIGHTS_Q == 1.
Proof. by_eval. Qed.

Lemma weighted_sum_Q_unit (kpis : obj Q) :
  (forall k q, get kpis k = Some q -> 0 <= q <= 1) ->
  0 <= weighted_sum_Q kpis <= 1.
Proof.
  intros H. rewrite <- WEIGHTS_Q_sum. apply weighted_bounds; auto using WEIGHTS_Q_nonneg.
Qed.

Lemma score_spec_bounds (kpis : obj Q) :
  (forall k q, get kpis k = Some q -> 0 <= q <= 1) ->
  (0 <= score_spec kpis <= 100)%Z.
Proof.
  intros H. apply round_half_up_bounds. pose proof (weighted_sum_Q_unit kpis H).
  unfold inject_Z. lra.
Qed.

Lemma fold_left_sum_shift (kq : obj Q) (ws : list (string * Q)) (a : Q) :
  fold_left (fun e '(k, w) => e + w * value_or_zero (get kq k)) ws a ==
  a + fold_left (fun e '(k, w) => e + w * value_or_zero (get kq k)) ws 0.
Proof.
  revert a. induction ws as [|[k w] ws IH]; intros a; simpl; [ring|].
  rewrite IH, (IH (0 + _)). ring.
Qed.

(** The exact weighted sum, accumulated left to right as the code does. *)
Lemma weighted_sum_Q_fold_left (kq : obj Q) :
  weighted_sum_Q kq == fold_left (fun e '(k, w) => e + w * value_or_zero (get kq k)) WEIGHTS_Q 0.
Proof.
  unfold weighted_sum_Q. induction WEIGHTS_Q as [|[k w] ws IH]; simpl; [reflexivity|].
  rewrite fold_left_sum_shift, <- IH. ring.
Qed.

(** ** The spec's examples, evaluated *)

(** With all seven KPIs at 0 the score is 0, and with all seven at 1 it
    is 100. *)
Example calculateFinalScore_all_zero_all_one :
  calculateFinalScore (map (fun k => (k, of_Z 0)) (keys WEIGHTS)) = of_Z 0 /\
  calculateFinalScore (map (fun k => (k, of_Z 1)) (keys WEIGHTS)) = of_Z 100.
Proof. split; by_eval. Qed.

(** Only [reply_speed_score = 1] gives 15 (missing KPIs count 0), and the
    spec's worked example gives 77. *)
Example calculateFinalScore_spec_examples :
  calculateFinalScore [("reply_speed_score", of_Z 1)] = of_Z 15 /\
  calculateFinalScore
    [("story_like_rate", dec 7 1); ("conversation_initiation_ratio", dec 8 1);
     ("reply_speed_score", of_Z 1); ("date_count_score", dec 7 1);
     ("gift_score", dec 8 1); ("emotional_interest_score", dec 7 1);
     ("future_plans_score", dec 6 1)] = of_Z 77.
Proof. split; by_eval. Qed.

(** ** Witnesses *)

Lemma calculateFinalScore_insertion_order_witness :
  NoDup (keys [("gift_score", of_Z 1); ("reply_speed_score", dec 4 1)]) /\
  Permutation [("gift_score", of_Z 1); ("reply_speed_score", dec 4 1)]
              [("reply_speed_score", dec 4 1); ("gift_score", of_Z 1)] /\
  calculateFinalScore [("gift_score", of_Z 1); ("reply_speed_score", dec 4 1)] =
  calculateFinalScore [("reply_speed_score", dec 4 1); ("gift_score", of_Z 1)].
Proof.
  assert (Hnd : NoDup (keys [("gift_score", of_Z 1); ("reply_speed_score", dec 4 1)]))
    by (apply nodup_strings_spec; by_eval).
  assert (Hp : Permutation [("gift_score", of_Z 1); ("reply_speed_score", dec 4 1)]
                           [("reply_speed_score", dec 4 1); ("gift_score", of_Z 1)])
    by apply perm_swap.
  split; [exact Hnd|]. split; [exact Hp|].
  exact (calculateFinalScore_insertion_order _ _ Hnd Hp).
Defined.

Lemma calculateFinalScore_extra_key_witness :
  ~ In "answers" (keys WEIGHTS) /\
  calculateFinalScore (set [("gift_score", of_Z 1)] "answers" (of_Z 1)) =
  calculateFinalScore [("gift_score", of_Z 1)].
Proof.
  assert (H : ~ In "answers" (keys WEIGHTS)) by (simpl; intuition discriminate).
  split; [exact H|]. exact (calculateFinalScore_extra_key _ _ _ H).
Defined.

Lemma calculateFinalScore_missing_is_zero_witness :
  get [("gift_score", of_Z 1)] "future_plans_score" = None /\
  calculateFinalScore (set [("gift_score", of_Z 1)] "future_plans_score" (of_Z 0)) =
  calculateFinalScore [("gift_score", of_Z 1)].
Proof.
  assert (H : get [("gift_score", of_Z 1)] "future_plans_score" = None) by reflexivity.
  split; [exact H|]. exact (calculateFinalScore_missing_is_zero _ _ H).
Defined.
