(* ===== verification/Classifier.v ===== *)
(** The classifier [getCategoryFromScore] of [App.jsx]: two strict
    comparisons of the score, a number, with 30 and 65.  The categories
    are the strings ['low'], ['mixed'] and ['high'] of the code, here the
    constructors of [category] with [category_to_string].

    On every safe integer the double comparisons agree with integer ones,
    so the three ranges partition the integers at 30 and 65; the
    classification is monotone in the score.  A NaN score, for which both
    comparisons are false, is classified [High]. *)

From S2P Require Import Prelude JsNumber.

Local Open Scope crush_scope.
Local Open Scope string_scope.

Inductive category : Type := Low | Mixed | High.

Definition category_to_string (c : category) : string :=
  match c with Low => "low" | Mixed => "mixed" | High => "high" end.

Definition category_eqb (c1 c2 : category) : bool :=
  match c1, c2 with
  | Low, Low | Mixed, Mixed | High, High => true
  | _, _ => false
  end.

(** The order of the categories, [Low < Mixed < High]. *)
Definition category_rank (c : category) : Z :=
  match c with Low => 0 | Mixed => 1 | High => 2 end.

Definition getCategoryFromScore (score : number) : category :=
  if lt score (of_Z 30) then Low
  else if lt score (of_Z 65) then Mixed
  else High.

Lemma category_eqb_eq (c1 c2 : category) : category_eqb c1 c2 = true <-> c1 = c2.
Proof. destruct c1, c2; simpl; split; congruence. Qed.

Lemma category_to_string_inj (c1 c2 : category) :
  category_to_string c1 = category_to_string c2 -> c1 = c2.
Proof. destruct c1, c2; simpl; congruence. Qed.

(** On a safe integer, [getCategoryFromScore] is the integer case split. *)
Lemma getCategoryFromScore_of_Z (n : Z) : safe_int n ->
  getCategoryFromScore (of_Z n) =
  if (n <? 30)%Z then Low else if (n <? 65)%Z then Mixed else High.
Proof.
  intros Hn. unfold getCategoryFromScore.
  rewrite !lt_of_Z by (auto; unfold safe_int; lia). reflexivity.
Qed.

(** C20: For every safe integer score, the category is [Low] exactly below
    30, [Mixed] exactly on [30, 65) and [High] exactly from 65 on: the
    three ranges partition the integers with no gap or overlap. *)
Theorem getCategoryFromScore_partition (n : Z) : safe_int n ->
  (getCategoryFromScore (of_Z n) = Low <-> (n < 30)%Z) /\
  (getCategoryFromScore (of_Z n) = Mixed <-> (30 <= n < 65)%Z) /\
  (getCategoryFromScore (of_Z n) = High <-> (65 <= n)%Z).
Proof.
  intros Hn. rewrite getCategoryFromScore_of_Z by exact Hn.
  destruct (Z.ltb_spec n 30), (Z.ltb_spec n 65);
    repeat split; intros; try discriminate; try reflexivity; lia.
Qed.

Lemma getCategoryFromScore_partition_witness :
  safe_int 30 /\ getCategoryFromScore (of_Z 30) = Mixed.
Proof.
  assert (H : safe_int 30) by (unfold safe_int; lia). split; [exact H|].
  apply (proj1 (proj2 (getCategoryFromScore_partition 30 H))). lia.
Defined.

(** The classification is monotone: a higher safe integer score never
    gets a lower category. *)
Theorem getCategoryFromScore_monotone (n m : Z) :
  safe_int n -> safe_int m -> (n <= m)%Z ->
  (category_rank (getCategoryFromScore (of_Z n)) <=
   category_rank (getCategoryFromScore (of_Z m)))%Z.
Proof.
  intros Hn Hm Hle. rewrite !getCategoryFromScore_of_Z by assumption.
  destruct (Z.ltb_spec n 30), (Z.ltb_spec n 65), (Z.ltb_spec m 30), (Z.ltb_spec m 65);
    simpl; lia.
Qed.

Lemma getCategoryFromScore_monotone_witness :
  safe_int 29 /\ safe_int 65 /\ (29 <= 65)%Z /\
  (category_rank (getCategoryFromScore (of_Z 29)) <=
   category_rank (getCategoryFromScore (of_Z 65)))%Z.
Proof.
  assert (H1 : safe_int 29) by (unfold safe_int; lia).
  assert (H2 : safe_int 65) by (unfold safe_int; lia).
  split; [exact H1|]. split; [exact H2|]. split; [lia|].
  apply getCategoryFromScore_monotone; [exact H1 | exact H2 | lia].
Defined.

(** The boundaries as the spec lists them: 29 is low, 30 mixed, 64 mixed
    and 65 high; a NaN score is high and negative infinity low. *)
Example getCategoryFromScore_boundaries :
  getCategoryFromScore (of_Z 29) = Low /\ getCategoryFromScore (of_Z 30) = Mixed /\
  getCategoryFromScore (of_Z 64) = Mixed /\ getCategoryFromScore (of_Z 65) = High /\
  getCategoryFromScore S754_nan = High /\ getCategoryFromScore (S754_infinity true) = Low.
Proof. repeat split; by_eval. Qed.
