(* ===== verification/Catalog.v ===== *)
(** The question catalog [QUESTIONS] of [App.jsx] (lines 36-120): seven
    questions, each with an [id], a [text], the KPI key its answer is
    stored under, and its input: a list of options with fixed values
    ([type: 'options']) or a slider with a range and a step
    ([type: 'slider']).  Values are kept as the decimal literals of the
    source.

    [input_literals] lists the values a question can hand to
    [handleAnswer]: the option values, or the step values of the range
    input between [min] and [max].  The latter is the behaviour of the
    browser's range input (the code reads its value back with
    [parseFloat]), modelled here from the HTML contract rather than from
    code of the repository.  [question_texts] are the strings the range
    input reports as [e.target.value] ([range_value_text] of each step
    value, as the browser serializes it), which the code passes to
    [parseFloat]. *)

From S2P Require Import Prelude JsNumber JsObject JsString JsNumberText Scoring.

Local Open Scope Z_scope.
Local Open Scope string_scope.

Record option_item : Type := { label : string; value : decimal }.

Inductive question_input : Type :=
| Options (options : list option_item)
| Slider (leftLabel rightLabel : string) (min max step : decimal).

Record question : Type := {
  id : string;
  text : string;
  kpi : string;
  input : question_input
}.

Definition QUESTIONS : list question := [
  {| id := "story_like";
     text := "Cât de des îți dă like la story-uri? 👀";
     kpi := "story_like_rate";
     input := Options
       [{| label := "Aproape niciodată"; value := (0, 0%nat) |};
        {| label := "Doar când sunt foarte interesante"; value := (3, 1%nat) |};
        {| label := "Destul de des"; value := (7, 1%nat) |};
        {| label := "La fiecare story!"; value := (1, 0%nat) |}] |};
  {| id := "conversation_init";
     text := "Cine inițiază conversațiile mai des?";
     kpi := "conversation_initiation_ratio";
     input := Slider "Eu mereu" "El/Ea mereu" (0, 0%nat) (1, 0%nat) (1, 1%nat) |};
  {| id := "reply_speed";
     text := "Cât de repede răspunde la mesajele tale? ⚡";
     kpi := "reply_speed_score";
     input := Options
       [{| label := "Ore sau zile..."; value := (0, 0%nat) |};
        {| label := "În câteva ore"; value := (4, 1%nat) |};
        {| label := "În 30 min - 1 oră"; value := (7, 1%nat) |};
        {| label := "Instant sau sub 10 min!"; value := (1, 0%nat) |}] |};
  {| id := "dates";
     text := "Ați ieșit în oraș împreună? 🎭";
     kpi := "date_count_score";
     input := Options
       [{| label := "Niciodată"; value := (0, 0%nat) |};
        {| label := "O dată"; value := (3, 1%nat) |};
        {| label := "Câteva ori"; value := (7, 1%nat) |};
        {| label := "Destul de des!"; value := (1, 0%nat) |}] |};
  {| id := "gifts";
     text := "Ți-a oferit vreodată flori, cadouri sau gesturi speciale? 🎁";
     kpi := "gift_score";
     input := Options
       [{| label := "Niciodată"; value := (0, 0%nat) |};
        {| label := "O dată, ceva mic"; value := (4, 1%nat) |};
        {| label := "De câteva ori"; value := (8, 1%nat) |};
        {| label := "Da, des!"; value := (1, 0%nat) |}] |};
  {| id := "emotional";
     text := "Cum se poartă cu tine când sunteți împreună? 💫";
     kpi := "emotional_interest_score";
     input := Options
       [{| label := "Distant, ca un prieten"; value := (0, 0%nat) |};
        {| label := "Prietenos, dar nimic special"; value := (3, 1%nat) |};
        {| label := "Atent și carismatic"; value := (7, 1%nat) |};
        {| label := "Super afectuos și interesat"; value := (1, 0%nat) |}] |};
  {| id := "future_plans";
     text := "Vorbește despre planuri viitoare cu tine? 🗓️";
     kpi := "future_plans_score";
     input := Options
       [{| label := "Niciodată"; value := (0, 0%nat) |};
        {| label := "Rar"; value := (3, 1%nat) |};
        {| label := "Ocazional"; value := (6, 1%nat) |};
        {| label := "Da, des!"; value := (1, 0%nat) |}] |}
].

(** The step values [min + i * step], [i = 0 .. (max - min) / step], as
    decimals with the largest number of fraction digits of the three. *)
Definition slider_literals (min max step : decimal) : list decimal :=
  let k := Nat.max (snd min) (Nat.max (snd max) (snd step)) in
  let scale (d : decimal) := (fst d * 10 ^ Z.of_nat (k - snd d))%Z in
  let n := ((scale max - scale min) / scale step)%Z in
  map (fun i => ((scale min + Z.of_nat i * scale step)%Z, k)) (seq 0 (S (Z.to_nat n))).

Definition input_literals (i : question_input) : list decimal :=
  match i with
  | Options os => map value os
  | Slider _ _ mn mx st => slider_literals mn mx st
  end.

(** The numbers a question can pass to [handleAnswer]. *)
Definition question_values (q : question) : list number :=
  map literal (input_literals (input q)).

(** The text of a range input's value, [e.target.value]: the browser
    serializes the step value as the shortest decimal of the exact step
    ("the best representation of the number as a floating-point number"
    of HTML, computed on the decimal [min + i * step]). *)
Definition range_value_text (d : decimal) : string :=
  if (fst d =? 0)%Z then "0"
  else format_decimal (strip_zeros (Z.to_nat (ndigits (fst d))) (fst d)) (ndigits (fst d) - Z.of_nat (snd d)).

(** The texts a question's range input can hold (none for an options
    question). *)
Definition question_texts (q : question) : list string :=
  match input q with
  | Slider _ _ mn mx st => map range_value_text (slider_literals mn mx st)
  | Options _ => []
  end.

(** The initial and reset value of [sliderValue], [useState(0.5)]. *)
Definition slider_default : decimal := (5%Z, 1%nat).

(** A question with no text and no options, the default of [nth]. *)
Definition no_question : question :=
  {| id := EmptyString; text := EmptyString; kpi := EmptyString; input := Options [] |}.

(** A value a question can produce lies in [0,1], exactly and as a
    double. *)
Definition literal_in_unit (d : decimal) : bool :=
  Qle_bool 0 (decimal_Q d) && Qle_bool (decimal_Q d) 1 &&
  negb (lt (literal d) (of_Z 0)) && negb (lt (of_Z 1) (literal d)).

(** ** The catalog's configuration *)

(** [parseFloat] reads every text of a range input back as the value the
    catalog lists at the same position. *)
Lemma question_texts_values q l r mn mx st :
  In q QUESTIONS -> input q = Slider l r mn mx st -> map parseFloat (question_texts q) = question_values q.
Proof.
  intros Hq Hin. assert (H : forallb (fun q => match input q with
      | Slider _ _ mn mx st =>
          forallb (fun d => number_eqb (parseFloat (range_value_text d)) (literal d)) (slider_literals mn mx st)
      | Options _ => true end) QUESTIONS = true) by by_eval.
  rewrite forallb_forall in H. specialize (H q Hq). rewrite Hin, forallb_forall in H.
  unfold question_texts, question_values, input_literals. rewrite Hin, map_map.
  apply map_ext_in. intros d Hd. apply number_eqb_eq, H, Hd.
Qed.

(** The catalog asks seven questions with distinct ids, and the KPI keys
    of the questions, in catalog order, are exactly the keys of [WEIGHTS]
    in their order: every weighted KPI is asked for once and every answer
    is weighted.  The seven weights, added in the order of
    [Object.keys(WEIGHTS)] in double precision, sum to exactly 1, as their
    decimal literals do. *)
Theorem QUESTIONS_cover_WEIGHTS :
  List.length QUESTIONS = 7%nat /\ NoDup (map id QUESTIONS) /\
  map kpi QUESTIONS = keys WEIGHTS /\ NoDup (keys WEIGHTS) /\
  fold_left add (map snd WEIGHTS) (of_Z 0) = of_Z 1 /\
  (fold_right (fun '(k, w) acc => w + acc) 0 WEIGHTS_Q == 1)%Q.
Proof.
  split; [reflexivity|]. split; [apply nodup_strings_spec; by_eval|].
  split; [reflexivity|]. split; [apply nodup_strings_spec; by_eval|].
  split; [by_eval | exact WEIGHTS_Q_sum].
Qed.

Lemma catalog_literal_unit (q : question) (d : decimal) :
  In q QUESTIONS -> In d (input_literals (input q)) ->
  Qle 0 (decimal_Q d) /\ Qle (decimal_Q d) 1 /\
  lt (literal d) (of_Z 0) = false /\ lt (of_Z 1) (literal d) = false.
Proof.
  intros Hq Hd.
  assert (H : forallb (fun q => forallb literal_in_unit (input_literals (input q))) QUESTIONS = true)
    by by_eval.
  rewrite forallb_forall in H. specialize (H q Hq). rewrite forallb_forall in H.
  specialize (H d Hd). unfold literal_in_unit in H.
  repeat rewrite Bool.andb_true_iff in H. destruct H as [[[H1 H2] H3] H4].
  apply Qle_bool_iff in H1, H2. apply Bool.negb_true_iff in H3, H4. auto.
Qed.

(** C28: Every value a question can pass to [handleAnswer] lies in [0,1],
    both as the exact decimal of the source and as the double the code
    computes with. *)
Theorem question_values_unit (q : question) (d : decimal) :
  In q QUESTIONS -> In d (input_literals (input q)) ->
  Qle 0 (decimal_Q d) /\ Qle (decimal_Q d) 1 /\
  lt (literal d) (of_Z 0) = false /\ lt (of_Z 1) (literal d) = false.
Proof. exact (catalog_literal_unit q d). Qed.

Lemma question_values_unit_witness :
  In (nth 0 QUESTIONS no_question) QUESTIONS /\
  In (3%Z, 1%nat) (input_literals (input (nth 0 QUESTIONS no_question))) /\
  Qle 0 (decimal_Q (3%Z, 1%nat)) /\ Qle (decimal_Q (3%Z, 1%nat)) 1.
Proof.
  assert (Hq : In (nth 0 QUESTIONS no_question) QUESTIONS) by (left; reflexivity).
  assert (Hd : In (3%Z, 1%nat) (input_literals (input (nth 0 QUESTIONS no_question))))
    by (simpl; tauto).
  split; [exact Hq|]. split; [exact Hd|].
  destruct (question_values_unit _ _ Hq Hd) as [H1 [H2 _]]. split; [exact H1 | exact H2].
Defined.

(** The one slider question ([conversation_init], the second) offers the
    eleven values [k/10], [k = 0..10], and its default 0.5 is one of them:
    the value submitted without moving the slider is a legal step.  The
    range input holds them as the texts [0], [0.1], ..., [0.9], [1], and
    [parseFloat] reads each text back as exactly the double of its step. *)
Example slider_values_tenths :
  map id QUESTIONS = ["story_like"; "conversation_init"; "reply_speed"; "dates";
                      "gifts"; "emotional"; "future_plans"] /\
  input_literals (input (nth 1 QUESTIONS no_question)) =
    map (fun k => (Z.of_nat k, 1%nat)) (seq 0 11) /\
  In slider_default (map (fun k => (Z.of_nat k, 1%nat)) (seq 0 11)) /\
  question_texts (nth 1 QUESTIONS no_question) =
    ["0"; "0.1"; "0.2"; "0.3"; "0.4"; "0.5"; "0.6"; "0.7"; "0.8"; "0.9"; "1"] /\
  map parseFloat (question_texts (nth 1 QUESTIONS no_question)) =
    map (fun k => literal (Z.of_nat k, 1%nat)) (seq 0 11).
Proof. split; [reflexivity|]. split; [reflexivity|]. split; [simpl; tauto|]. split; by_eval. Qed.
