(* ===== verification/ScoreRefinement.v ===== *)
(** The double-precision scoring refines the exact scoring of the spec on
    every input the catalog allows.

    After the seventh answer, [handleAnswer] has built the KPI object
    [answers_kpis]: one entry per question, under the question's KPI key,
    in catalog order.  For every one of the 4^6 * 11 = 45056 answer
    combinations, [calculateFinalScore] returns the exact weighted sum
    times 100 rounded half up, except on exact .5 ties, where rounding
    errors of the double additions may make it one lower.  Both cases
    occur: the code's tie-breaking is neither consistently half up nor
    consistently half even.

    The proof evaluates a checker ([forall_paths] with [ref_step] and
    [ref_leaf], [refinement_check_true]) that folds the
    answers in the code's order over a tree of shared partial sums, both
    in doubles and in exact rationals, and compares the two at each leaf;
    [fold_step_spec] relates one path of the tree to [calculateFinalScore]
    and [weighted_sum_Q], and [forall_paths_spec] turns the checked tree
    into the universally quantified statement. *)

From S2P Require Import Prelude JsNumber JsObject Scoring Classifier Catalog.

Local Open Scope crush_scope.
Local Open Scope Q_scope.

(** ** The KPI object of a completed quiz *)

(** The object [kpis] holds after one answer per question, in order. *)
Definition answers_kpis (vs : list number) : obj number :=
  of_list (combine (map kpi QUESTIONS) vs).

(** The same answers as exact decimals. *)
Definition answers_kpis_Q (ds : list decimal) : obj Q :=
  of_list (combine (map kpi QUESTIONS) (map decimal_Q ds)).

(** [ds] picks, for each question in order, one value it can produce. *)
Definition catalog_answers (ds : list decimal) : Prop :=
  Forall2 (fun d q => In d (input_literals (input q))) ds QUESTIONS.

(** ** The exhaustive checker

    A state holds the double total, the exact total and the weights still
    to come, each as the key, its double and its exact value. *)

Definition ref_state : Type := (number * Q * list (string * number * Q))%type.

Definition weight_entry (kd : string * decimal) : string * number * Q :=
  (fst kd, literal (snd kd), decimal_Q (snd kd)).

Definition ref_step (st : ref_state) (a : number * Q) : ref_state :=
  match st with
  | (t, e, (k, w, wq) :: rest) => (add t (mul (or_zero (Some (fst a))) w), Qred (e + wq * snd a), rest)
  | _ => st
  end.

Definition ref_init : ref_state := (of_Z 0, 0, map weight_entry WEIGHT_LITERALS).

Definition ref_choices : list (list (number * Q)) :=
  map (fun q => map (fun d => (literal d, decimal_Q d)) (input_literals (input q))) QUESTIONS.

(** At a leaf: the double score is the exact one rounded half up, or one
    less on a tie. *)
Definition ref_leaf (st : ref_state) : bool :=
  let '(t, e, _) := st in
  let n := round_half_up (e * 100) in
  number_eqb (math_round (mul t (of_Z 100))) (of_Z n) ||
  (is_tie (e * 100) && number_eqb (math_round (mul t (of_Z 100))) (of_Z (n - 1))).

(** ** One path of the tree *)

Section Path.

Variable kpis : obj number.
Variable kq : obj Q.

Lemma fold_step_spec (L : list (string * decimal)) (xs : list (number * Q)) :
  Forall2 (fun kd a => get kpis (fst kd) = Some (fst a) /\ get kq (fst kd) = Some (snd a) /\
                       weight_of (fst kd) = literal (snd kd)) L xs ->
  forall t e,
  let r := fold_left ref_step xs (t, e, map weight_entry L) in
  fst (fst r) = fold_left (accumulate kpis) (map fst L) t /\
  snd (fst r) == fold_left (fun e '(k, w) => e + w * value_or_zero (get kq k))
                   (map (fun '(k, d) => (k, decimal_Q d)) L) e /\
  snd r = [].
Proof.
  induction 1 as [|[k d] [v q] L xs [Hv [Hq Hw]] _ IH]; intros t e; cbn [fold_left map fst snd] in *.
  - split; [reflexivity | split; reflexivity].
  - change (ref_step (t, e, weight_entry (k, d) :: map weight_entry L) (v, q))
      with (add t (mul (or_zero (Some v)) (literal d)), Qred (e + decimal_Q d * q), map weight_entry L).
    destruct (IH (add t (mul (or_zero (Some v)) (literal d))) (Qred (e + decimal_Q d * q)))
      as [H1 [H2 H3]].
    repeat split; [| |exact H3].
    + rewrite H1. f_equal. unfold accumulate. rewrite Hv, Hw. reflexivity.
    + rewrite H2, fold_left_sum_shift, (fold_left_sum_shift _ _ (e + _)), Qred_correct, Hq.
      reflexivity.
Qed.

End Path.

Lemma refinement_check_true : forall_paths ref_choices ref_step ref_init ref_leaf = true.
Proof. by_eval. Qed.

(** ** From the checked tree to every catalog input *)

Definition answer_pair (d : decimal) : number * Q := (literal d, decimal_Q d).

(** The path of [ds] in the tree computes the double total of
    [calculateFinalScore] and the exact total of [weighted_sum_Q]. *)
Lemma catalog_path (ds : list decimal) : catalog_answers ds ->
  Forall2 (fun x c => In x c) (map answer_pair ds) ref_choices /\
  let r := fold_left ref_step (map answer_pair ds) ref_init in
  fst (fst r) = fold_left (accumulate (answers_kpis (map literal ds))) (keys WEIGHTS) (of_Z 0) /\
  snd (fst r) == weighted_sum_Q (answers_kpis_Q ds).
Proof.
  intros Hds. unfold catalog_answers, QUESTIONS in Hds.
  assert (Hpaths : Forall2 (fun x c => In x c) (map answer_pair ds) ref_choices /\
    Forall2 (fun kd a => get (answers_kpis (map literal ds)) (fst kd) = Some (fst a) /\
                         get (answers_kpis_Q ds) (fst kd) = Some (snd a) /\
                         weight_of (fst kd) = literal (snd kd)) WEIGHT_LITERALS (map answer_pair ds)).
  { repeat match goal with H : Forall2 _ _ (_ :: _) |- _ => inv H end.
    match goal with H : Forall2 _ _ [] |- _ => inv H end.
    split.
    - unfold ref_choices, QUESTIONS. cbn [map].
      repeat (apply Forall2_cons; [apply in_map; assumption|]). apply Forall2_nil.
    - repeat (apply Forall2_cons; [repeat split; reflexivity|]). apply Forall2_nil. }
  destruct Hpaths as [Hin Hfold]. split; [exact Hin|].
  destruct (fold_step_spec _ _ _ _ Hfold (of_Z 0) 0) as [H1 [H2 _]].
  split; [exact H1|]. rewrite H2, weighted_sum_Q_fold_left. reflexivity.
Qed.

Lemma score_refinement (ds : list decimal) : catalog_answers ds ->
  calculateFinalScore (answers_kpis (map literal ds)) = of_Z (score_spec (answers_kpis_Q ds)) \/
  (is_tie (weighted_sum_Q (answers_kpis_Q ds) * 100) = true /\
   calculateFinalScore (answers_kpis (map literal ds)) = of_Z (score_spec (answers_kpis_Q ds) - 1)).
Proof.
  intros Hds. destruct (catalog_path ds Hds) as [Hin [H1 H2]].
  pose proof (forall_paths_spec _ _ _ _ refinement_check_true _ Hin) as Hleaf.
  unfold calculateFinalScore, score_spec. rewrite <- H1, <- H2.
  destruct (fold_left ref_step (map answer_pair ds) ref_init) as [[t e] rest].
  cbn [fst snd ref_leaf] in *.
  apply Bool.orb_true_iff in Hleaf as [Hl|Hl].
  - left. now apply number_eqb_eq.
  - right. apply Bool.andb_true_iff in Hl as [Ht Hl]. split; [exact Ht|].
    now apply number_eqb_eq.
Qed.

(** C2: Refinement.  For every combination of answers the catalog allows,
    the score [calculateFinalScore] computes in double precision is the
    exact weighted sum of the spec times 100 rounded half up, or, only
    when that exact value ends in .5, one less. *)
Theorem calculateFinalScore_refines_score_spec (ds : list decimal) :
  catalog_answers ds ->
  calculateFinalScore (answers_kpis (map literal ds)) = of_Z (score_spec (answers_kpis_Q ds)) \/
  (is_tie (weighted_sum_Q (answers_kpis_Q ds) * 100) = true /\
   calculateFinalScore (answers_kpis (map literal ds)) = of_Z (score_spec (answers_kpis_Q ds) - 1)).
Proof. exact (score_refinement ds). Qed.

Lemma answers_kpis_Q_unit (ds : list decimal) : catalog_answers ds ->
  forall k q, get (answers_kpis_Q ds) k = Some q -> 0 <= q <= 1.
Proof.
  intros Hds k q Hget. apply get_of_list_In, in_combine_r, in_map_iff in Hget as (d & <- & Hd).
  destruct (Forall2_In_l _ _ _ _ Hds Hd) as (qq & Hq & Hlit).
  destruct (catalog_literal_unit qq d Hq Hlit) as (H0 & H1 & _). split; assumption.
Qed.

(** On every combination of answers the catalog allows, the score is an
    integer between 0 and 100. *)
Lemma catalog_answers_score_bounds (ds : list decimal) :
  catalog_answers ds ->
  exists n, calculateFinalScore (answers_kpis (map literal ds)) = of_Z n /\ (0 <= n <= 100)%Z.
Proof.
  intros Hds. pose proof (score_spec_bounds _ (answers_kpis_Q_unit ds Hds)) as Hb.
  destruct (score_refinement ds Hds) as [E|[Ht E]]; eexists; split; try exact E; [lia|].
  pose proof (weighted_sum_Q_unit _ (answers_kpis_Q_unit ds Hds)) as [Hw _].
  assert (0 <= weighted_sum_Q (answers_kpis_Q ds) * 100) by lra.
  pose proof (is_tie_pos _ Ht H). unfold score_spec in *. lia.
Qed.

(** The spec's worked example, as the decimals a user picks. *)
Definition spec_example_answers : list decimal :=
  [(7%Z, 1%nat); (8%Z, 1%nat); (1%Z, 0%nat); (7%Z, 1%nat); (8%Z, 1%nat); (7%Z, 1%nat); (6%Z, 1%nat)].

Lemma spec_example_answers_catalog : catalog_answers spec_example_answers.
Proof.
  unfold catalog_answers, spec_example_answers.
  repeat (apply Forall2_cons; [simpl; tauto|]). apply Forall2_nil.
Defined.

Lemma calculateFinalScore_refines_score_spec_witness :
  catalog_answers spec_example_answers /\
  (calculateFinalScore (answers_kpis (map literal spec_example_answers)) =
     of_Z (score_spec (answers_kpis_Q spec_example_answers)) \/
   (is_tie (weighted_sum_Q (answers_kpis_Q spec_example_answers) * 100) = true /\
    calculateFinalScore (answers_kpis (map literal spec_example_answers)) =
      of_Z (score_spec (answers_kpis_Q spec_example_answers) - 1))).
Proof.
  split; [exact spec_example_answers_catalog|].
  apply calculateFinalScore_refines_score_spec. exact spec_example_answers_catalog.
Defined.

(** Ties are not broken consistently, and one of them changes the
    category.  Answering 0.7, 0.3, 1, 1, 1, 0, 0.6 gives the exact score
    64.5: the spec rounds it to 65 ([high]), the code computes 64 and
    classifies it [mixed].  Answering only the last question with 0.3
    gives the exact score 1.5, which the code rounds up to 2. *)
Example tie_rounding_inconsistent :
  let ds := [(7%Z, 1%nat); (3%Z, 1%nat); (1%Z, 0%nat); (1%Z, 0%nat); (1%Z, 0%nat); (0%Z, 0%nat); (6%Z, 1%nat)] in
  let ds' := [(0%Z, 0%nat); (0%Z, 1%nat); (0%Z, 0%nat); (0%Z, 0%nat); (0%Z, 0%nat); (0%Z, 0%nat); (3%Z, 1%nat)] in
  catalog_answers ds /\ catalog_answers ds' /\
  weighted_sum_Q (answers_kpis_Q ds) * 100 == 129 # 2 /\
  score_spec (answers_kpis_Q ds) = 65%Z /\
  calculateFinalScore (answers_kpis (map literal ds)) = of_Z 64 /\
  getCategoryFromScore (calculateFinalScore (answers_kpis (map literal ds))) = Mixed /\
  getCategoryFromScore (of_Z (score_spec (answers_kpis_Q ds))) = High /\
  weighted_sum_Q (answers_kpis_Q ds') * 100 == 3 # 2 /\
  calculateFinalScore (answers_kpis (map literal ds')) = of_Z 2.
Proof.
  cbv zeta. split; [|split].
  1, 2: unfold catalog_answers; repeat (apply Forall2_cons; [simpl; tauto|]); apply Forall2_nil.
  repeat split; by_eval.
Qed.
