(* ===== verification/Explanation.v ===== *)
(** The explanation requester [generateAIExplanation] of [App.jsx]
    (lines 126-174): a prompt built from the score, the category and the
    seven KPIs, one POST to the text-generation service, and, when anything
    on the way throws, a canned explanation chosen by the category.

    The service is a collaborator: [generateAIExplanation] takes it as a
    function from the request body to the outcome of [fetch], so that the
    theorems hold for every service.  The response body is a JSON value;
    [extract_text] is [data.content.map(...).join('\n').trim()] with
    JavaScript's semantics, [None] where that expression throws.

    The theorems: every failure (network error, a body that is not JSON,
    a body without a [content] array, an element that is [null]) yields
    exactly the fallback text of the category, for every service; the
    HTTP status is never looked at, so an error status with a [content]
    array is shown as an explanation; non-text segments still add a line
    break; an empty [content] array yields the empty explanation; every
    KPI value the catalog allows prints as its exact percentage. *)

From S2P Require Import Prelude JsNumber JsObject JsString Scoring Classifier Catalog.
From Stdlib Require Import Ascii.

Local Open Scope string_scope.

(** ** Data *)

(** A JSON value as [response.json()] yields it. *)
Inductive json : Type :=
| JNull
| JBool (b : bool)
| JNumber (n : number)
| JString (s : string)
| JArray (xs : list json)
| JObject (ps : list (string * json)).

(** What [await fetch(...)] followed by [await response.json()] produces:
    a rejected [fetch] (network failure), or a response with its status
    and its body parsed as JSON ([None] when [response.json()] rejects). *)
Inductive fetch_outcome : Type :=
| NetworkError
| HttpResponse (status : Z) (body : option json).

Definition dq : string := String (ascii_of_nat 34) EmptyString.
Definition newline : string := String (ascii_of_nat 10) EmptyString.

(** ** The canned explanations (lines 166-172) *)

Definition FALLBACK_HIGH : string :=
  "🔥 Wow! Semnalele sunt puternice! Persoana asta pare să fie cu adevărat interesată de tine. Fie că răspunde rapid, inițiază conversații sau face gesturi speciale, toate indică o conexiune autentică. Sfatul meu? Fii tu însuți și comunică deschis. Șansele sunt de partea ta! 💫".

Definition FALLBACK_MIXED : string :=
  "🤔 Situația e în zona " ++ dq ++ "mixed signals" ++ dq ++ ". Sunt câteva semne pozitive, dar și zone de incertitudine. Poate sunt timid(ă), sau încă vă cunoașteți. Comunicarea deschisă e cheia – întreabă direct dacă simți că e momentul potrivit. Nu te grăbi, dar nici nu sta pe loc! ✨".

Definition FALLBACK_LOW : string :=
  "💭 Hmm, semnalele par destul de slabe momentan. Asta nu înseamnă că e cazul pierdut, dar poate nu sunteți pe aceeași lungime de undă. Gândește-te dacă investiția ta emoțională e reciprocată. Merită să explorezi alte conexiuni care îți oferă energia pe care o dai. Tu meriți cineva care e la fel de entuziasmat(ă)! 💪".

Definition fallback_explanation (category : string) : string :=
  if String.eqb category "high" then FALLBACK_HIGH
  else if String.eqb category "mixed" then FALLBACK_MIXED
  else FALLBACK_LOW.

Section Explanation.

Variable number_to_string_other : number -> string.

(** ** The request *)

(** [kpis.k]: [undefined] is NaN once multiplied. *)
Definition kpi_number (kpis : obj number) (k : string) : number :=
  match get kpis k with Some v => v | None => S754_nan end.

(** [${(kpis.k * 100).toFixed(0)}]. *)
Definition kpi_percent (kpis : obj number) (k : string) : string :=
  toFixed0 number_to_string_other (mul (kpi_number kpis k) (of_Z 100)).

Definition buildPrompt (score : number) (category : string) (kpis : obj number) : string :=
  join newline
    ["Tu ești CrushBot, un AI amuzant și empatic care analizează semnale de interes romantic.";
     EmptyString;
     "Scor final: " ++ number_to_string number_to_string_other score ++ "%";
     "Categorie: " ++ category;
     "Detalii KPI:";
     "- Story likes: " ++ kpi_percent kpis "story_like_rate" ++ "%";
     "- Inițiază conversații: " ++ kpi_percent kpis "conversation_initiation_ratio" ++ "%";
     "- Viteză răspuns: " ++ kpi_percent kpis "reply_speed_score" ++ "%";
     "- Date count: " ++ kpi_percent kpis "date_count_score" ++ "%";
     "- Cadouri: " ++ kpi_percent kpis "gift_score" ++ "%";
     "- Interes emoțional: " ++ kpi_percent kpis "emotional_interest_score" ++ "%";
     "- Planuri viitoare: " ++ kpi_percent kpis "future_plans_score" ++ "%";
     EmptyString;
     "Scrie un răspuns scurt (max 120 cuvinte) în română pentru utilizator:";
     "1. Începe cu un hook emoțional (emoji fun)";
     "2. Explică ce arată semnalele (2-3 puncte cheie)";
     "3. Dă un sfat practic sau încurajare";
     "4. Termină playful și optimist";
     EmptyString;
     "Ton: prietenos, empatic, ușor flirty, cu umor subtil. NU fi condescendent. NU folosi clișee gen " ++ dq ++ "nu-ți pierde speranța" ++ dq ++ "."].

(** [JSON.stringify] of the request object (lines 154-158). *)
Definition request_body (prompt : string) : json :=
  JObject [("model", JString "claude-sonnet-4-20250514");
           ("max_tokens", JNumber (of_Z 1000));
           ("messages", JArray [JObject [("role", JString "user"); ("content", JString prompt)]])].

(** ** Reading the response *)

(** [v.k]: [None] when it throws (property of [null]), [Some None] when
    the property is [undefined]. *)
Definition get_prop (v : json) (k : string) : option (option json) :=
  match v with
  | JNull => None
  | JObject ps => Some (get ps k)
  | _ => Some None
  end.

(** [String(v)] as [Array.prototype.join] applies it to an element that
    is not [undefined] or [null]. *)
Fixpoint json_join_string (v : json) : string :=
  match v with
  | JNull => EmptyString
  | JBool b => if b then "true" else "false"
  | JNumber n => number_to_string number_to_string_other n
  | JString s => s
  | JArray xs => join "," (map json_join_string xs)
  | JObject _ => "[object Object]"
  end.

(** An element of [join]'s array: [undefined] and [null] print as empty. *)
Definition join_element (v : option json) : string :=
  match v with Some w => json_join_string w | None => EmptyString end.

(** [item => item.type === 'text' ? item.text : ''], [None] when
    [item.type] throws. *)
Definition segment_text (item : json) : option (option json) :=
  match get_prop item "type" with
  | None => None
  | Some (Some (JString t)) =>
      if String.eqb t "text" then get_prop item "text" else Some (Some (JString EmptyString))
  | Some _ => Some (Some (JString EmptyString))
  end.

Fixpoint map_segments (items : list json) : option (list (option json)) :=
  match items with
  | [] => Some []
  | it :: rest =>
      match segment_text it, map_segments rest with
      | Some v, Some vs => Some (v :: vs)
      | _, _ => None
      end
  end.

(** [data.content.map(...).join('\n').trim()], [None] when it throws:
    [data] is [null], or [data.content] is not an array. *)
Definition extract_text (data : json) : option string :=
  match get_prop data "content" with
  | Some (Some (JArray items)) =>
      match map_segments items with
      | Some vs => Some (trim (join newline (map join_element vs)))
      | None => None
      end
  | _ => None
  end.

(** [generateAIExplanation(score, category, kpis)] against the service
    [respond]: one request, no retry; any exception in the [try] block
    yields the fallback for [category]. *)
Definition generateAIExplanation (respond : json -> fetch_outcome)
    (score : number) (category : string) (kpis : obj number) : string :=
  match respond (request_body (buildPrompt score category kpis)) with
  | NetworkError => fallback_explanation category
  | HttpResponse _ None => fallback_explanation category
  | HttpResponse _ (Some data) =>
      match extract_text data with
      | Some text => text
      | None => fallback_explanation category
      end
  end.

(** The percentage a decimal in [0,1] with at most two fraction digits
    denotes. *)
Definition decimal_percent (d : decimal) : Z := (fst d * 10 ^ (2 - Z.of_nat (snd d)))%Z.


End Explanation.

(** A printer for the numbers [number_to_string] leaves open, a service
    that answers every request alike, and a text segment of a reply. *)

Definition no_number_text (x : number) : string := "?".

Definition service (o : fetch_outcome) : json -> fetch_outcome := fun _ => o.

Definition text_segment (t : string) : json := JObject [("type", JString "text"); ("text", JString t)].


(** The replies on which the [try] block of [generateAIExplanation]
    throws, by what JavaScript does with them (lines 149-162): [fetch]
    rejects; [response.json()] rejects; [data.content] of [null];
    [undefined.map] when the body has no [content] property;
    [content.map] is not a function when [content] is not an array;
    [item.type] of a [null] item. *)
Inductive reply_throws : fetch_outcome -> Prop :=
| throws_network : reply_throws NetworkError
| throws_not_json (st : Z) : reply_throws (HttpResponse st None)
| throws_null_body (st : Z) : reply_throws (HttpResponse st (Some JNull))
| throws_no_content (st : Z) (data : json) :
    data <> JNull -> (forall ps, data = JObject ps -> get ps "content" = None) ->
    reply_throws (HttpResponse st (Some data))
| throws_content_not_array (st : Z) (ps : list (string * json)) (c : json) :
    get ps "content" = Some c -> (forall xs, c <> JArray xs) ->
    reply_throws (HttpResponse st (Some (JObject ps)))
| throws_null_item (st : Z) (ps : list (string * json)) (pre post : list json) :
    get ps "content" = Some (JArray (pre ++ JNull :: post)) ->
    reply_throws (HttpResponse st (Some (JObject ps))).

(** ** Theorems *)

Section Theorems.

Variable number_to_string_other : number -> string.

Lemma map_segments_null (pre post : list json) : map_segments (pre ++ JNull :: post) = None.
Proof. induction pre as [|it pre IH]; cbn; [reflexivity|]. rewrite IH. destruct (segment_text it); reflexivity. Qed.


(** C16: Whatever the service answers, when the [try] block throws (the
    request fails, the body is not JSON or is [null], it has no [content]
    property, [content] is not an array, or an item of it is [null]) the
    explanation is exactly the canned text of the category, and no error
    escapes. *)
Theorem generateAIExplanation_fallback (respond : json -> fetch_outcome)
    (score : number) (category : string) (kpis : obj number) :
  reply_throws (respond (request_body (buildPrompt number_to_string_other score category kpis))) ->
  generateAIExplanation number_to_string_other respond score category kpis =
  fallback_explanation category.
Proof.
  unfold generateAIExplanation. intros H.
  destruct H as [| st | st | st data Hn Hc | st ps c Hc Hna | st ps pre post Hc]; try reflexivity.
  - destruct data; try reflexivity. cbn. rewrite (Hc _ eq_refl). reflexivity.
  - cbn. rewrite Hc. destruct c; try reflexivity. exfalso. exact (Hna xs eq_refl).
  - cbn. rewrite Hc, map_segments_null. reflexivity.
Qed.


(** C19: The HTTP status is never consulted: two services that return the
    same body with different statuses give the same explanation, so an
    error status with a [content] array is shown as an explanation. *)
Theorem generateAIExplanation_ignores_status (body : json -> option json) (s1 s2 : Z)
    (score : number) (category : string) (kpis : obj number) :
  generateAIExplanation number_to_string_other (fun r => HttpResponse s1 (body r)) score category kpis =
  generateAIExplanation number_to_string_other (fun r => HttpResponse s2 (body r)) score category kpis.
Proof. reflexivity. Qed.

(** C17: A body whose [content] is an array of text segments yields the
    segments joined by line breaks and trimmed. *)
Theorem generateAIExplanation_text_segments (respond : json -> fetch_outcome) (st : Z)
    (texts : list string) (score : number) (category : string) (kpis : obj number) :
  respond (request_body (buildPrompt number_to_string_other score category kpis)) =
    HttpResponse st (Some (JObject [("content",
      JArray (map (fun t => JObject [("type", JString "text"); ("text", JString t)]) texts))])) ->
  generateAIExplanation number_to_string_other respond score category kpis =
  trim (join newline texts).
Proof.
  intros H. unfold generateAIExplanation. rewrite H. unfold extract_text. simpl.
  assert (Hm : map_segments (map (fun t => JObject [("type", JString "text"); ("text", JString t)]) texts)
               = Some (map (fun t => Some (JString t)) texts)).
  { clear H. induction texts as [|t ts IH]; simpl; [reflexivity|]. rewrite IH. reflexivity. }
  rewrite Hm, map_map. simpl. rewrite map_id. reflexivity.
Qed.

(** C25: Every value the catalog allows is displayed in the prompt as its
    exact percentage: [(v * 100).toFixed(0)] prints [v * 100] although the
    product of doubles is not always an integer (0.7 * 100 is
    70.00000000000001). *)
Theorem kpi_percent_catalog (q : question) (d : decimal) (k : string) :
  In q QUESTIONS -> In d (input_literals (input q)) ->
  kpi_percent number_to_string_other [(k, literal d)] k = Z_to_string (decimal_percent d).
Proof.
  intros Hq Hd. unfold kpi_percent, kpi_number. simpl get. rewrite String.eqb_refl.
  assert (H : forallb (fun q => forallb (fun d =>
              String.eqb (toFixed0 number_to_string_other (mul (literal d) (of_Z 100)))
                         (Z_to_string (decimal_percent d))) (input_literals (input q))) QUESTIONS = true)
    by by_eval.
  rewrite forallb_forall in H. specialize (H q Hq). rewrite forallb_forall in H.
  apply String.eqb_eq, H, Hd.
Qed.

End Theorems.

(** ** Witnesses and evaluated cases *)

Lemma generateAIExplanation_fallback_witness :
  reply_throws (service (HttpResponse 200 (Some (JObject [("content", JArray [text_segment "A"; JNull])])))
    (request_body (buildPrompt no_number_text (of_Z 77) "high" []))) /\
  generateAIExplanation no_number_text
    (service (HttpResponse 200 (Some (JObject [("content", JArray [text_segment "A"; JNull])])))) (of_Z 77) "high" []
  = FALLBACK_HIGH.
Proof.
  assert (H : reply_throws (service (HttpResponse 200 (Some (JObject [("content", JArray [text_segment "A"; JNull])])))
    (request_body (buildPrompt no_number_text (of_Z 77) "high" []))))
    by (apply (throws_null_item 200 _ [text_segment "A"] []); reflexivity).
  split; [exact H|]. exact (generateAIExplanation_fallback no_number_text _ _ _ _ H).
Defined.


Lemma generateAIExplanation_text_segments_witness :
  service (HttpResponse 200 (Some (JObject [("content", JArray (map text_segment [" Salut"; "Hai! "]))])))
    (request_body (buildPrompt no_number_text (of_Z 77) "high" [])) =
    HttpResponse 200 (Some (JObject [("content",
      JArray (map (fun t => JObject [("type", JString "text"); ("text", JString t)]) [" Salut"; "Hai! "]))])) /\
  generateAIExplanation no_number_text
    (service (HttpResponse 200 (Some (JObject [("content", JArray (map text_segment [" Salut"; "Hai! "]))]))))
    (of_Z 77) "high" [] = trim (join newline [" Salut"; "Hai! "]).
Proof.
  assert (H : service (HttpResponse 200 (Some (JObject [("content", JArray (map text_segment [" Salut"; "Hai! "]))])))
    (request_body (buildPrompt no_number_text (of_Z 77) "high" [])) =
    HttpResponse 200 (Some (JObject [("content",
      JArray (map (fun t => JObject [("type", JString "text"); ("text", JString t)]) [" Salut"; "Hai! "]))])))
    by reflexivity.
  split; [exact H|]. exact (generateAIExplanation_text_segments no_number_text _ _ _ _ _ _ H).
Defined.

Lemma kpi_percent_catalog_witness :
  In (nth 0 QUESTIONS no_question) QUESTIONS /\
  In (7%Z, 1%nat) (input_literals (input (nth 0 QUESTIONS no_question))) /\
  kpi_percent no_number_text [("story_like_rate", literal (7%Z, 1%nat))] "story_like_rate" =
  Z_to_string (decimal_percent (7%Z, 1%nat)).
Proof.
  assert (Hq : In (nth 0 QUESTIONS no_question) QUESTIONS) by (left; reflexivity).
  assert (Hd : In (7%Z, 1%nat) (input_literals (input (nth 0 QUESTIONS no_question)))) by (simpl; tauto).
  split; [exact Hq|]. split; [exact Hd|].
  exact (kpi_percent_catalog no_number_text _ _ _ Hq Hd).
Defined.
