(* ===== verification/Feedback.v ===== *)
(** The feedback recorder of [handleFeedback] (lines 235-255): the key
    ["feedback_" + Date.now()], the record
    [{score, category, accurate, timestamp}] serialised by
    [JSON.stringify], with [new Date().toISOString()] as its timestamp,
    written with [window.storage.set(key, value, true)].

    [json_stringify] follows the JSON serialisation of ECMAScript on the
    JSON values of [Explanation] (string escapes included);
    [toISOString] is the civil calendar of the proleptic Gregorian
    calendar in UTC, computed from the milliseconds since the epoch.  The
    persistence collaborator is a store of string keys, shared between
    sessions ([shared = true]).

    The theorems: [days_from_civil] inverts [civil_from_days] on every
    integer and the month and day printed are in range; keys of different
    milliseconds differ; the text stored for a record, evaluated. *)

From S2P Require Import Prelude JsNumber JsObject JsString Explanation.
From Stdlib Require Import Ascii.

Local Open Scope string_scope.

(** ** [JSON.stringify] *)

Definition hex_digit (n : nat) : ascii := ascii_of_nat (if Nat.ltb n 10 then 48 + n else 87 + n).

(** One byte of a string literal: the escapes of QuoteJSONString for the
    quote, the backslash and the control characters; other bytes (those
    of non-ASCII code points included) as they are. *)
Definition quote_byte (c : ascii) : string :=
  let n := nat_of_ascii c in
  if Nat.eqb n 34 then "\" ++ dq
  else if Nat.eqb n 92 then "\\"
  else if Nat.eqb n 8 then "\b"
  else if Nat.eqb n 12 then "\f"
  else if Nat.eqb n 10 then "\n"
  else if Nat.eqb n 13 then "\r"
  else if Nat.eqb n 9 then "\t"
  else if Nat.ltb n 32 then
    "\u00" ++ String (hex_digit (Nat.div n 16)) (String (hex_digit (Nat.modulo n 16)) EmptyString)
  else String c EmptyString.

Fixpoint quote_chars (s : string) : string :=
  match s with
  | EmptyString => EmptyString
  | String c s' => quote_byte c ++ quote_chars s'
  end.

Definition quote_json_string (s : string) : string := dq ++ quote_chars s ++ dq.

Section Stringify.

Variable number_to_string_other : number -> string.

(** Finite numbers print as [String(n)], the others as [null]. *)
Definition json_number (n : number) : string :=
  match n with
  | S754_nan | S754_infinity _ => "null"
  | _ => number_to_string number_to_string_other n
  end.

Fixpoint json_stringify (v : json) : string :=
  match v with
  | JNull => "null"
  | JBool b => if b then "true" else "false"
  | JNumber n => json_number n
  | JString s => quote_json_string s
  | JArray xs => "[" ++ join "," (map json_stringify xs) ++ "]"
  | JObject ps =>
      "{" ++ join "," (map (fun kv => quote_json_string (fst kv) ++ ":" ++ json_stringify (snd kv)) ps)
      ++ "}"
  end.

End Stringify.

(** ** [Date.prototype.toISOString] *)

Local Open Scope Z_scope.

Definition ms_per_day : Z := 86400000.

(** The proleptic Gregorian date [(year, month, day)] of a day number
    counted from 1970-01-01. *)
Definition civil_from_days (days : Z) : Z * Z * Z :=
  let z := days + 719468 in
  let era := z / 146097 in
  let doe := z - era * 146097 in
  let yoe := (doe - doe / 1460 + doe / 36524 - doe / 146096) / 365 in
  let doy := doe - (365 * yoe + yoe / 4 - yoe / 100) in
  let mp := (5 * doy + 2) / 153 in
  let d := doy - (153 * mp + 2) / 5 + 1 in
  let m := if mp <? 10 then mp + 3 else mp - 9 in
  let y := yoe + era * 400 + (if m <=? 2 then 1 else 0) in
  (y, m, d).

(** The day number of a proleptic Gregorian date, the inverse. *)
Definition days_from_civil (y m d : Z) : Z :=
  let y' := if m <=? 2 then y - 1 else y in
  let era := y' / 400 in
  let yoe := y' - era * 400 in
  let mp := if 2 <? m then m - 3 else m + 9 in
  let doy := (153 * mp + 2) / 5 + d - 1 in
  let doe := yoe * 365 + yoe / 4 - yoe / 100 + doy in
  era * 146097 + doe - 719468.

(** The decimal digits of [n >= 0], left-padded with zeros to [width]. *)
Definition pad (width : nat) (n : Z) : string :=
  let s := Z_to_string n in
  append (String.concat EmptyString (repeat "0" (width - String.length s))) s.

(** [new Date(t).toISOString()]: [None] (a RangeError) outside the time
    values of ECMAScript, [+-8.64e15] ms; years outside 0..9999 use the
    six-digit signed form. *)
Definition toISOString (t : Z) : option string :=
  if 8640000000000000 <? Z.abs t then None
  else
    let days := t / ms_per_day in
    let ms := t mod ms_per_day in
    let '(y, mo, d) := civil_from_days days in
    let year := if (0 <=? y) && (y <=? 9999) then pad 4 y
                else (if y <? 0 then "-" else "+") ++ pad 6 (Z.abs y) in
    Some (year ++ "-" ++ pad 2 mo ++ "-" ++ pad 2 d ++ "T" ++
          pad 2 (ms / 3600000) ++ ":" ++ pad 2 (ms / 60000 mod 60) ++ ":" ++
          pad 2 (ms / 1000 mod 60) ++ "." ++ pad 3 (ms mod 1000) ++ "Z").

(** ** The record and its key *)

(** [`feedback_${Date.now()}`]. *)
Definition feedbackId (now : Z) : string := "feedback_" ++ Z_to_string now.

Section Record.

Variable number_to_string_other : number -> string.

(** [JSON.stringify({score: finalScore, category, accurate: isAccurate,
    timestamp: new Date().toISOString()})]; [null] for a state value that
    was never set. *)
Definition feedback_record (finalScore : option number) (category : option string)
    (accurate : bool) (timestamp : string) : json :=
  JObject [("score", match finalScore with Some s => JNumber s | None => JNull end);
           ("category", match category with Some c => JString c | None => JNull end);
           ("accurate", JBool accurate);
           ("timestamp", JString timestamp)].

Definition feedback_value (finalScore : option number) (category : option string)
    (accurate : bool) (now : Z) : option string :=
  match toISOString now with
  | Some ts => Some (json_stringify number_to_string_other (feedback_record finalScore category accurate ts))
  | None => None
  end.

End Record.

Section Percent.

Variable number_to_string_other : number -> string.

(** An integer percentage prints as its decimal digits, also inside JSON. *)
Lemma number_to_string_score n : (0 <= n <= 100)%Z ->
  number_to_string number_to_string_other (of_Z n) = Z_to_string n.
Proof.
  intros Hn. replace n with (Z.of_nat (Z.to_nat n)) by lia.
  apply String.eqb_eq.
  exact (forallb_seq (fun k => String.eqb (number_to_string number_to_string_other (of_Z (Z.of_nat k)))
                                          (Z_to_string (Z.of_nat k)))
           101 ltac:(vm_compute; reflexivity) (Z.to_nat n) ltac:(lia)).
Qed.

Lemma json_number_score n : (0 <= n <= 100)%Z ->
  json_number number_to_string_other (of_Z n) = Z_to_string n.
Proof.
  intros Hn. rewrite <- (number_to_string_score n Hn). replace n with (Z.of_nat (Z.to_nat n)) by lia.
  apply String.eqb_eq.
  exact (forallb_seq (fun k => String.eqb (json_number number_to_string_other (of_Z (Z.of_nat k)))
                                          (number_to_string number_to_string_other (of_Z (Z.of_nat k))))
           101 ltac:(vm_compute; reflexivity) (Z.to_nat n) ltac:(lia)).
Qed.

(** C23: For every integer score in [0,100], every category, judgement and
    click time the [Date] range allows, the stored value is the text
    [JSON.stringify] gives the record: the fields [score], [category],
    [accurate], [timestamp] in the order of the object literal, the score
    as bare digits, the strings quoted and escaped; with no score and no
    category set, both print as [null]. *)
Theorem feedback_value_format (n : Z) (c ts : string) (b : bool) (now : Z) :
  (0 <= n <= 100)%Z -> toISOString now = Some ts ->
  feedback_value number_to_string_other (Some (of_Z n)) (Some c) b now =
    Some ("{" ++ dq ++ "score" ++ dq ++ ":" ++ Z_to_string n ++ "," ++
          dq ++ "category" ++ dq ++ ":" ++ quote_json_string c ++ "," ++
          dq ++ "accurate" ++ dq ++ ":" ++ (if b then "true" else "false") ++ "," ++
          dq ++ "timestamp" ++ dq ++ ":" ++ quote_json_string ts ++ "}") /\
  feedback_value number_to_string_other None None b now =
    Some ("{" ++ dq ++ "score" ++ dq ++ ":null," ++ dq ++ "category" ++ dq ++ ":null," ++
          dq ++ "accurate" ++ dq ++ ":" ++ (if b then "true" else "false") ++ "," ++
          dq ++ "timestamp" ++ dq ++ ":" ++ quote_json_string ts ++ "}").
Proof.
  intros Hn Hts. unfold feedback_value. rewrite Hts.
  split; f_equal; cbn [feedback_record json_stringify map fst snd join]; rewrite ?(json_number_score n Hn);
    unfold quote_json_string; autorewrite with crush_rw; destruct b; reflexivity.
Qed.

End Percent.

(** ** Theorems *)

(** The intermediate quantities of [civil_from_days] stay in their ranges:
    the day of the 400-year era, the year of the era, the day of the year
    counted from March 1st and its month. *)
Lemma civil_from_days_ranges (d : Z) :
  let z := d + 719468 in
  let era := z / 146097 in
  let doe := z - era * 146097 in
  let yoe := (doe - doe / 1460 + doe / 36524 - doe / 146096) / 365 in
  let doy := doe - (365 * yoe + yoe / 4 - yoe / 100) in
  let mp := (5 * doy + 2) / 153 in
  0 <= doe <= 146096 /\ 0 <= yoe <= 399 /\ 0 <= doy <= 365 /\ 0 <= mp <= 11 /\
  0 <= doy - (153 * mp + 2) / 5 <= 30.
Proof.
  intros z era doe yoe doy mp.
  assert (Hdoe : 0 <= doe <= 146096) by (subst doe era; Z.div_mod_to_equations; lia).
  assert (Hyoe : 0 <= yoe <= 399) by (subst yoe; Z.div_mod_to_equations; lia).
  assert (Hdoy : 0 <= doy <= 365) by (subst doy yoe; Z.div_mod_to_equations; lia).
  assert (Hmp : 0 <= mp <= 11) by (subst mp; Z.div_mod_to_equations; lia).
  repeat split; try lia; subst mp; Z.div_mod_to_equations; lia.
Qed.

(** [toISOString] prints a valid month and day of month for every day
    number, and the day number of the printed date is the day:
    [days_from_civil] inverts [civil_from_days] on all integers. *)
Theorem civil_from_days_roundtrip (d : Z) :
  let '(y, m, dd) := civil_from_days d in
  days_from_civil y m dd = d /\ 1 <= m <= 12 /\ 1 <= dd <= 31.
Proof.
  pose proof (civil_from_days_ranges d) as (Hdoe & Hyoe & Hdoy & Hmp & Hdd).
  unfold civil_from_days, days_from_civil. cbv zeta in *.
  set (z := d + 719468) in *. set (era := z / 146097) in *. set (doe := z - era * 146097) in *.
  set (yoe := (doe - doe / 1460 + doe / 36524 - doe / 146096) / 365) in *.
  set (doy := doe - (365 * yoe + yoe / 4 - yoe / 100)) in *. set (mp := (5 * doy + 2) / 153) in *.
  destruct (mp <? 10) eqn:E1; [apply Z.ltb_lt in E1 | apply Z.ltb_ge in E1].
  - replace (mp + 3 <=? 2) with false by (symmetry; apply Z.leb_gt; lia).
    replace (2 <? mp + 3) with true by (symmetry; apply Z.ltb_lt; lia).
    replace (yoe + era * 400 + 0) with (era * 400 + yoe) by ring.
    rewrite Z.div_add_l, (Z.div_small yoe 400), Z.add_0_r by lia.
    replace (era * 400 + yoe - era * 400) with yoe by ring.
    replace (mp + 3 - 3) with mp by ring. subst doy doe z. lia.
  - replace (mp - 9 <=? 2) with true by (symmetry; apply Z.leb_le; lia).
    replace (2 <? mp - 9) with false by (symmetry; apply Z.ltb_ge; lia).
    replace (yoe + era * 400 + 1 - 1) with (era * 400 + yoe) by ring.
    rewrite Z.div_add_l, (Z.div_small yoe 400), Z.add_0_r by lia.
    replace (era * 400 + yoe - era * 400) with yoe by ring.
    replace (mp - 9 + 9) with mp by ring. subst doy doe z. lia.
Qed.

(** Feedback records written in different milliseconds get different
    keys: [feedbackId] is injective. *)
Theorem feedbackId_injective (t1 t2 : Z) : t1 <> t2 -> feedbackId t1 <> feedbackId t2.
Proof.
  intros Hne E. apply Hne, Z_to_string_inj. unfold feedbackId in E. simpl in E.
  repeat match goal with H : String _ _ = String _ _ |- _ => injection H as H end. exact E.
Qed.

Lemma feedbackId_injective_witness : 1794187259356 <> 1794187259357 /\
  feedbackId 1794187259356 <> feedbackId 1794187259357.
Proof.
  assert (H : 1794187259356 <> 1794187259357) by lia.
  split; [exact H | exact (feedbackId_injective _ _ H)].
Defined.

Lemma feedback_value_format_witness :
  (0 <= 77 <= 100)%Z /\ toISOString 1794187259356 = Some "2026-11-09T01:20:59.356Z" /\
  feedback_value no_number_text (Some (of_Z 77)) (Some "high") true 1794187259356 =
    Some ("{" ++ dq ++ "score" ++ dq ++ ":" ++ Z_to_string 77 ++ "," ++
          dq ++ "category" ++ dq ++ ":" ++ quote_json_string "high" ++ "," ++
          dq ++ "accurate" ++ dq ++ ":" ++ "true" ++ "," ++
          dq ++ "timestamp" ++ dq ++ ":" ++ quote_json_string "2026-11-09T01:20:59.356Z" ++ "}").
Proof.
  assert (H1 : (0 <= 77 <= 100)%Z) by lia.
  assert (H2 : toISOString 1794187259356 = Some "2026-11-09T01:20:59.356Z") by (vm_compute; reflexivity).
  split; [exact H1|]. split; [exact H2|].
  exact (proj1 (feedback_value_format no_number_text 77 "high" _ true _ H1 H2)).
Defined.
