(* ===== verification/Quiz.v ===== *)
(** The component [CrushBot] of [App.jsx] (lines 180-1201) as a state
    machine driven by events.

    [ui] holds the nine [useState] hooks.  The handlers [handleAnswer],
    [processResults], [handleFeedback] and [handleReset] change it as the
    code does; their deferred parts are explicit: [setTimeout] callbacks
    are [timer]s that capture the values their closure saw (the question
    index and the new KPI object of the click), and the two [await]s are
    [pending] promises settled by the outside world (the text-generation
    service, the storage).  A [world] adds the clock, the timers, the
    promises, the shared storage, the requests sent and whether rendering
    crashed.

    [step] is one event: a click on a button the current stage renders, a
    slider move, time passing (due timers fire in order of due time, then
    of scheduling), or a promise settling.  A click on a button the stage
    does not render is refused ([None]).  After each event the stage is
    rendered: the questions stage with an index past the catalog reads
    [currentQuestion.text] of [undefined], a TypeError that unmounts the
    application ([crashed]). *)

From S2P Require Import Prelude JsNumber JsObject JsString JsNumberText Scoring Classifier Catalog ScoreRefinement Explanation Feedback.

Local Open Scope string_scope.

(** ** State *)

(** ['intro'], ['questions'], ['loading'], ['result'], ['feedback']. *)
Inductive stage : Type := Intro | Questions | Loading | Result | FeedbackStage.

Record ui : Type := mk_ui {
  ui_stage : stage;
  currentQuestionIndex : nat;
  answers : obj number;
  kpis : obj number;
  finalScore : option number;
  category : option string;
  aiExplanation : string;
  sliderValue : number;
  showThankYou : bool
}.

(** The callbacks passed to [setTimeout], with the values they closed
    over. *)
Inductive callback : Type :=
| AfterAnswer (index : nat) (newKpis : obj number)
| ShowResult
| AfterThanks.

Record timer : Type := mk_timer { due : Z; cb : callback }.

(** The [await]s a handler is suspended on. *)
Inductive pending : Type :=
| AwaitExplanation (score : number) (cat : string) (finalKpis : obj number)
| AwaitStorage (key value : string).

Record world : Type := mk_world {
  w_ui : ui;
  clock : Z;
  timers : list timer;
  pendings : list pending;
  storage : obj string;
  requests : list json;
  crashed : bool
}.

Inductive event : Type :=
| ClickStart
| ClickOption (i : nat)
| Slide (value : string)
| ClickContinue
| ClickFeedback (accurate : bool)
| ClickReset
| Wait (dt : Z)
| ExplanationSettles (i : nat) (o : fetch_outcome)
| StorageSettles (i : nat) (ok : bool).

Section Quiz.

Variable number_to_string_other : number -> string.

(** ** The initial state *)

Definition init_ui : ui :=
  mk_ui Intro 0 [] [] None None EmptyString (literal slider_default) false.

Definition init_world (t : Z) : world := mk_world init_ui t [] [] [] [] false.

(** ** Updates of single hooks *)

Definition set_stage (s : stage) (u : ui) : ui :=
  mk_ui s (currentQuestionIndex u) (answers u) (kpis u) (finalScore u) (category u)
    (aiExplanation u) (sliderValue u) (showThankYou u).

Definition set_ui (u : ui) (w : world) : world :=
  mk_world u (clock w) (timers w) (pendings w) (storage w) (requests w) (crashed w).

(** [setTimeout(f, delay)]: after every timer due no later. *)
Fixpoint insert_timer (t : timer) (ts : list timer) : list timer :=
  match ts with
  | [] => [t]
  | t' :: ts' => if (due t <? due t')%Z then t :: ts else t' :: insert_timer t ts'
  end.

Definition set_timeout (delay : Z) (c : callback) (w : world) : world :=
  mk_world (w_ui w) (clock w) (insert_timer (mk_timer (clock w + delay) c) (timers w))
    (pendings w) (storage w) (requests w) (crashed w).

Definition add_pending (p : pending) (w : world) : world :=
  mk_world (w_ui w) (clock w) (timers w) (pendings w ++ [p]) (storage w) (requests w) (crashed w).

(** ** The handlers *)

(** [QUESTIONS[currentQuestionIndex]]. *)
Definition currentQuestion (u : ui) : option question :=
  nth_error QUESTIONS (currentQuestionIndex u).

(** [handleAnswer(value)] (lines 200-217): store the answer, then defer
    the move on by 300 ms with the index and KPI object of this click. *)
Definition handleAnswer (q : question) (value : number) (w : world) : world :=
  let u := w_ui w in
  let newAnswers := set (answers u) (id q) value in
  let newKpis := set (kpis u) (kpi q) value in
  let u' := mk_ui (ui_stage u) (currentQuestionIndex u) newAnswers newKpis (finalScore u)
              (category u) (aiExplanation u) (sliderValue u) (showThankYou u) in
  set_timeout 300 (AfterAnswer (currentQuestionIndex u) newKpis) (set_ui u' w).

(** [processResults(finalKpis)] up to its [await] (lines 219-227): score,
    classify, store both, send the request and wait for the answer. *)
Definition processResults (finalKpis : obj number) (w : world) : world :=
  let u := w_ui w in
  let score := calculateFinalScore finalKpis in
  let cat := category_to_string (getCategoryFromScore score) in
  let u' := mk_ui (ui_stage u) (currentQuestionIndex u) (answers u) (kpis u) (Some score)
              (Some cat) (aiExplanation u) (sliderValue u) (showThankYou u) in
  let w' := set_ui u' w in
  add_pending (AwaitExplanation score cat finalKpis)
    (mk_world (w_ui w') (clock w') (timers w') (pendings w') (storage w')
       (requests w' ++ [request_body (buildPrompt number_to_string_other score cat finalKpis)])
       (crashed w')).

(** The body of the 300 ms timer of [handleAnswer] (lines 207-216). *)
Definition afterAnswer (index : nat) (newKpis : obj number) (w : world) : world :=
  let u := w_ui w in
  if Nat.ltb index (List.length QUESTIONS - 1) then
    set_ui (mk_ui (ui_stage u) (S (currentQuestionIndex u)) (answers u) (kpis u) (finalScore u)
              (category u) (aiExplanation u) (literal slider_default) (showThankYou u)) w
  else processResults newKpis (set_ui (set_stage Loading u) w).

(** [handleFeedback(isAccurate)] up to its [await] (lines 235-246). *)
Definition handleFeedback (accurate : bool) (w : world) : world :=
  let u := w_ui w in
  let u' := mk_ui (ui_stage u) (currentQuestionIndex u) (answers u) (kpis u) (finalScore u)
              (category u) (aiExplanation u) (sliderValue u) true in
  let key := feedbackId (clock w) in
  let value := feedback_value number_to_string_other (finalScore u) (category u) accurate (clock w) in
  match value with
  | Some v => add_pending (AwaitStorage key v) (set_ui u' w)
  | None => set_timeout 1500 AfterThanks (set_ui u' w)
  end.

(** [handleReset()] (lines 257-267): every hook back to its initial value;
    timers and promises already scheduled are left alone. *)
Definition handleReset (w : world) : world := set_ui init_ui w.

(** A timer firing. *)
Definition run_callback (c : callback) (w : world) : world :=
  match c with
  | AfterAnswer i k => afterAnswer i k w
  | ShowResult => set_ui (set_stage Result (w_ui w)) w
  | AfterThanks =>
      let u := w_ui w in
      set_ui (mk_ui FeedbackStage (currentQuestionIndex u) (answers u) (kpis u) (finalScore u)
                (category u) (aiExplanation u) (sliderValue u) false) w
  end.

(** Time passes until [target]: the due timers fire in order, each at its
    due time.  No callback schedules a timer, so one more round than there
    are timers is enough fuel ([wait_fires_due]). *)
Fixpoint fire_until (fuel : nat) (target : Z) (w : world) : world :=
  match fuel with
  | O => w
  | S fuel' =>
      match timers w with
      | t :: ts =>
          if (due t <=? target)%Z then
            fire_until fuel' target
              (run_callback (cb t)
                 (mk_world (w_ui w) (due t) ts (pendings w) (storage w) (requests w) (crashed w)))
          else mk_world (w_ui w) target (timers w) (pendings w) (storage w) (requests w) (crashed w)
      | [] => mk_world (w_ui w) target [] (pendings w) (storage w) (requests w) (crashed w)
      end
  end.

(** The [i]-th pending promise, removed. *)
Definition take_pending (i : nat) (w : world) : option (pending * world) :=
  match nth_error (pendings w) i with
  | Some p => Some (p, mk_world (w_ui w) (clock w) (timers w)
                        (firstn i (pendings w) ++ skipn (S i) (pendings w))
                        (storage w) (requests w) (crashed w))
  | None => None
  end.

(** ** Rendering *)

(** The stage renders without throwing. *)
Definition renders (u : ui) : bool :=
  match ui_stage u with
  | Questions => match currentQuestion u with Some _ => true | None => false end
  | _ => true
  end.

Definition after_render (w : world) : world :=
  mk_world (w_ui w) (clock w) (timers w) (pendings w) (storage w) (requests w)
    (crashed w || negb (renders (w_ui w))).

(** ** The stages as rendered: the controls each one offers *)

(** [stage === 'intro'] (lines 273-295): the start button. *)
Definition intro_view (w : world) (e : event) : option world :=
  match e with
  | ClickStart => Some (set_ui (set_stage Questions (w_ui w)) w)
  | _ => None
  end.

(** [stage === 'questions'] (lines 450-520): the option buttons of an
    options question; the range input and [Continuă] of the slider.  A
    move of the range input hands one of its value texts to [onChange],
    which stores [parseFloat(e.target.value)] (line 507). *)
Definition questions_view (w : world) (e : event) : option world :=
  let u := w_ui w in
  match currentQuestion u with
  | None => None
  | Some q =>
      match input q, e with
      | Options os, ClickOption i =>
          match nth_error os i with
          | Some o => Some (handleAnswer q (literal (value o)) w)
          | None => None
          end
      | Slider _ _ _ _ _, Slide value =>
          if existsb (String.eqb value) (question_texts q) then
            Some (set_ui (mk_ui (ui_stage u) (currentQuestionIndex u) (answers u) (kpis u)
                            (finalScore u) (category u) (aiExplanation u) (parseFloat value) (showThankYou u)) w)
          else None
      | Slider _ _ _ _ _, ClickContinue => Some (handleAnswer q (sliderValue u) w)
      | _, _ => None
      end
  end.

(** [stage === 'result'] (lines 840-906): the two feedback buttons, shown
    also while the thank-you is displayed, and the reset button. *)
Definition result_view (w : world) (e : event) : option world :=
  match e with
  | ClickFeedback b => Some (handleFeedback b w)
  | ClickReset => Some (handleReset w)
  | _ => None
  end.

(** [stage === 'feedback'] (lines 1129-1143): the home button. *)
Definition feedback_view (w : world) (e : event) : option world :=
  match e with
  | ClickReset => Some (handleReset w)
  | _ => None
  end.

(** The render of the current stage; [stage === 'loading'] (lines
    752-765) has no control. *)
Definition view (w : world) (e : event) : option world :=
  match ui_stage (w_ui w) with
  | Intro => intro_view w e
  | Questions => questions_view w e
  | Loading => None
  | Result => result_view w e
  | FeedbackStage => feedback_view w e
  end.

(** ** One event *)

Definition step_raw (w : world) (e : event) : option world :=
  match e with
  | Wait dt =>
      if (0 <=? dt)%Z then Some (fire_until (S (List.length (timers w))) (clock w + dt) w) else None
  | ExplanationSettles i o =>
      match take_pending i w with
      | Some (AwaitExplanation s c k, w') =>
          let text := generateAIExplanation number_to_string_other (fun _ => o) s c k in
          let u' := w_ui w' in
          Some (set_timeout 2000 ShowResult
                  (set_ui (mk_ui (ui_stage u') (currentQuestionIndex u') (answers u') (kpis u')
                             (finalScore u') (category u') text (sliderValue u') (showThankYou u')) w'))
      | _ => None
      end
  | StorageSettles i ok =>
      match take_pending i w with
      | Some (AwaitStorage key value, w') =>
          let w'' := if ok then mk_world (w_ui w') (clock w') (timers w') (pendings w')
                                  (set (storage w') key value) (requests w') (crashed w')
                     else w' in
          Some (set_timeout 1500 AfterThanks w'')
      | _ => None
      end
  | _ => view w e
  end.

(** A crashed application is unmounted: it has no buttons, and the state
    updates of its pending timers and promises do nothing, but their other
    effects (a request sent by [processResults], a storage write) still
    happen. *)
Definition step (w : world) (e : event) : option world :=
  if crashed w then
    match e with
    | Wait _ | ExplanationSettles _ _ | StorageSettles _ _ =>
        option_map (set_ui (w_ui w)) (step_raw w e)
    | _ => None
    end
  else option_map after_render (step_raw w e).

Fixpoint run (w : world) (es : list event) : option world :=
  match es with
  | [] => Some w
  | e :: es' => match step w e with Some w' => run w' es' | None => None end
  end.

(** The states the application reaches from a fresh start by any events. *)
Definition reachable : world -> Prop :=
  reach_from step (fun _ _ => true) (fun w => exists t, w = init_world t).

End Quiz.
