(* ===== verification/QuizRuns.v ===== *)
(** Runs of the component of [Quiz] at the pace of the code, and evaluated
    runs that show what happens off that pace.

    [answer_events] answers a question as the UI does (a click on an
    option, or the slider moved and [Continuă] clicked) and lets the
    300 ms of [handleAnswer]'s timer pass.  [quiz_run_completes] proves
    that seven such rounds, the service's answer and the 2 s of
    [processResults] reach the result stage with the score of the seven
    answers; [round_next] and [round_last] are its two kinds of round.  The
    general theorems on double clicks, resets and repeated feedback
    start from any world of the right shape; the scenarios
    ([double_click_first], [double_click_at]) and the worlds [demo_world]
    and [thanks_world] are the runs their witnesses evaluate. *)

From S2P Require Import Prelude JsNumber JsObject JsString JsNumberText Scoring Classifier Catalog ScoreRefinement Explanation Feedback Quiz.

Local Open Scope string_scope.

Section QuizRuns.

Variable number_to_string_other : number -> string.

(** ** Runs and the states they reach *)

(** The events of answering question [q] by its [i]-th value, at the
    pace of the code: a click on the [i]-th option, or the slider moved to
    its [i]-th step and [Continuă] clicked, then the 300 ms of the timer. *)
Definition answer_events (q : question) (i : nat) : list event :=
  match input q with
  | Options _ => [ClickOption i; Wait 300]
  | Slider _ _ _ _ _ => [Slide (nth i (question_texts q) EmptyString); ClickContinue; Wait 300]
  end.

Fixpoint answer_all (qs : list question) (idx : list nat) : list event :=
  match qs, idx with
  | q :: qs', i :: idx' => answer_events q i ++ answer_all qs' idx'
  | _, _ => []
  end.

(** A world showing question [k], with no timer running. *)
Definition asking_world (k : nat) (A K : obj number) (fs : option number) (cat : option string)
    (ex : string) (thy : bool) (t : Z) (ps : list pending) (st : obj string) (rq : list json) : world :=
  mk_world (mk_ui Questions k A K fs cat ex (literal slider_default) thy) t [] ps st rq false.

(** The world right after the last answer: scored, classified, the request
    sent and awaited. *)
Definition loading_world (k : nat) (A K : obj number) (ex : string) (thy : bool) (t : Z)
    (ps : list pending) (st : obj string) (rq : list json) : world :=
  let score := calculateFinalScore K in
  let c := category_to_string (getCategoryFromScore score) in
  mk_world (mk_ui Loading k A K (Some score) (Some c) ex (literal slider_default) thy) t []
    (ps ++ [AwaitExplanation score c K])
    st (rq ++ [request_body (buildPrompt number_to_string_other score c K)]) false.

End QuizRuns.

(** ** Scenarios *)

(** Start, answer the questions by the indices [idx], the service fails,
    and the 2 s before the result pass. *)
Definition to_result (idx : list nat) : list event :=
  ClickStart :: answer_all QUESTIONS idx ++ [ExplanationSettles 0 NetworkError; Wait 2000].

(** The highest value of every question: the fourth option, the slider at
    its last step. *)
Definition all_high : list nat := [3; 10; 3; 3; 3; 3; 3]%nat.

Definition all_high_choices : list (nat * number) :=
  combine all_high (map literal [(1%Z, 0%nat); (10%Z, 1%nat); (1%Z, 0%nat); (1%Z, 0%nat); (1%Z, 0%nat);
                                 (1%Z, 0%nat); (1%Z, 0%nat)]).

(** The first option clicked twice within 300 ms, the rest at the pace of
    the code. *)
Definition double_click_first : list event :=
  [ClickStart; ClickOption 3; ClickOption 3; Wait 300] ++ answer_all (skipn 2 QUESTIONS) [3; 3; 3; 3; 3]%nat ++
  [ExplanationSettles 0 NetworkError; Wait 2000].

(** The first [n] questions answered, then an option of the next one
    clicked twice within 300 ms. *)
Definition double_click_at (n : nat) : list event :=
  ClickStart :: answer_all (firstn n QUESTIONS) (repeat 0%nat n) ++ [ClickOption 0; ClickOption 0; Wait 300].

(** A world on the result screen of the all-highest run. *)
Definition demo_world : world :=
  match run no_number_text (init_world 0) (to_result all_high) with Some w => w | None => init_world 0 end.

(** ** Theorems *)

Local Open Scope nat_scope.

Section QuizTheorems.

Variable nts : number -> string.

Lemma question_value_option q os i v : input q = Options os -> nth_error (question_values q) i = Some v ->
  exists o, nth_error os i = Some o /\ v = literal (value o).
Proof.
  unfold question_values. intros ->. simpl. rewrite !nth_error_map.
  destruct (nth_error os i) as [o|]; simpl; intros H; inv H; eauto.
Qed.

Lemma question_value_slider q l r mn mx sp i v :
  In q QUESTIONS -> input q = Slider l r mn mx sp -> nth_error (question_values q) i = Some v ->
  existsb (String.eqb (nth i (question_texts q) EmptyString)) (question_texts q) = true /\
  parseFloat (nth i (question_texts q) EmptyString) = v.
Proof.
  intros Hq Hin Hv. pose proof (question_texts_values q l r mn mx sp Hq Hin) as E.
  assert (Ht : nth_error (question_texts q) i <> None)
    by (rewrite <- E, nth_error_map in Hv; destruct (nth_error (question_texts q) i); discriminate).
  destruct (nth_error (question_texts q) i) as [t|] eqn:Et; [|congruence].
  rewrite (nth_error_nth _ _ _ Et). split.
  - apply existsb_exists. exists t. split; [eapply nth_error_In; eauto | apply String.eqb_refl].
  - rewrite <- E, nth_error_map, Et in Hv. now inv Hv.
Qed.

Lemma round_next (k : nat) q i v A K fs cat ex thy t ps st rq :
  S k < List.length QUESTIONS -> nth_error QUESTIONS k = Some q -> nth_error (question_values q) i = Some v ->
  run nts (asking_world k A K fs cat ex thy t ps st rq) (answer_events q i) =
  Some (asking_world (S k) (set A (id q) v) (set K (kpi q) v) fs cat ex thy (t + 300) ps st rq).
Proof.
  intros Hk Hq Hv.
  destruct (nth_error QUESTIONS (S k)) as [q'|] eqn:Hq'; [|apply nth_error_None in Hq'; lia].
  assert (Hlt : Nat.ltb k (List.length QUESTIONS - 1) = true) by (apply Nat.ltb_lt; lia).
  unfold answer_events. destruct (input q) as [os|l r mn mx sp] eqn:Hin.
  - destruct (question_value_option q os i v Hin Hv) as (o & Ho & ->).
    unfold run, step, step_raw, view, questions_view, asking_world, currentQuestion, afterAnswer.
    repeat progress (cbn -[QUESTIONS nth_error]; unfold afterAnswer, after_render, renders, currentQuestion; rewrite ?Hq, ?Hq', ?Hin, ?Ho, ?Hlt, ?Z.leb_refl).
    reflexivity.
  - destruct (question_value_slider q l r mn mx sp i v (nth_error_In _ _ Hq) Hin Hv) as [Hex Hnth].
    unfold run, step, step_raw, view, questions_view, asking_world, currentQuestion, afterAnswer.
    repeat progress (cbn -[QUESTIONS nth_error]; unfold afterAnswer, after_render, renders, currentQuestion; rewrite ?Hq, ?Hq', ?Hin, ?Hex, ?Hnth, ?Hlt, ?Z.leb_refl).
    reflexivity.
Qed.

Lemma round_last (k : nat) q os i v A K fs cat ex thy t ps st rq :
  S k = List.length QUESTIONS -> nth_error QUESTIONS k = Some q -> input q = Options os ->
  nth_error (question_values q) i = Some v ->
  run nts (asking_world k A K fs cat ex thy t ps st rq) (answer_events q i) =
  Some (loading_world nts k (set A (id q) v) (set K (kpi q) v) ex thy (t + 300) ps st rq).
Proof.
  intros Hk Hq Hin Hv.
  assert (Hlt : Nat.ltb k (List.length QUESTIONS - 1) = false) by (apply Nat.ltb_ge; lia).
  destruct (question_value_option q os i v Hin Hv) as (o & Ho & ->).
  unfold answer_events, run, step, step_raw, view, questions_view, asking_world, loading_world. rewrite Hin.
  repeat progress (cbn -[QUESTIONS nth_error calculateFinalScore getCategoryFromScore buildPrompt];
    unfold afterAnswer, after_render, renders, currentQuestion; rewrite ?Hq, ?Hin, ?Ho, ?Hlt, ?Z.leb_refl).
  reflexivity.
Qed.

Lemma run_app w es1 es2 :
  run nts w (es1 ++ es2) = match run nts w es1 with Some w' => run nts w' es2 | None => None end.
Proof.
  revert w. induction es1 as [|e es1 IH]; intros w; simpl; [reflexivity|].
  destruct (step nts w e); [apply IH | reflexivity].
Qed.

Lemma skipn_nth_error {A : Type} (l : list A) (k : nat) (x : A) :
  nth_error l k = Some x -> skipn k l = x :: skipn (S k) l.
Proof.
  revert k. induction l as [|y l IH]; intros [|k] H; simpl in *; try discriminate.
  - now inv H.
  - now apply IH.
Qed.

Lemma skipn_cons_nth {A : Type} (l : list A) (k : nat) (x : A) (r : list A) :
  skipn k l = x :: r -> nth_error l k = Some x /\ skipn (S k) l = r.
Proof.
  revert k. induction l as [|y l IH]; intros [|k] H; simpl in *; try discriminate.
  - now inv H.
  - now apply IH.
Qed.

Lemma rounds : forall qs k cs A K fs cat ex thy t ps st rq,
  skipn k QUESTIONS = qs ->
  Forall2 (fun q c => nth_error (question_values q) (fst c) = Some (snd c)) qs cs -> qs <> [] ->
  run nts (asking_world k A K fs cat ex thy t ps st rq) (answer_all qs (map fst cs)) =
  Some (loading_world nts (List.length QUESTIONS - 1)
          (fold_left (fun o qc => set o (id (fst qc)) (snd qc)) (combine qs (map snd cs)) A)
          (fold_left (fun o qc => set o (kpi (fst qc)) (snd qc)) (combine qs (map snd cs)) K)
          ex thy (t + 300 * Z.of_nat (List.length qs)) ps st rq).
Proof.
  induction qs as [|q qs IH]; intros k cs A K fs cat ex thy t ps st rq Hsk Hcs Hne; [congruence|].
  inv Hcs. rename y into c, l' into cs.
  destruct (skipn_cons_nth _ _ _ _ Hsk) as [Hq Hsk'].
  assert (Hlen : List.length (skipn k QUESTIONS) = List.length QUESTIONS - k) by apply length_skipn.
  assert (Hk : k < List.length QUESTIONS) by (apply nth_error_Some; congruence).
  assert (H7 : List.length QUESTIONS = 7) by reflexivity.
  rewrite Hsk in Hlen. cbn [answer_all map fst snd combine fold_left List.length] in Hlen |- *.
  destruct qs as [|q2 qs].
  - inv H3. rewrite app_nil_r.
    cbn [List.length] in Hlen. assert (k = 6) by lia. subst k. simpl in Hq. inv Hq.
    replace (t + 300 * Z.of_nat 1)%Z with (t + 300)%Z by lia.
    apply (round_last 6 _ _ _ _ _ _ _ _ _ _ _ _ _ _ eq_refl eq_refl eq_refl H1).
  - rewrite run_app, (round_next k q (fst c) (snd c)); [|cbn [List.length] in Hlen; lia | exact Hq | exact H1].
    rewrite (IH (S k) cs); [| exact Hsk' | exact H3 | congruence].
    do 2 f_equal. cbn [List.length]. lia.
Qed.

Lemma fold_combine_map (f : question -> string) : forall (qs : list question) (vs : list number) (A : obj number),
  fold_left (fun o qc => set o (f (fst qc)) (snd qc)) (combine qs vs) A =
  fold_left (fun o kv => set o (fst kv) (snd kv)) (combine (map f qs) vs) A.
Proof.
  induction qs as [|q qs IH]; intros [|v vs] A; simpl; auto.
Qed.

Lemma settle_and_show k A K ex thy t st rq o :
  run nts (loading_world nts k A K ex thy t [] st rq) [ExplanationSettles 0 o; Wait 2000] =
  let score := calculateFinalScore K in
  let c := category_to_string (getCategoryFromScore score) in
  Some (mk_world (mk_ui Result k A K (Some score) (Some c) (generateAIExplanation nts (fun _ => o) score c K)
          (literal slider_default) thy) (t + 2000) [] [] st (rq ++ [request_body (buildPrompt nts score c K)]) false).
Proof.
  unfold loading_world, run, step, step_raw, take_pending.
  cbn -[generateAIExplanation calculateFinalScore getCategoryFromScore buildPrompt literal].
  rewrite Z.leb_refl. reflexivity.
Qed.

Lemma run_to_result (cs : list (nat * number)) (t : Z) (o : fetch_outcome) :
  Forall2 (fun q c => nth_error (question_values q) (fst c) = Some (snd c)) QUESTIONS cs ->
  let K := of_list (combine (map kpi QUESTIONS) (map snd cs)) in
  let score := calculateFinalScore K in
  let cat := category_to_string (getCategoryFromScore score) in
  run nts (init_world t) (ClickStart :: answer_all QUESTIONS (map fst cs) ++ [ExplanationSettles 0 o; Wait 2000]) =
  Some (mk_world (mk_ui Result 6 (of_list (combine (map id QUESTIONS) (map snd cs))) K (Some score) (Some cat)
          (generateAIExplanation nts (fun _ => o) score cat K) (literal slider_default) false)
        (t + 4100) [] [] [] [request_body (buildPrompt nts score cat K)] false).
Proof.
  intros Hcs K score cat. cbn [run].
  replace (step nts (init_world t) ClickStart)
    with (Some (asking_world 0 [] [] None None EmptyString false t [] [] [])) by reflexivity.
  rewrite run_app, (rounds QUESTIONS 0 cs); [| reflexivity | exact Hcs | discriminate].
  rewrite settle_and_show, !fold_combine_map.
  replace (t + 300 * Z.of_nat (List.length QUESTIONS) + 2000)%Z with (t + 4100)%Z by (simpl; lia).
  reflexivity.
Qed.

(** C3: A quiz answered at the pace of the code, one value of each question
    as the catalog offers it, reaches the result stage 4100 ms after the
    start: the score is [calculateFinalScore] of the KPI object holding
    the seven answers in order, the category is the classifier's, the
    explanation is what [generateAIExplanation] makes of the service's
    answer, and exactly one request was sent. *)
Theorem quiz_run_completes (cs : list (nat * number)) (t : Z) (o : fetch_outcome) :
  Forall2 (fun q c => nth_error (question_values q) (fst c) = Some (snd c)) QUESTIONS cs ->
  let K := of_list (combine (map kpi QUESTIONS) (map snd cs)) in
  let score := calculateFinalScore K in
  let cat := category_to_string (getCategoryFromScore score) in
  run nts (init_world t) (ClickStart :: answer_all QUESTIONS (map fst cs) ++ [ExplanationSettles 0 o; Wait 2000]) =
  Some (mk_world (mk_ui Result 6 (of_list (combine (map id QUESTIONS) (map snd cs))) K (Some score) (Some cat)
          (generateAIExplanation nts (fun _ => o) score cat K) (literal slider_default) false)
        (t + 4100) [] [] [] [request_body (buildPrompt nts score cat K)] false).
Proof. exact (run_to_result cs t o). Qed.

(** C4: The components compose as the spec's flow says: after the quiz of
    [quiz_run_completes], a user who waits [d >= 0] ms on the result screen
    and gives feedback [b], whose write succeeds, is on the feedback
    screen 1500 ms later, and the shared storage holds exactly one entry:
    the key [feedback_<now>] of the click's time mapped to the JSON record
    of the score [calculateFinalScore] computed, the category
    [getCategoryFromScore] gave it, the judgement and the timestamp. *)
Theorem quiz_feedback_recorded (cs : list (nat * number)) (t d : Z) (o : fetch_outcome) (b : bool) (v : string) :
  Forall2 (fun q c => nth_error (question_values q) (fst c) = Some (snd c)) QUESTIONS cs ->
  (0 <= d)%Z ->
  let K := of_list (combine (map kpi QUESTIONS) (map snd cs)) in
  let score := calculateFinalScore K in
  let cat := category_to_string (getCategoryFromScore score) in
  let now := (t + 4100 + d)%Z in
  feedback_value nts (Some score) (Some cat) b now = Some v ->
  run nts (init_world t) (ClickStart :: answer_all QUESTIONS (map fst cs) ++
    [ExplanationSettles 0 o; Wait 2000; Wait d; ClickFeedback b; StorageSettles 0 true; Wait 1500]) =
  Some (mk_world (mk_ui FeedbackStage 6 (of_list (combine (map id QUESTIONS) (map snd cs))) K (Some score) (Some cat)
          (generateAIExplanation nts (fun _ => o) score cat K) (literal slider_default) false)
        (now + 1500) [] [] [(feedbackId now, v)] [request_body (buildPrompt nts score cat K)] false).
Proof.
  intros Hcs Hd K score cat now Hv.
  change [ExplanationSettles 0 o; Wait 2000; Wait d; ClickFeedback b; StorageSettles 0 true; Wait 1500]
    with ([ExplanationSettles 0 o; Wait 2000] ++ [Wait d; ClickFeedback b; StorageSettles 0 true; Wait 1500])%list.
  rewrite app_assoc, app_comm_cons.
  rewrite run_app, (run_to_result cs t o Hcs).
  change (of_list (combine (map kpi QUESTIONS) (map snd cs))) with K.
  change (calculateFinalScore K) with score. change (category_to_string (getCategoryFromScore score)) with cat.
  clearbody cat score K. unfold now in Hv.
  cbn -[generateAIExplanation buildPrompt literal feedback_value feedbackId of_list combine].
  rewrite (proj2 (Z.leb_le 0 d) Hd).
  cbn -[generateAIExplanation buildPrompt literal feedback_value feedbackId of_list combine].
  unfold handleFeedback; cbn [w_ui clock finalScore category after_render]. rewrite Hv.
  cbn -[generateAIExplanation buildPrompt literal feedback_value feedbackId of_list combine].
  rewrite Z.leb_refl. reflexivity.
Qed.
Lemma run_reachable w es w' : reachable nts w -> run nts w es = Some w' -> reachable nts w'.
Proof.
  revert w. induction es as [|e es IH]; intros w Hr H; simpl in H; [now inv H|].
  destruct (step nts w e) as [w1|] eqn:E; [|discriminate]. exact (IH w1 (reach_next _ _ _ w w1 e Hr eq_refl E) H).
Qed.

(** Two clicks on the [i]-th option of question [k]: the answer is set
    twice and two timers, both capturing [k], wait 300 ms. *)
Lemma click_twice (k : nat) q os i o A K fs cat ex thy t ps st rq :
  nth_error QUESTIONS k = Some q -> input q = Options os -> nth_error os i = Some o ->
  let v := literal (value o) in
  run nts (asking_world k A K fs cat ex thy t ps st rq) [ClickOption i; ClickOption i] =
  Some (mk_world (mk_ui Questions k (set (set A (id q) v) (id q) v) (set (set K (kpi q) v) (kpi q) v)
                    fs cat ex (literal slider_default) thy) t
          [mk_timer (t + 300) (AfterAnswer k (set K (kpi q) v));
           mk_timer (t + 300) (AfterAnswer k (set (set K (kpi q) v) (kpi q) v))] ps st rq false).
Proof.
  intros Hq Hin Ho v.
  unfold run, step, step_raw, view, questions_view, asking_world, currentQuestion.
  repeat progress (cbn -[QUESTIONS nth_error set]; unfold after_render, renders, currentQuestion;
    rewrite ?Hq, ?Hin, ?Ho, ?Z.ltb_irrefl).
  reflexivity.
Qed.

(** C12: Two clicks on an option of question [k] before its 300 ms timer
    fires both run [handleAnswer]: the answer is stored twice under the
    same key, both timers captured the index [k], and each advances it by
    [prev => prev + 1] or, on the last question, calls [processResults].
    From any world showing question [k] with no timer running, the two
    clicks and 300 ms give: question [k + 2] shown, so question [k + 1] is
    skipped and its KPI never set ([k < 5]); the index 7, past the
    catalog, and a crashed render ([k = 5]); or two requests sent and two
    explanations awaited, the score of the second KPI object shown
    ([k = 6]). *)
Theorem double_click_answers_twice (k : nat) q os i o A K fs cat ex thy t ps st rq :
  nth_error QUESTIONS k = Some q -> input q = Options os -> nth_error os i = Some o ->
  let v := literal (value o) in
  let A2 := set (set A (id q) v) (id q) v in
  let K1 := set K (kpi q) v in
  let K2 := set K1 (kpi q) v in
  let s1 := calculateFinalScore K1 in
  let c1 := category_to_string (getCategoryFromScore s1) in
  run nts (asking_world k A K fs cat ex thy t ps st rq) [ClickOption i; ClickOption i; Wait 300] =
  Some (match k with
        | 5 => mk_world (mk_ui Questions 7 A2 K2 fs cat ex (literal slider_default) thy) (t + 300) [] ps st rq true
        | 6 => loading_world nts 6 A2 K2 ex thy (t + 300) (ps ++ [AwaitExplanation s1 c1 K1]) st
                 (rq ++ [request_body (buildPrompt nts s1 c1 K1)])
        | _ => asking_world (S (S k)) A2 K2 fs cat ex thy (t + 300) ps st rq
        end).
Proof.
  intros Hq Hin Ho v A2 K1 K2 s1 c1.
  assert (Hk : k < 7) by (change 7 with (List.length QUESTIONS); apply nth_error_Some; rewrite Hq; discriminate).
  change [ClickOption i; ClickOption i; Wait 300] with ([ClickOption i; ClickOption i] ++ [Wait 300])%list.
  rewrite run_app, (click_twice k q os i o A K fs cat ex thy t ps st rq Hq Hin Ho).
  subst c1 s1 K2 K1 A2 v. unfold asking_world, loading_world.
  do 7 (destruct k as [|k]; [
    cbn -[calculateFinalScore getCategoryFromScore buildPrompt set literal]; rewrite ?Z.leb_refl;
    cbn -[calculateFinalScore getCategoryFromScore buildPrompt set literal]; reflexivity |]).
  lia.
Qed.

(** C14: [handleReset] cancels no timer: from the result screen with the
    thank-you timer of [handleFeedback] running (due at [d]), a reset and
    a click on start put the user on the first question of a new quiz,
    and when the timer fires the new quiz is replaced by the feedback
    screen, with no score, while the stored feedback and the requests are
    kept. *)
Theorem reset_keeps_thanks_timer w d :
  ui_stage (w_ui w) = Result -> crashed w = false -> timers w = [mk_timer d AfterThanks] -> (clock w <= d)%Z ->
  run nts w [ClickReset; ClickStart; Wait (d - clock w)] =
  Some (mk_world (mk_ui FeedbackStage 0 [] [] None None EmptyString (literal slider_default) false)
          d [] (pendings w) (storage w) (requests w) false).
Proof.
  intros Hs Hc Ht Hd. destruct w as [u c ts ps st rq cr]; cbn in Hs, Hc, Ht, Hd |- *; subst ts cr.
  destruct u as [stg idx A K fs cat ex sv thy]; cbn in Hs; subst stg.
  cbn -[Z.leb Z.add Z.sub].
  replace (0 <=? d - c)%Z with true by lia. replace (c + (d - c))%Z with d by lia.
  cbn -[Z.leb Z.add Z.sub]. rewrite Z.leb_refl. reflexivity.
Qed.

(** C15: Feedback keys are [feedback_] and [Date.now()], and both feedback
    buttons stay enabled after a click: from any result screen with no
    write pending, two feedback clicks in the same millisecond start two
    writes under the same key, and once both succeed the storage holds
    only the second record at that key; the first judgement is lost. *)
Theorem feedback_same_ms_overwrites w b1 b2 v1 v2 :
  ui_stage (w_ui w) = Result -> crashed w = false -> pendings w = [] ->
  feedback_value nts (finalScore (w_ui w)) (category (w_ui w)) b1 (clock w) = Some v1 ->
  feedback_value nts (finalScore (w_ui w)) (category (w_ui w)) b2 (clock w) = Some v2 ->
  exists w', run nts w [ClickFeedback b1; ClickFeedback b2; StorageSettles 0 true; StorageSettles 0 true] = Some w' /\
    storage w' = set (storage w) (feedbackId (clock w)) v2 /\ pendings w' = [].
Proof.
  intros Hs Hc Hp H1 H2. destruct w as [u c ts ps st rq cr]; cbn in Hs, Hc, Hp, H1, H2 |- *; subst ps cr.
  destruct u as [stg idx A K fs cat ex sv thy]; cbn in Hs, H1, H2; subst stg.
  cbn -[feedback_value]. unfold handleFeedback. cbn -[feedback_value]. rewrite H1. cbn -[feedback_value]. unfold handleFeedback. cbn -[feedback_value]. rewrite H2. cbn -[feedback_value].
  eexists. split; [reflexivity|]. split; [apply set_set | reflexivity].
Qed.

End QuizTheorems.

(** ** Witnesses and evaluated runs *)

Lemma quiz_run_completes_witness :
  Forall2 (fun q c => nth_error (question_values q) (fst c) = Some (snd c)) QUESTIONS all_high_choices /\
  exists w, run no_number_text (init_world 0) (ClickStart :: answer_all QUESTIONS (map fst all_high_choices) ++
              [ExplanationSettles 0 NetworkError; Wait 2000]) = Some w /\
            ui_stage (w_ui w) = Result /\ finalScore (w_ui w) = Some (of_Z 100).
Proof.
  assert (H : Forall2 (fun q c => nth_error (question_values q) (fst c) = Some (snd c)) QUESTIONS all_high_choices)
    by (repeat (apply Forall2_cons; [vm_compute; reflexivity|]); apply Forall2_nil).
  split; [exact H|]. rewrite (quiz_run_completes no_number_text all_high_choices 0 NetworkError H).
  eexists. split; [reflexivity|]. split; [reflexivity | vm_compute; reflexivity].
Defined.

Lemma quiz_feedback_recorded_witness :
  let K := of_list (combine (map kpi QUESTIONS) (map snd all_high_choices)) in
  let score := calculateFinalScore K in
  let cat := category_to_string (getCategoryFromScore score) in
  exists v, feedback_value no_number_text (Some score) (Some cat) true 4350 = Some v /\
  exists w, run no_number_text (init_world 0) (ClickStart :: answer_all QUESTIONS (map fst all_high_choices) ++
              [ExplanationSettles 0 NetworkError; Wait 2000; Wait 250; ClickFeedback true; StorageSettles 0 true; Wait 1500]) = Some w /\
            ui_stage (w_ui w) = FeedbackStage /\ storage w = [(feedbackId 4350, v)] /\ score = of_Z 100.
Proof.
  intros K score cat.
  assert (H : Forall2 (fun q c => nth_error (question_values q) (fst c) = Some (snd c)) QUESTIONS all_high_choices)
    by (repeat (apply Forall2_cons; [vm_compute; reflexivity|]); apply Forall2_nil).
  destruct (feedback_value no_number_text (Some score) (Some cat) true 4350) as [v|] eqn:Hv;
    [|vm_compute in Hv; discriminate].
  exists v. split; [reflexivity|].
  rewrite (quiz_feedback_recorded no_number_text all_high_choices 0 250 NetworkError true v H ltac:(lia) Hv).
  eexists. split; [reflexivity|]. split; [reflexivity|]. split; [reflexivity | vm_compute; reflexivity].
Defined.

Lemma double_click_answers_twice_witness :
  let q := nth 5 QUESTIONS no_question in
  let os := match input q with Options os => os | Slider _ _ _ _ _ => [] end in
  let o := nth 0 os (Build_option_item EmptyString (0%Z, 0%nat)) in
  nth_error QUESTIONS 5 = Some q /\ input q = Options os /\ nth_error os 0 = Some o /\
  exists w, run no_number_text (asking_world 5 [] [] None None EmptyString false 0 [] [] [])
              [ClickOption 0; ClickOption 0; Wait 300] = Some w /\
            crashed w = true /\ currentQuestionIndex (w_ui w) = 7.
Proof.
  intros q os o.
  assert (Hq : nth_error QUESTIONS 5 = Some q) by reflexivity.
  assert (Hin : input q = Options os) by reflexivity.
  assert (Ho : nth_error os 0 = Some o) by reflexivity.
  split; [exact Hq|]. split; [exact Hin|]. split; [exact Ho|].
  rewrite (double_click_answers_twice no_number_text 5 q os 0 o [] [] None None EmptyString false 0 [] [] [] Hq Hin Ho).
  eexists. split; [reflexivity|]. split; reflexivity.
Defined.

(** The result screen of [demo_world] once a feedback was given and its
    write settled. *)
Definition thanks_world : world :=
  match run no_number_text demo_world [ClickFeedback true; StorageSettles 0 true] with
  | Some w => w | None => init_world 0 end.

Lemma reset_keeps_thanks_timer_witness :
  ui_stage (w_ui thanks_world) = Result /\ crashed thanks_world = false /\
  timers thanks_world = [mk_timer 5600 AfterThanks] /\ (clock thanks_world <= 5600)%Z /\
  run no_number_text thanks_world [ClickReset; ClickStart; Wait (5600 - clock thanks_world)] =
  Some (mk_world (mk_ui FeedbackStage 0 [] [] None None EmptyString (literal slider_default) false)
          5600 [] (pendings thanks_world) (storage thanks_world) (requests thanks_world) false).
Proof.
  assert (H1 : ui_stage (w_ui thanks_world) = Result) by by_eval.
  assert (H2 : crashed thanks_world = false) by by_eval.
  assert (H3 : timers thanks_world = [mk_timer 5600 AfterThanks]) by by_eval.
  assert (H4 : (clock thanks_world <= 5600)%Z) by (vm_compute; discriminate).
  split; [exact H1|]. split; [exact H2|]. split; [exact H3|]. split; [exact H4|].
  exact (reset_keeps_thanks_timer no_number_text thanks_world 5600 H1 H2 H3 H4).
Defined.

Lemma feedback_same_ms_overwrites_witness :
  exists v1 v2,
  ui_stage (w_ui demo_world) = Result /\ crashed demo_world = false /\ pendings demo_world = [] /\
  feedback_value no_number_text (finalScore (w_ui demo_world)) (category (w_ui demo_world)) true
    (clock demo_world) = Some v1 /\
  feedback_value no_number_text (finalScore (w_ui demo_world)) (category (w_ui demo_world)) false
    (clock demo_world) = Some v2 /\
  exists w', run no_number_text demo_world
               [ClickFeedback true; ClickFeedback false; StorageSettles 0 true; StorageSettles 0 true] = Some w' /\
    storage w' = set (storage demo_world) (feedbackId (clock demo_world)) v2 /\ pendings w' = [].
Proof.
  destruct (feedback_value no_number_text (finalScore (w_ui demo_world)) (category (w_ui demo_world)) true
    (clock demo_world)) as [v1|] eqn:E1; [|vm_compute in E1; discriminate].
  destruct (feedback_value no_number_text (finalScore (w_ui demo_world)) (category (w_ui demo_world)) false
    (clock demo_world)) as [v2|] eqn:E2; [|vm_compute in E2; discriminate].
  assert (H1 : ui_stage (w_ui demo_world) = Result) by by_eval.
  assert (H2 : crashed demo_world = false) by by_eval.
  assert (H3 : pendings demo_world = []) by by_eval.
  exists v1, v2. split; [exact H1|]. split; [exact H2|]. split; [exact H3|]. split; [reflexivity|]. split; [reflexivity|].
  exact (feedback_same_ms_overwrites no_number_text demo_world true false v1 v2 H1 H2 H3 E1 E2).
Defined.

(** Two clicks on an option within the 300 ms before the next question
    both answer the same question and both timers advance the index, so
    the next question is skipped and its KPI never set: answering every
    question with its highest value scores 100, but with the first option
    clicked twice the slider question is skipped and the score is 80. *)
Example double_click_skips_question :
  option_map (fun w => (ui_stage (w_ui w), finalScore (w_ui w)))
    (run no_number_text (init_world 0) (to_result all_high)) = Some (Result, Some (of_Z 100)) /\
  option_map (fun w => (ui_stage (w_ui w), finalScore (w_ui w), keys (kpis (w_ui w))))
    (run no_number_text (init_world 0) double_click_first) =
  Some (Result, Some (of_Z 80), ["story_like_rate"; "reply_speed_score"; "date_count_score";
                                 "gift_score"; "emotional_interest_score"; "future_plans_score"]).
Proof. split; by_eval. Qed.

(** A double click near the end of the quiz breaks the flow: on the
    sixth question it moves the index past the catalog, rendering reads
    [currentQuestion.text] of [undefined] and the application crashes
    before any request is sent; on the last question it runs
    [processResults] twice, so two requests are sent and two answers
    awaited. *)
Example double_click_late_questions :
  option_map (fun w => (crashed w, currentQuestionIndex (w_ui w), List.length (requests w)))
    (run no_number_text (init_world 0) (double_click_at 5)) = Some (true, 7, 0) /\
  option_map (fun w => (ui_stage (w_ui w), List.length (requests w), List.length (pendings w)))
    (run no_number_text (init_world 0) (double_click_at 6)) = Some (Loading, 2, 2).
Proof. split; by_eval. Qed.

