(* ===== verification/Render.v ===== *)
(** What each stage of [CrushBot] puts on the screen (App.jsx, lines
    272-1143, the [<style jsx>] blocks left out): the question header with
    its counter and progress bar, the question's text and controls, the
    slider's value label, and the result card with its emoji, colour and
    score.  [render] is the JSX of the five [if (stage === ...)] branches
    as data, with the texts each stage shows ([screen_texts], in document
    order); the icons are left out, and a [None] is
    the [TypeError] of reading [currentQuestion.text] when the index is
    past the catalogue ([Quiz.renders] is the same test).

    The theorems compose the screen with the invariants of
    [QuizInvariants]: a result screen reached in any order of events shows
    an integer percentage in the colour of its category, or, when a
    stale explanation brought it back after a reset, a bare [%] in red
    ([result_without_score]). *)

From S2P Require Import Prelude JsNumber JsObject JsString JsNumberText Scoring Classifier Catalog Explanation Feedback Quiz QuizRuns QuizInvariants.

Local Open Scope string_scope.

(** ** The screens *)

(** The controls under a question. *)
Inductive question_panel : Type :=
| OptionButtons (labels : list string)
| SliderPanel (leftLabel rightLabel valueLabel : string).

Inductive screen : Type :=
| IntroScreen
| QuestionScreen (subtitle progress text : string) (panel : question_panel)
| LoadingScreen
| ResultScreen (emoji color scoreText explanation : string) (thankYou : bool)
| FeedbackScreen.

Section Render.

Variable number_to_string_other : number -> string.

(** [category === s] for the [category] hook, [null] until a result. *)
Definition is_category (category : option string) (s : string) : bool :=
  match category with Some c => String.eqb c s | None => false end.

(** [getScoreColor()] (lines 841-845). *)
Definition getScoreColor (category : option string) : string :=
  if is_category category "high" then "#27ae60"
  else if is_category category "mixed" then "#f39c12"
  else "#e74c3c".

(** [getScoreEmoji()] (lines 847-851). *)
Definition getScoreEmoji (category : option string) : string :=
  if is_category category "high" then "🔥"
  else if is_category category "mixed" then "🤔"
  else "💭".

(** A number as a JSX child: its [String], nothing for [null]. *)
Definition jsx_number (v : option number) : string :=
  match v with Some n => number_to_string number_to_string_other n | None => EmptyString end.

(** [{finalScore}%] (line 861). *)
Definition score_text (finalScore : option number) : string := jsx_number finalScore ++ "%".

(** [Întrebarea {currentQuestionIndex + 1} din {QUESTIONS.length}]
    (lines 459-461). *)
Definition header_subtitle (idx : nat) : string :=
  "Întrebarea " ++ jsx_number (Some (add (of_Z (Z.of_nat idx)) (of_Z 1))) ++ " din "
    ++ jsx_number (Some (of_Z (Z.of_nat (List.length QUESTIONS)))).

(** [((currentQuestionIndex + 1) / QUESTIONS.length) * 100] (line 467). *)
Definition progress_width (idx : nat) : number :=
  mul (div (add (of_Z (Z.of_nat idx)) (of_Z 1)) (of_Z (Z.of_nat (List.length QUESTIONS)))) (of_Z 100).

(** The [width] of the progress bar's style, [`${...}%`]. *)
Definition progress_style (idx : nat) : string :=
  number_to_string number_to_string_other (progress_width idx) ++ "%".

(** The slider's value label (lines 510-514). *)
Definition slider_label (sliderValue : number) : string :=
  if strict_eq sliderValue (of_Z 0) then "Eu mereu"
  else if strict_eq sliderValue (of_Z 1) then "El/Ea mereu"
  else "Cam egal".

(** The controls of a question (lines 478-520). *)
Definition question_panel_of (q : question) (sliderValue : number) : question_panel :=
  match input q with
  | Options os => OptionButtons (map label os)
  | Slider l r _ _ _ => SliderPanel l r (slider_label sliderValue)
  end.

(** The render of the component for a state of its hooks. *)
Definition render (u : ui) : option screen :=
  match ui_stage u with
  | Intro => Some IntroScreen
  | Questions =>
      match nth_error QUESTIONS (currentQuestionIndex u) with
      | Some q => Some (QuestionScreen (header_subtitle (currentQuestionIndex u))
                          (progress_style (currentQuestionIndex u)) (text q)
                          (question_panel_of q (sliderValue u)))
      | None => None
      end
  | Loading => Some LoadingScreen
  | Result =>
      Some (ResultScreen (getScoreEmoji (category u)) (getScoreColor (category u))
              (score_text (finalScore u)) (aiExplanation u) (showThankYou u))
  | FeedbackStage => Some FeedbackScreen
  end.

(** The [animationDelay] of the [idx]-th option button,
    [`${idx * 0.1}s`] (line 487). *)
Definition option_delay (idx : nat) : string :=
  number_to_string number_to_string_other (mul (of_Z (Z.of_nat idx)) (dec 1 1)) ++ "s".

(** The texts of a question's controls, in document order (lines
    478-520): the option labels, or the two end labels, the value label
    and [Continuă]. *)
Definition panel_texts (p : question_panel) : list string :=
  match p with
  | OptionButtons labels => labels
  | SliderPanel l r v => [l; r; v; "Continuă"]
  end.

(** The texts of the question stage: header title, counter, the bot's
    avatar and message, then the controls (lines 458-519). *)
Definition question_texts_of (subtitle text : string) (panel : question_panel) : list string :=
  ["CrushBot"; subtitle; "🤖"; text] ++ panel_texts panel.

(** The texts of the loading stage (lines 762-763). *)
Definition loading_texts : list string := ["Analizez semnalele..."; "Calculez compatibilitatea 💫"].

(** The texts of the result card and the reset button (lines 857-904):
    the thank-you banner only while [showThankYou]. *)
Definition result_texts (emoji scoreText explanation : string) (thankYou : bool) : list string :=
  [emoji; "Rezultatul tău"; scoreText; "șanse de interes romantic"; "Analiză AI"; explanation;
   "A fost analiza corectă?"; "Da, e corect!"; "Nu prea..."] ++
  (if thankYou then ["Mulțumim pentru feedback!"] else []) ++ ["Încearcă din nou"].

(** The texts of the feedback stage (lines 1135-1139). *)
Definition feedback_texts : list string :=
  ["Mulțumim! 💛"; "Feedback-ul tău ne ajută să îmbunătățim CrushBot."; "Înapoi la start"].

(** The text content of a screen in document order; the intro's texts
    are those of lines 282-291. *)
Definition screen_texts (s : screen) : list string :=
  match s with
  | IntroScreen =>
      ["CrushBot"; "Află dacă crush-ul tău e interesat(ă)! 💘";
       "Răspunde la 7 întrebări rapide și descoperă ce spun semnalele.";
       "⚠️ Doar pentru entertainment • Nu înlocuiește comunicarea reală"; "Începe analiza"]
  | QuestionScreen subtitle _ text panel => question_texts_of subtitle text panel
  | LoadingScreen => loading_texts
  | ResultScreen emoji _ scoreText explanation thankYou => result_texts emoji scoreText explanation thankYou
  | FeedbackScreen => feedback_texts
  end.

End Render.

(** ** Scenarios *)

(** A double click on the last answer runs [processResults] twice; the
    first explanation arrives and its result is shown, the user resets,
    then the second explanation arrives and its [ShowResult] timer fires;
    the user gives feedback on that screen. *)
(** A double click on the last answer: the first reply arrives and its
    result is shown while the second explanation is still awaited. *)
Definition stale_world : world :=
  match run no_number_text (init_world 0) (double_click_at 6 ++ [ExplanationSettles 0 NetworkError; Wait 2000]) with
  | Some w => w | None => init_world 0 end.

(** ** Theorems *)

Section RenderTheorems.

Local Open Scope nat_scope.

Variable nts : number -> string.

(** The scores a result can show print as their decimal. *)
(** The colour and emoji of the category of an integer score. *)
Lemma score_look n : (0 <= n <= 100)%Z ->
  (getScoreColor (Some (category_to_string (getCategoryFromScore (of_Z n)))),
   getScoreEmoji (Some (category_to_string (getCategoryFromScore (of_Z n))))) =
  if (n <? 30)%Z then ("#e74c3c", "💭") else if (n <? 65)%Z then ("#f39c12", "🤔") else ("#27ae60", "🔥").
Proof.
  intros Hn. rewrite getCategoryFromScore_of_Z by (unfold safe_int; lia).
  destruct (n <? 30)%Z; [|destruct (n <? 65)%Z]; reflexivity.
Qed.

(** C10: Whatever the order of the events, a result screen shows either an
    integer percentage between 0 and 100 in the colour and with the emoji
    of its category (red and 💭 below 30, orange and 🤔 below 65, green
    and 🔥 from 65 on), or, with no score set, a bare [%] in red with 💭,
    next to the explanation and the thank-you flag of the state. *)
Theorem result_screen_consistent w : reachable nts w -> ui_stage (w_ui w) = Result ->
  exists em col txt,
    render nts (w_ui w) = Some (ResultScreen em col txt (aiExplanation (w_ui w)) (showThankYou (w_ui w))) /\
    ((finalScore (w_ui w) = None /\ txt = "%" /\ col = "#e74c3c" /\ em = "💭") \/
     (exists n, finalScore (w_ui w) = Some (of_Z n) /\ (0 <= n <= 100)%Z /\ txt = Z_to_string n ++ "%" /\
        (col, em) = if (n <? 30)%Z then ("#e74c3c", "💭")
                    else if (n <? 65)%Z then ("#f39c12", "🤔") else ("#27ae60", "🔥"))).
Proof.
  intros Hr Hs. destruct (reachable_ok nts w Hr) as [(_ & _ & Hsc) _].
  unfold render. rewrite Hs. do 3 eexists. split; [reflexivity|].
  destruct (score_ok_shown _ _ Hsc) as [[E1 E2] | (n & E1 & B & E2)]; rewrite E1, E2.
  - left. auto.
  - right. exists n. split; [reflexivity|]. split; [exact B|]. split; [|exact (score_look n B)].
    unfold score_text, jsx_number. cbv beta iota. now rewrite number_to_string_score.
Qed.

(** C26: The header of question [i] reads [Întrebarea i+1 din 7], and its
    progress bar is strictly positive, at most 100%, grows strictly from
    one question to the next, and is exactly 100% on the last question. *)
Theorem progress_bar_bounds i : i < List.length QUESTIONS ->
  header_subtitle nts i = "Întrebarea " ++ Z_to_string (Z.of_nat (S i)) ++ " din 7" /\
  lt (of_Z 0) (progress_width i) = true /\ lt (of_Z 100) (progress_width i) = false /\
  (S i < List.length QUESTIONS -> lt (progress_width i) (progress_width (S i)) = true) /\
  (S i = List.length QUESTIONS -> progress_width i = of_Z 100).
Proof.
  intros Hi. simpl in Hi.
  do 7 (destruct i as [|i];
        [repeat split; try by_eval; intros E; simpl in E; first [lia | by_eval] |]).
  lia.
Qed.

(** C13: [handleReset] clears the score but cancels neither the awaited
    explanation nor its 2 s timer: from any result screen with an
    explanation still awaited (as a double click on the last answer
    leaves one), a reset, the service's reply and 2 s bring back a result
    screen with no score, shown as a bare [%] in red with the [💭] emoji
    and the late explanation, and the feedback given there is written
    with a [null] score and a [null] category. *)
Theorem result_without_score w s c K o b v :
  ui_stage (w_ui w) = Result -> crashed w = false -> timers w = [] ->
  pendings w = [AwaitExplanation s c K] ->
  feedback_value nts None None b (clock w + 2000) = Some v ->
  exists w', run nts w [ClickReset; ExplanationSettles 0 o; Wait 2000; ClickFeedback b] = Some w' /\
    render nts (w_ui w') =
      Some (ResultScreen "💭" "#e74c3c" "%" (generateAIExplanation nts (fun _ => o) s c K) true) /\
    pendings w' = [AwaitStorage (feedbackId (clock w + 2000)) v].
Proof.
  intros Hs Hc Ht Hp Hv. destruct w as [u t ts ps st rq cr]; cbn in Hs, Hc, Ht, Hp, Hv |- *; subst ts ps cr.
  destruct u as [stg idx A K0 fs cat ex sv thy]; cbn in Hs; subst stg.
  cbn -[feedback_value generateAIExplanation Z.add Z.leb feedbackId]. rewrite Z.leb_refl.
  replace (0 <=? 2000)%Z with true by reflexivity.
  cbn -[feedback_value generateAIExplanation Z.add Z.leb feedbackId]. unfold handleFeedback.
  cbn -[feedback_value generateAIExplanation Z.add Z.leb feedbackId]. rewrite Hv.
  eexists. split; [reflexivity|]. split; reflexivity.
Qed.

End RenderTheorems.

(** With JavaScript's [Number::toString], the progress bar's CSS
    width for the seven questions is [14.285714285714285%],
    [28.57142857142857%], [42.857142857142854%], [57.14285714285714%],
    [71.42857142857143%], [85.71428571428571%] and [100%], and the browser
    reading each width back with [parseFloat] gets exactly the double the
    code computed.  The staggered [animationDelay] of the four option
    buttons of a question prints [3 * 0.1] as JavaScript does:
    [0.30000000000000004s]. *)
Example progress_styles_js :
  map (progress_style js_number_text) (seq 0 7) =
    ["14.285714285714285%"; "28.57142857142857%"; "42.857142857142854%"; "57.14285714285714%";
     "71.42857142857143%"; "85.71428571428571%"; "100%"] /\
  map (fun i => parseFloat (progress_style js_number_text i)) (seq 0 7) = map progress_width (seq 0 7) /\
  map (option_delay js_number_text) (seq 0 4) = ["0s"; "0.1s"; "0.2s"; "0.30000000000000004s"].
Proof. repeat split; by_eval. Qed.

(** C27: The label under the slider names an end of the range exactly when
    the slider is at that end: among the values the range input can
    take, the label is the question's left label ([Eu mereu]) exactly at
    [min] and its right label ([El/Ea mereu]) exactly at [max]. *)
Theorem slider_label_ends q l r mn mx st v :
  In q QUESTIONS -> input q = Slider l r mn mx st -> In v (question_values q) ->
  (slider_label v = l <-> v = literal mn) /\ (slider_label v = r <-> v = literal mx).
Proof.
  intros Hq Hin Hv.
  assert (H : forallb (fun q => match input q with
      | Slider l r mn mx _ =>
          forallb (fun v => Bool.eqb (String.eqb (slider_label v) l) (number_eqb v (literal mn)) &&
                            Bool.eqb (String.eqb (slider_label v) r) (number_eqb v (literal mx))) (question_values q)
      | Options _ => true end) QUESTIONS = true) by by_eval.
  rewrite forallb_forall in H. specialize (H q Hq). rewrite Hin, forallb_forall in H.
  apply H, andb_prop in Hv as [E1 E2]. apply Bool.eqb_prop in E1, E2.
  rewrite <- String.eqb_eq, <- String.eqb_eq, <- number_eqb_eq, <- number_eqb_eq, E1, E2. tauto.
Qed.

(** ** Witnesses *)

Lemma result_screen_consistent_witness :
  reachable no_number_text demo_world /\ ui_stage (w_ui demo_world) = Result /\
  exists em col txt,
    render no_number_text (w_ui demo_world) =
      Some (ResultScreen em col txt (aiExplanation (w_ui demo_world)) (showThankYou (w_ui demo_world))) /\
    ((finalScore (w_ui demo_world) = None /\ txt = "%" /\ col = "#e74c3c" /\ em = "💭") \/
     (exists n, finalScore (w_ui demo_world) = Some (of_Z n) /\ (0 <= n <= 100)%Z /\ txt = Z_to_string n ++ "%" /\
        (col, em) = if (n <? 30)%Z then ("#e74c3c", "💭")
                    else if (n <? 65)%Z then ("#f39c12", "🤔") else ("#27ae60", "🔥"))).
Proof.
  assert (Hs : ui_stage (w_ui demo_world) = Result) by by_eval.
  split; [exact demo_world_reachable|]. split; [exact Hs|].
  exact (result_screen_consistent no_number_text demo_world demo_world_reachable Hs).
Defined.

Lemma progress_bar_bounds_witness :
  (6 < List.length QUESTIONS)%nat /\
  header_subtitle no_number_text 6 = "Întrebarea " ++ Z_to_string (Z.of_nat 7) ++ " din 7" /\
  lt (of_Z 0) (progress_width 6) = true /\ lt (of_Z 100) (progress_width 6) = false /\
  ((7 < List.length QUESTIONS)%nat -> lt (progress_width 6) (progress_width 7) = true) /\
  (7%nat = List.length QUESTIONS -> progress_width 6 = of_Z 100).
Proof.
  assert (H : (6 < List.length QUESTIONS)%nat) by (simpl; lia).
  split; [exact H|]. exact (progress_bar_bounds no_number_text 6 H).
Defined.

Lemma slider_label_ends_witness :
  let q := nth 1 QUESTIONS no_question in
  In q QUESTIONS /\ input q = Slider "Eu mereu" "El/Ea mereu" (0%Z, 0%nat) (1%Z, 0%nat) (1%Z, 1%nat) /\
  In (literal (0%Z, 1%nat)) (question_values q) /\
  (slider_label (literal (0%Z, 1%nat)) = "Eu mereu" <-> literal (0%Z, 1%nat) = literal (0%Z, 0%nat)) /\
  (slider_label (literal (0%Z, 1%nat)) = "El/Ea mereu" <-> literal (0%Z, 1%nat) = literal (1%Z, 0%nat)).
Proof.
  intros q.
  assert (Hq : In q QUESTIONS) by (simpl; tauto).
  assert (Hin : input q = Slider "Eu mereu" "El/Ea mereu" (0%Z, 0%nat) (1%Z, 0%nat) (1%Z, 1%nat)) by reflexivity.
  assert (Hv : In (literal (0%Z, 1%nat)) (question_values q)) by (simpl; tauto).
  split; [exact Hq|]. split; [exact Hin|]. split; [exact Hv|].
  exact (slider_label_ends q _ _ _ _ _ _ Hq Hin Hv).
Defined.


Lemma result_without_score_witness :
  exists s c K v,
  ui_stage (w_ui stale_world) = Result /\ crashed stale_world = false /\ timers stale_world = [] /\
  pendings stale_world = [AwaitExplanation s c K] /\
  feedback_value no_number_text None None true (clock stale_world + 2000) = Some v /\
  exists w', run no_number_text stale_world [ClickReset; ExplanationSettles 0 NetworkError; Wait 2000; ClickFeedback true] = Some w' /\
    render no_number_text (w_ui w') =
      Some (ResultScreen "💭" "#e74c3c" "%" (generateAIExplanation no_number_text (fun _ => NetworkError) s c K) true) /\
    pendings w' = [AwaitStorage (feedbackId (clock stale_world + 2000)) v].
Proof.
  destruct (pendings stale_world) as [|[s c K|key val] [|p ps]] eqn:Hp; try (vm_compute in Hp; discriminate).
  destruct (feedback_value no_number_text None None true (clock stale_world + 2000)) as [v|] eqn:Hv;
    [|vm_compute in Hv; discriminate].
  assert (H1 : ui_stage (w_ui stale_world) = Result) by by_eval.
  assert (H2 : crashed stale_world = false) by by_eval.
  assert (H3 : timers stale_world = []) by by_eval.
  exists s, c, K, v. split; [exact H1|]. split; [exact H2|]. split; [exact H3|]. split; [reflexivity|].
  split; [reflexivity|].
  exact (result_without_score no_number_text stale_world s c K NetworkError true v H1 H2 H3 Hp Hv).
Defined.
