(* ===== verification/QuizStorage.v ===== *)
(** The shared storage the feedback recorder writes to
    ([window.storage.set(feedbackId, JSON.stringify({...}), true)],
    App.jsx lines 240-246).  [store_ok] says that every entry of the
    storage, and every write still awaited, is a feedback record under a
    [feedback_<ms>] key whose score and category satisfy [score_ok]; it
    holds in every reachable world, whatever the order of clicks, timers,
    settling promises and crashes, so the storage never holds anything but
    JSON feedback records with a [null] score or an integer percentage
    classified by [getCategoryFromScore]. *)

From S2P Require Import Prelude JsNumber JsObject JsString JsNumberText Scoring Classifier Catalog ScoreRefinement Explanation Feedback Quiz QuizRuns QuizInvariants.

Local Open Scope string_scope.

Section Store.

Variable nts : number -> string.

(** An entry written by [handleFeedback]. *)
Definition entry_ok (kv : string * string) : Prop :=
  exists now fs c accurate,
    fst kv = feedbackId now /\ score_ok fs c /\ feedback_value nts fs c accurate now = Some (snd kv).

Definition pending_ok (p : pending) : Prop :=
  match p with
  | AwaitStorage key value => entry_ok (key, value)
  | AwaitExplanation _ _ _ => True
  end.

Definition store_ok (w : world) : Prop := Forall entry_ok (storage w) /\ Forall pending_ok (pendings w).

End Store.

(** A world on the result screen after the feedback was given and written. *)
Definition stored_world : world :=
  match run no_number_text (init_world 0) (to_result all_high ++ [ClickFeedback true; StorageSettles 0 true]) with
  | Some w => w
  | None => init_world 0
  end.

(** ** Preservation *)

Section StorePreservation.

Variable nts : number -> string.

Lemma store_ok_frame w w' :
  store_ok nts w -> storage w' = storage w -> pendings w' = pendings w -> store_ok nts w'.
Proof. intros [Hs Hp] E1 E2. unfold store_ok. rewrite E1, E2. split; assumption. Qed.

Lemma set_ui_store u w : store_ok nts w -> store_ok nts (set_ui u w).
Proof. intros H. exact (store_ok_frame _ _ H eq_refl eq_refl). Qed.

Lemma set_timeout_store d c w : store_ok nts w -> store_ok nts (set_timeout d c w).
Proof. intros H. exact (store_ok_frame _ _ H eq_refl eq_refl). Qed.

Lemma add_pending_store p w : store_ok nts w -> pending_ok nts p -> store_ok nts (add_pending p w).
Proof. intros [Hs Hp] Hq. split; [exact Hs | apply Forall_app; auto]. Qed.

#[local] Hint Resolve set_ui_store set_timeout_store add_pending_store : crush.

Lemma run_callback_store c w : store_ok nts w -> store_ok nts (run_callback nts c w).
Proof.
  intros H. destruct c as [i K| |]; cbn [run_callback]; auto with crush.
  unfold afterAnswer. destruct (Nat.ltb _ _); auto with crush.
  unfold processResults. apply add_pending_store; [|exact I].
  exact (store_ok_frame _ _ (set_ui_store _ _ H) eq_refl eq_refl).
Qed.

Lemma fire_until_store fuel target w : store_ok nts w -> store_ok nts (fire_until nts fuel target w).
Proof.
  revert w. induction fuel as [|fuel IH]; intros w H; cbn [fire_until]; [exact H|].
  destruct (timers w) as [|t ts]; [exact (store_ok_frame _ _ H eq_refl eq_refl)|].
  destruct (due t <=? target)%Z; [|exact (store_ok_frame _ _ H eq_refl eq_refl)].
  apply IH, run_callback_store. exact (store_ok_frame _ _ H eq_refl eq_refl).
Qed.

Lemma handleFeedback_store b w : world_ok w -> store_ok nts w -> store_ok nts (handleFeedback nts b w).
Proof.
  intros [(_ & _ & Hsc) _] H. unfold handleFeedback.
  destruct (feedback_value _ _ _ _ _) as [v|] eqn:E; [|auto with crush].
  apply add_pending_store; [auto with crush|].
  exists (clock w), (finalScore (w_ui w)), (category (w_ui w)), b. auto.
Qed.

Lemma view_store w e w' : world_ok w -> store_ok nts w -> view nts w e = Some w' -> store_ok nts w'.
Proof.
  intros Hok H He. unfold view in He. destruct (ui_stage (w_ui w)).
  - destruct e; inv He. auto with crush.
  - unfold questions_view in He. destruct (currentQuestion (w_ui w)) as [q|]; [|discriminate].
    destruct (input q), e; try discriminate.
    + destruct (nth_error _ _); inv He. unfold handleAnswer. auto with crush.
    + destruct (existsb _ _); inv He. auto with crush.
    + inv He. unfold handleAnswer. auto with crush.
  - discriminate.
  - unfold result_view in He. destruct e; inv He; [apply handleFeedback_store; assumption | unfold handleReset; auto with crush].
  - unfold feedback_view in He. destruct e; inv He. unfold handleReset. auto with crush.
Qed.

Lemma Forall_remove {A : Type} (P : A -> Prop) (l : list A) (i : nat) :
  Forall P l -> Forall P (firstn i l ++ skipn (S i) l).
Proof.
  intros H. apply Forall_app. split.
  - rewrite <- (firstn_skipn i l) in H. apply Forall_app in H. apply H.
  - rewrite <- (firstn_skipn (S i) l) in H. apply Forall_app in H. apply H.
Qed.

Lemma take_pending_store i w p w' :
  store_ok nts w -> take_pending i w = Some (p, w') -> store_ok nts w' /\ pending_ok nts p.
Proof.
  intros [Hs Hp] H. unfold take_pending in H. destruct (nth_error (pendings w) i) as [q|] eqn:E; inv H.
  split; [split; [exact Hs | apply Forall_remove, Hp]|].
  rewrite Forall_forall in Hp. exact (Hp p (nth_error_In _ _ E)).
Qed.

Lemma Forall_set {V : Type} (P : string * V -> Prop) (o : obj V) (k : string) (v : V) :
  Forall P o -> P (k, v) -> Forall P (set o k v).
Proof.
  rewrite !Forall_forall. intros Ho Hk kv Hin. destruct (In_set o k v kv Hin) as [->|]; auto.
Qed.

Lemma step_raw_store w e w' : world_ok w -> store_ok nts w -> step_raw nts w e = Some w' -> store_ok nts w'.
Proof.
  intros Hok H He. unfold step_raw in He. destruct e; try exact (view_store w _ w' Hok H He).
  - pose proof (fire_until_store (S (List.length (timers w))) (clock w + dt) w H) as Hf.
    destruct (0 <=? dt)%Z; [|discriminate]. injection He as <-. exact Hf.
  - destruct (take_pending i w) as [[[s c k|] w1]|] eqn:E; inv He.
    destruct (take_pending_store _ _ _ _ H E) as [H1 _]. auto with crush.
  - destruct (take_pending i w) as [[[|key value] w1]|] eqn:E; inv He.
    destruct (take_pending_store _ _ _ _ H E) as [[Hs Hp] Hkv].
    apply set_timeout_store. destruct ok; [split; [apply Forall_set|]|]; auto with crush.
    split; assumption.
Qed.

Lemma step_store w e w' : world_ok w -> store_ok nts w -> step nts w e = Some w' -> store_ok nts w'.
Proof.
  intros Hok H He. unfold step in He.
  destruct (step_raw nts w e) as [w1|] eqn:E; [|destruct (crashed w), e; discriminate].
  pose proof (step_raw_store _ _ _ Hok H E) as H1.
  destruct (crashed w); [destruct e; try discriminate|]; injection He as <-;
    first [exact (set_ui_store _ _ H1) | exact (store_ok_frame _ _ H1 eq_refl eq_refl)].
Qed.

Lemma reachable_store w : reachable nts w -> store_ok nts w.
Proof.
  intros Hr. enough (H : world_ok w /\ store_ok nts w) by apply H. revert w Hr. apply reach_invariant.
  - intros s [t ->]. split; [apply (reachable_ok nts), reach_start; eauto | split; constructor].
  - intros s e s' [Hok H] _ He. split; [exact (step_ok _ _ _ _ Hok He) | exact (step_store _ _ _ Hok H He)].
Qed.

Lemma insert_timer_In t ts : In t (insert_timer t ts).
Proof.
  induction ts as [|t' ts IH]; cbn [insert_timer]; [left; reflexivity|].
  destruct (due t <? due t')%Z; [left; reflexivity | right; exact IH].
Qed.

(** C9: The write of a feedback record is awaited inside [try]/[catch]
    (App.jsx lines 240-253): when the promise of the [i]-th pending write
    settles, the record is stored under its key if the write succeeded and
    the storage is left as it was if it failed (the error is swallowed),
    the write leaves the pending list, the screen does not change, and in
    both cases the move to the feedback screen is scheduled 1500 ms later,
    whether or not the page has crashed. *)
Theorem storage_write_settles w i key value ok :
  nth_error (pendings w) i = Some (AwaitStorage key value) ->
  exists w', step nts w (StorageSettles i ok) = Some w' /\
    storage w' = (if ok then set (storage w) key value else storage w) /\
    w_ui w' = w_ui w /\
    pendings w' = (firstn i (pendings w) ++ skipn (S i) (pendings w))%list /\
    In (mk_timer (clock w + 1500) AfterThanks) (timers w').
Proof.
  intros Hp. unfold step, step_raw, take_pending. rewrite Hp.
  destruct (crashed w), ok; eexists; (split; [reflexivity|]); cbn;
    repeat split; apply insert_timer_In.
Qed.

(** C8: Whatever the order of the events, every entry of the shared
    storage is a [feedback_<ms>] key mapped to the JSON text of a feedback
    record ([score], [category], [accurate], [timestamp]) whose score is
    [null] with a [null] category, or an integer between 0 and 100 with
    the classifier's category of it. *)
Theorem reachable_storage_records w key value : reachable nts w -> In (key, value) (storage w) ->
  exists now fs c accurate,
    key = feedbackId now /\ feedback_value nts fs c accurate now = Some value /\
    ((fs = None /\ c = None) \/
     exists n, fs = Some (of_Z n) /\ (0 <= n <= 100)%Z /\ c = Some (category_to_string (getCategoryFromScore (of_Z n)))).
Proof.
  intros Hr Hin. destruct (reachable_store w Hr) as [Hs _]. rewrite Forall_forall in Hs.
  destruct (Hs _ Hin) as (now & fs & c & b & Hk & Hsc & Hv).
  exists now, fs, c, b. split; [exact Hk | split; [exact Hv | exact (score_ok_shown _ _ Hsc)]].
Qed.

End StorePreservation.

(** ** Witness *)

Lemma reachable_storage_records_witness :
  let value := match feedback_value no_number_text (Some (of_Z 100)) (Some "high") true 4100 with
               | Some v => v | None => EmptyString end in
  reachable no_number_text stored_world /\ In (feedbackId 4100, value) (storage stored_world) /\
  exists now fs c accurate,
    feedbackId 4100 = feedbackId now /\ feedback_value no_number_text fs c accurate now = Some value /\
    ((fs = None /\ c = None) \/
     exists n, fs = Some (of_Z n) /\ (0 <= n <= 100)%Z /\ c = Some (category_to_string (getCategoryFromScore (of_Z n)))).
Proof.
  intros value.
  assert (Hr : reachable no_number_text stored_world)
    by (apply (run_reachable no_number_text (init_world 0) (to_result all_high ++ [ClickFeedback true; StorageSettles 0 true]));
        [apply reach_start; exists 0%Z; reflexivity | by_eval]).
  assert (Hin : In (feedbackId 4100, value) (storage stored_world)) by (vm_compute; left; reflexivity).
  split; [exact Hr|]. split; [exact Hin|].
  exact (reachable_storage_records no_number_text stored_world _ _ Hr Hin).
Defined.

(** A world on the result screen whose feedback write is still pending. *)
Lemma storage_write_settles_witness :
  let w := match run no_number_text (init_world 0) (to_result all_high ++ [ClickFeedback true]) with
           | Some w => w | None => init_world 0 end in
  nth_error (pendings w) 0 = Some (AwaitStorage (feedbackId 4100)
    match feedback_value no_number_text (Some (of_Z 100)) (Some "high") true 4100 with
    | Some v => v | None => EmptyString end) /\
  exists w', step no_number_text w (StorageSettles 0 false) = Some w' /\
    storage w' = storage w /\ w_ui w' = w_ui w /\
    pendings w' = [] /\ In (mk_timer (clock w + 1500) AfterThanks) (timers w').
Proof.
  intros w. assert (Hp : nth_error (pendings w) 0 = Some (AwaitStorage (feedbackId 4100)
    match feedback_value no_number_text (Some (of_Z 100)) (Some "high") true 4100 with
    | Some v => v | None => EmptyString end)) by (vm_compute; reflexivity).
  split; [exact Hp|].
  destruct (storage_write_settles no_number_text w 0 _ _ false Hp) as (w' & H1 & H2 & H3 & H4 & H5).
  exists w'. split; [exact H1|]. split; [exact H2|]. split; [exact H3|]. split; [|exact H5].
  rewrite H4. vm_compute. reflexivity.
Defined.
