(* ===== verification/QuizSpec.v ===== *)
(** The quiz flow the spec states (spec.md, section 4: "intro ->
    questions (one sub-state per question index) -> loading -> result ->
    feedback, plus a reset transition from result or feedback back to
    intro"), and the refinement of it by the component of [Quiz].

    [spec_step] is that abstract machine: its states carry the answers
    collected so far and the score and category of the result; answering
    question [i] stores the value under its KPI key and moves to [i+1], or
    freezes the answers when [i] is the last index.  [abs] reads the
    abstract state off a world: a pending [handleAnswer] timer already
    counts as the answer submitted, the loading stage is the frozen
    answers, the result and feedback stages their score and category.

    The spec assumes a single linear flow: "state transitions are
    triggered strictly by user-initiated events processed one at a time",
    feedback is "created once per result screen visit", and the reset
    clears "pending UI flags".  [calm_event] is that assumption on the
    events the environment produces: no answer click while the previous
    answer's timer is pending, no second feedback click, no reset while a
    timer or a promise is pending.  Under it every reachable world has one
    of the shapes of [calm_shape], and every step of the component is
    either a step of the abstract machine or leaves the abstract state
    unchanged ([calm_step_refines]).  Off it, [QuizRuns] shows the
    component leaving the flow (a skipped question, a crash, a second
    request, the feedback stage entered from the questions). *)

From S2P Require Import Prelude JsNumber JsObject JsString JsNumberText Scoring Classifier Catalog ScoreRefinement Explanation Feedback Quiz QuizRuns QuizInvariants Render.
From Stdlib Require Import Relation_Operators.

Local Open Scope nat_scope.
Local Open Scope string_scope.

(** ** The abstract machine of the spec *)

Inductive spec_state : Type :=
| SIntro
| SQuestion (i : nat) (answers : obj number)
| SLoading (answers : obj number)
| SResult (score : number) (cat : string)
| SFeedback (score : number) (cat : string).

Inductive spec_step : spec_state -> spec_state -> Prop :=
| spec_start : spec_step SIntro (SQuestion 0 [])
| spec_answer (i : nat) (A : obj number) (q : question) (v : number) :
    nth_error QUESTIONS i = Some q -> In v (question_values q) -> S i < List.length QUESTIONS ->
    spec_step (SQuestion i A) (SQuestion (S i) (set A (kpi q) v))
| spec_freeze (i : nat) (A : obj number) (q : question) (v : number) :
    nth_error QUESTIONS i = Some q -> In v (question_values q) -> S i = List.length QUESTIONS ->
    spec_step (SQuestion i A) (SLoading (set A (kpi q) v))
| spec_result (A : obj number) :
    spec_step (SLoading A) (SResult (calculateFinalScore A) (category_to_string (getCategoryFromScore (calculateFinalScore A))))
| spec_feedback (s : number) (c : string) : spec_step (SResult s c) (SFeedback s c)
| spec_reset_result (s : number) (c : string) : spec_step (SResult s c) SIntro
| spec_reset_feedback (s : number) (c : string) : spec_step (SFeedback s c) SIntro.

(** ** The environment the spec assumes *)

Definition calm_event (w : world) (e : event) : bool :=
  match e with
  | ClickOption _ | ClickContinue => match timers w with [] => true | _ => false end
  | ClickFeedback _ => negb (showThankYou (w_ui w))
  | ClickReset => match timers w, pendings w with [], [] => true | _, _ => false end
  | _ => true
  end.

Definition calm_reachable (nts : number -> string) : world -> Prop :=
  reach_from (step nts) calm_event (fun w => exists t, w = init_world t).

(** ** The abstraction *)

Definition abs (w : world) : spec_state :=
  let u := w_ui w in
  match ui_stage u with
  | Intro => SIntro
  | Questions =>
      match timers w with
      | [t] =>
          match cb t with
          | AfterAnswer i K =>
              if Nat.ltb (S i) (List.length QUESTIONS) then SQuestion (S i) K else SLoading K
          | _ => SQuestion (currentQuestionIndex u) (kpis u)
          end
      | _ => SQuestion (currentQuestionIndex u) (kpis u)
      end
  | Loading => SLoading (kpis u)
  | Result =>
      match finalScore u, category u with Some s, Some c => SResult s c | _, _ => SIntro end
  | FeedbackStage =>
      match finalScore u, category u with Some s, Some c => SFeedback s c | _, _ => SIntro end
  end.

(** ** The worlds of a calm run *)

Inductive calm_shape : world -> Prop :=
| shape_intro t st rq :
    calm_shape (mk_world init_ui t [] [] st rq false)
| shape_asking i A K ex sv t st rq :
    i < List.length QUESTIONS -> slider_ok sv ->
    calm_shape (mk_world (mk_ui Questions i A K None None ex sv false) t [] [] st rq false)
| shape_answered i A K ex sv t d st rq :
    i < List.length QUESTIONS ->
    calm_shape (mk_world (mk_ui Questions i A K None None ex sv false) t
                  [mk_timer d (AfterAnswer i K)] [] st rq false)
| shape_loading i A K ex sv t st rq :
    calm_shape (mk_world (mk_ui Loading i A K (Some (calculateFinalScore K))
                            (Some (category_to_string (getCategoryFromScore (calculateFinalScore K)))) ex sv false) t []
                  [AwaitExplanation (calculateFinalScore K) (category_to_string (getCategoryFromScore (calculateFinalScore K))) K]
                  st rq false)
| shape_showing i A K ex sv t d st rq :
    calm_shape (mk_world (mk_ui Loading i A K (Some (calculateFinalScore K))
                            (Some (category_to_string (getCategoryFromScore (calculateFinalScore K)))) ex sv false) t
                  [mk_timer d ShowResult] [] st rq false)
| shape_result i A K s ex sv t st rq :
    calm_shape (mk_world (mk_ui Result i A K (Some s) (Some (category_to_string (getCategoryFromScore s))) ex sv false) t [] [] st rq false)
| shape_storing i A K s ex sv t key value st rq :
    calm_shape (mk_world (mk_ui Result i A K (Some s) (Some (category_to_string (getCategoryFromScore s))) ex sv true) t []
                  [AwaitStorage key value] st rq false)
| shape_thanking i A K s ex sv t d st rq :
    calm_shape (mk_world (mk_ui Result i A K (Some s) (Some (category_to_string (getCategoryFromScore s))) ex sv true) t
                  [mk_timer d AfterThanks] [] st rq false)
| shape_feedback i A K s ex sv t st rq :
    calm_shape (mk_world (mk_ui FeedbackStage i A K (Some s) (Some (category_to_string (getCategoryFromScore s))) ex sv false) t
                  [] [] st rq false).

(** A step of the component refines the abstract machine when it leaves the
    abstract state unchanged or is one of its steps. *)
Definition refines (w w' : world) : Prop := abs w' = abs w \/ spec_step (abs w) (abs w').

(** A run of the component in the calm environment: an event the
    environment would not produce stops the run. *)
Fixpoint calm_run (nts : number -> string) (w : world) (es : list event) : option world :=
  match es with
  | [] => Some w
  | e :: es' =>
      if calm_event w e then
        match step nts w e with Some w' => calm_run nts w' es' | None => None end
      else None
  end.

(** The world at the result screen of the calm run that answers every
    question with its highest value. *)
Definition calm_demo : world :=
  match calm_run no_number_text (init_world 0) (to_result all_high) with Some w => w | None => init_world 0 end.

(** ** Symbolic evaluation of a step

    [qcbn] keeps the question catalogue, the scoring and the explanation
    folded: they are evaluated on concrete data by the other files and
    unfold to terms the symbolic answers cannot reduce. *)

Section Refinement.
Variable nts : number -> string.

Ltac qcbn H :=
  cbn -[QUESTIONS nth_error calculateFinalScore getCategoryFromScore buildPrompt
        generateAIExplanation feedback_value literal question_values question_texts parseFloat Nat.ltb] in H.

Ltac quiz_eval H :=
  unfold step, step_raw, view, intro_view, questions_view, result_view, feedback_view,
    handleAnswer, handleFeedback, handleReset, take_pending, set_timeout, set_ui, set_stage,
    run_callback, afterAnswer, processResults,
    add_pending, after_render, renders, currentQuestion in H;
  qcbn H;
  rewrite ?nth_error_nil in H;
  unfold afterAnswer, processResults, set_ui, set_stage, add_pending in H;
  qcbn H.

Ltac quiz_finish H Hq :=
  qcbn H;
  rewrite ?Hq in H;
  qcbn H;
  injection H as <-.

Ltac settle_index H i :=
  destruct i as [|i]; cbn [nth_error] in H; rewrite ?nth_error_nil in H; qcbn H; [|discriminate].

Lemma nth_QUESTIONS (i : nat) : i < List.length QUESTIONS -> exists q, nth_error QUESTIONS i = Some q.
Proof. intros H. destruct (nth_error QUESTIONS i) eqn:E; [eauto | apply nth_error_None in E; lia]. Qed.

Lemma intro_step t st rq e w' :
  step nts (mk_world init_ui t [] [] st rq false) e = Some w' ->
  calm_shape w' /\ refines (mk_world init_ui t [] [] st rq false) w'.
Proof.
  intros H. destruct e; quiz_eval H; try discriminate.
  - destruct (nth_QUESTIONS 0) as [q Hq]; [simpl; lia|]. rewrite Hq in H. injection H as <-.
    split; [apply shape_asking; [simpl; lia | apply slider_ok_default] | right; constructor].
  - destruct (0 <=? dt)%Z; [injection H as <- | discriminate]. split; [constructor | left; reflexivity].
Qed.

Lemma answer_spec_step i K q v :
  nth_error QUESTIONS i = Some q -> In v (question_values q) -> i < List.length QUESTIONS ->
  spec_step (SQuestion i K)
    (if Nat.ltb (S i) (List.length QUESTIONS) then SQuestion (S i) (set K (kpi q) v) else SLoading (set K (kpi q) v)).
Proof.
  intros Hq Hv Hi. destruct (Nat.ltb_spec (S i) (List.length QUESTIONS)).
  - now apply spec_answer.
  - apply spec_freeze; auto; lia.
Qed.

Lemma option_value q os j o : input q = Options os -> nth_error os j = Some o -> In (literal (value o)) (question_values q).
Proof.
  intros Hin Ho. unfold question_values, input_literals. rewrite Hin, map_map.
  apply (in_map (fun x => literal (value x))). eapply nth_error_In; eauto.
Qed.

Lemma asking_step i A K ex sv t st rq e w' :
  i < List.length QUESTIONS -> slider_ok sv ->
  let w := mk_world (mk_ui Questions i A K None None ex sv false) t [] [] st rq false in
  step nts w e = Some w' -> calm_shape w' /\ refines w w'.
Proof.
  intros Hi Hsv w H. subst w. destruct (nth_QUESTIONS i Hi) as [q Hq].
  pose proof (nth_error_In _ _ Hq) as HqIn.
  destruct e; quiz_eval H; rewrite ?Hq in H; try discriminate;
    destruct (input q) as [os|l r mn mx sp] eqn:Hin; try discriminate.
  - destruct (nth_error os i0) as [o|] eqn:Ho; [|discriminate]. quiz_finish H Hq.
    split; [apply shape_answered; exact Hi | right; apply answer_spec_step; eauto using option_value].
  - destruct (existsb (String.eqb value) (question_texts q)) eqn:Hv; [|discriminate]. quiz_finish H Hq.
    split; [apply shape_asking; [exact Hi|] | left; reflexivity].
    exact (slider_text_ok q l r mn mx sp value HqIn Hin Hv).
  - quiz_finish H Hq.
    split; [apply shape_answered; exact Hi | right; apply answer_spec_step; auto].
    exact (Hsv q l r mn mx sp HqIn Hin).
  - destruct (0 <=? dt)%Z; [|discriminate]. quiz_finish H Hq.
    split; [apply shape_asking; assumption | left; reflexivity].
  - destruct (0 <=? dt)%Z; [|discriminate]. quiz_finish H Hq.
    split; [apply shape_asking; assumption | left; reflexivity].
Qed.

Lemma ltb_last i : Nat.ltb i (List.length QUESTIONS - 1) = Nat.ltb (S i) (List.length QUESTIONS).
Proof. apply Bool.eq_true_iff_eq. rewrite !Nat.ltb_lt. simpl. lia. Qed.

Lemma answered_step i A K ex sv t d st rq e w' :
  i < List.length QUESTIONS ->
  let w := mk_world (mk_ui Questions i A K None None ex sv false) t [mk_timer d (AfterAnswer i K)] [] st rq false in
  calm_event w e = true -> step nts w e = Some w' -> calm_shape w' /\ refines w w'.
Proof.
  intros Hi w Hc H. subst w. destruct (nth_QUESTIONS i Hi) as [q Hq].
  destruct e; try discriminate Hc; quiz_eval H; rewrite ?Hq in H; try discriminate;
    try (destruct (input q); qcbn H; discriminate).
  - destruct (input q) as [os|l r mn mx sp] eqn:Hin; [discriminate|].
    destruct (existsb (String.eqb value) (question_texts q)); [|discriminate]. quiz_finish H Hq.
    split; [apply shape_answered; exact Hi | left; reflexivity].
  - destruct (0 <=? dt)%Z; [|discriminate]. destruct (d <=? t + dt)%Z.
    + rewrite ltb_last in H. unfold refines, abs. cbn [timers w_ui ui_stage cb].
      destruct (Nat.ltb_spec (S i) (List.length QUESTIONS)) as [Hlt|Hge].
      * destruct (nth_QUESTIONS (S i) Hlt) as [q' Hq']. quiz_finish H Hq'.
        split; [apply shape_asking; [exact Hlt | apply slider_ok_default] | left; reflexivity].
      * quiz_finish H Hq. split; [exact (shape_loading i A K ex sv _ st _) | left; reflexivity].
    + quiz_finish H Hq. split; [apply shape_answered; exact Hi | left; reflexivity].
Qed.

Lemma loading_step i A K ex sv t st rq e w' :
  let s := calculateFinalScore K in
  let w := mk_world (mk_ui Loading i A K (Some s) (Some (category_to_string (getCategoryFromScore s))) ex sv false) t []
             [AwaitExplanation s (category_to_string (getCategoryFromScore s)) K] st rq false in
  step nts w e = Some w' -> calm_shape w' /\ refines w w'.
Proof.
  intros s w H. subst s w. destruct e; quiz_eval H; try discriminate.
  - destruct (0 <=? dt)%Z; [|discriminate]. injection H as <-.
    split; [exact (shape_loading i A K ex sv _ st rq) | left; reflexivity].
  - settle_index H i0. injection H as <-.
    split; [exact (shape_showing i A K _ sv t _ st rq) | left; reflexivity].
  - settle_index H i0. discriminate.
Qed.

Lemma showing_step i A K ex sv t d st rq e w' :
  let s := calculateFinalScore K in
  let w := mk_world (mk_ui Loading i A K (Some s) (Some (category_to_string (getCategoryFromScore s))) ex sv false) t
             [mk_timer d ShowResult] [] st rq false in
  step nts w e = Some w' -> calm_shape w' /\ refines w w'.
Proof.
  intros s w H. subst s w. destruct e; quiz_eval H; try discriminate.
  destruct (0 <=? dt)%Z; [|discriminate]. destruct (d <=? t + dt)%Z; injection H as <-.
  - split; [exact (shape_result i A K (calculateFinalScore K) ex sv _ st rq) | right; apply spec_result].
  - split; [exact (shape_showing i A K ex sv _ d st rq) | left; reflexivity].
Qed.

Lemma result_step i A K s ex sv t st rq e w' :
  let w := mk_world (mk_ui Result i A K (Some s) (Some (category_to_string (getCategoryFromScore s))) ex sv false) t [] [] st rq false in
  step nts w e = Some w' -> calm_shape w' /\ refines w w'.
Proof.
  intros w H. subst w. destruct e; quiz_eval H; try discriminate.
  - destruct (feedback_value _ _ _ _ _); qcbn H; injection H as <-.
    + split; [apply shape_storing | left; reflexivity].
    + split; [apply shape_thanking | left; reflexivity].
  - injection H as <-. split; [apply shape_intro | right; apply spec_reset_result].
  - destruct (0 <=? dt)%Z; [|discriminate]. injection H as <-.
    split; [apply shape_result | left; reflexivity].
Qed.

Lemma storing_step i A K s ex sv t key value st rq e w' :
  let w := mk_world (mk_ui Result i A K (Some s) (Some (category_to_string (getCategoryFromScore s))) ex sv true) t []
             [AwaitStorage key value] st rq false in
  calm_event w e = true -> step nts w e = Some w' -> calm_shape w' /\ refines w w'.
Proof.
  intros w Hc H. subst w. destruct e; try discriminate Hc; quiz_eval H; try discriminate.
  - destruct (0 <=? dt)%Z; [|discriminate]. injection H as <-.
    split; [apply shape_storing | left; reflexivity].
  - settle_index H i0. discriminate.
  - settle_index H i0.
    destruct ok; injection H as <-; (split; [apply shape_thanking | left; reflexivity]).
Qed.

Lemma thanking_step i A K s ex sv t d st rq e w' :
  let w := mk_world (mk_ui Result i A K (Some s) (Some (category_to_string (getCategoryFromScore s))) ex sv true) t
             [mk_timer d AfterThanks] [] st rq false in
  calm_event w e = true -> step nts w e = Some w' -> calm_shape w' /\ refines w w'.
Proof.
  intros w Hc H. subst w. destruct e; try discriminate Hc; quiz_eval H; try discriminate.
  destruct (0 <=? dt)%Z; [|discriminate]. destruct (d <=? t + dt)%Z; injection H as <-.
  - split; [apply shape_feedback | right; apply spec_feedback].
  - split; [apply shape_thanking | left; reflexivity].
Qed.

Lemma feedback_step i A K s ex sv t st rq e w' :
  let w := mk_world (mk_ui FeedbackStage i A K (Some s) (Some (category_to_string (getCategoryFromScore s))) ex sv false) t
             [] [] st rq false in
  step nts w e = Some w' -> calm_shape w' /\ refines w w'.
Proof.
  intros w H. subst w. destruct e; quiz_eval H; try discriminate.
  - injection H as <-. split; [apply shape_intro | right; apply spec_reset_feedback].
  - destruct (0 <=? dt)%Z; [|discriminate]. injection H as <-.
    split; [apply shape_feedback | left; reflexivity].
Qed.

Lemma calm_shape_step w e w' :
  calm_shape w -> calm_event w e = true -> step nts w e = Some w' -> calm_shape w' /\ refines w w'.
Proof.
  intros Hs Hc H. destruct Hs.
  - exact (intro_step _ _ _ _ _ H).
  - exact (asking_step _ _ _ _ _ _ _ _ _ _ H0 H1 H).
  - exact (answered_step _ _ _ _ _ _ _ _ _ _ _ H0 Hc H).
  - exact (loading_step _ _ _ _ _ _ _ _ _ _ H).
  - exact (showing_step _ _ _ _ _ _ _ _ _ _ _ H).
  - exact (result_step _ _ _ _ _ _ _ _ _ _ _ H).
  - exact (storing_step _ _ _ _ _ _ _ _ _ _ _ _ _ Hc H).
  - exact (thanking_step _ _ _ _ _ _ _ _ _ _ _ _ Hc H).
  - exact (feedback_step _ _ _ _ _ _ _ _ _ _ _ H).
Qed.

Lemma calm_reachable_shape w : calm_reachable nts w -> calm_shape w.
Proof.
  apply reach_invariant.
  - intros s [t ->]. apply shape_intro.
  - intros s e s' Hs Hc H. exact (proj1 (calm_shape_step s e s' Hs Hc H)).
Qed.

Lemma calm_reachable_reachable w : calm_reachable nts w -> reachable nts w.
Proof.
  induction 1 as [s Hs|s s' e _ IH _ H]; [exact (reach_start _ _ _ s Hs) | exact (reach_next _ _ _ s s' e IH eq_refl H)].
Qed.

Lemma calm_run_reachable w es w' :
  calm_run nts w es = Some w' -> calm_reachable nts w -> calm_reachable nts w'.
Proof.
  revert w. induction es as [|e es IH]; intros w H Hr; cbn [calm_run] in H.
  - now injection H as <-.
  - destruct (calm_event w e) eqn:Hc; [|discriminate].
    destruct (step nts w e) as [w1|] eqn:E; [|discriminate].
    exact (IH w1 H (reach_next _ _ _ w w1 e Hr Hc E)).
Qed.

(** C5: In the environment the spec assumes, every step of the quiz
    component either leaves the abstract flow state unchanged or is a step
    of the spec's flow (start, answer, freeze the answers, show the
    result, enter the feedback stage, reset): the component refines the
    spec's state machine. *)
Theorem calm_step_refines w e w' :
  calm_reachable nts w -> calm_event w e = true -> step nts w e = Some w' ->
  abs w' = abs w \/ spec_step (abs w) (abs w').
Proof.
  intros Hr Hc H. exact (proj2 (calm_shape_step w e w' (calm_reachable_shape w Hr) Hc H)).
Qed.

(** Every world of a calm run is, through the abstraction, a state the
    spec's flow reaches from the intro screen: the whole run of the
    component is a run of the spec's machine with stuttering steps. *)
Theorem calm_run_refines w :
  calm_reachable nts w -> clos_refl_trans spec_state spec_step SIntro (abs w).
Proof.
  induction 1 as [s [t ->]|s s' e Hr IH Hc H].
  - apply rt_refl.
  - destruct (proj2 (calm_shape_step s e s' (calm_reachable_shape s Hr) Hc H)) as [E|E].
    + now rewrite E.
    + exact (rt_trans _ _ _ _ _ IH (rt_step _ _ _ _ E)).
Qed.

(** C6: In the calm environment the component never crashes, the question
    index stays inside the catalogue while questions are shown, and at
    most one timer and one promise are outstanding at any time (no second
    explanation request, no second storage write). *)
Theorem calm_no_crash w :
  calm_reachable nts w ->
  crashed w = false /\
  (ui_stage (w_ui w) = Questions -> currentQuestionIndex (w_ui w) < List.length QUESTIONS) /\
  List.length (timers w) <= 1 /\ List.length (pendings w) <= 1.
Proof.
  intros Hr. destruct (calm_reachable_shape w Hr); cbn; repeat split; auto; discriminate.
Qed.

(** C11: In the calm environment every result screen shows a score: an
    integer percentage between 0 and 100, never the bare [%] of a result
    screen without a score. *)
Theorem calm_result_screen w : calm_reachable nts w -> ui_stage (w_ui w) = Result ->
  exists n em col, (0 <= n <= 100)%Z /\
    render nts (w_ui w) = Some (ResultScreen em col (Z_to_string n ++ "%") (aiExplanation (w_ui w)) (showThankYou (w_ui w))).
Proof.
  intros Hr Hs. destruct (reachable_ok nts w (calm_reachable_reachable w Hr)) as [(_ & _ & Hsc) _].
  destruct (score_ok_shown _ _ Hsc) as [[E _] | (n & E & B & _)].
  - destruct (calm_reachable_shape w Hr); cbn in Hs, E; discriminate.
  - exists n. do 2 eexists. split; [exact B|]. unfold render. rewrite Hs.
    unfold score_text, jsx_number. rewrite E. cbv beta iota. rewrite number_to_string_score by exact B. reflexivity.
Qed.

End Refinement.

Lemma calm_demo_reachable : calm_reachable no_number_text calm_demo.
Proof.
  apply (calm_run_reachable no_number_text (init_world 0) (to_result all_high)); [vm_compute; reflexivity|].
  apply reach_start. exists 0%Z. reflexivity.
Defined.

Lemma calm_step_refines_witness :
  calm_reachable no_number_text calm_demo /\ calm_event calm_demo (ClickFeedback true) = true /\
  exists w', step no_number_text calm_demo (ClickFeedback true) = Some w' /\
             (abs w' = abs calm_demo \/ spec_step (abs calm_demo) (abs w')).
Proof.
  split; [exact calm_demo_reachable|]. split; [vm_compute; reflexivity|].
  destruct (step no_number_text calm_demo (ClickFeedback true)) as [w'|] eqn:E; [|vm_compute in E; discriminate].
  exists w'. split; [reflexivity|].
  exact (calm_step_refines no_number_text calm_demo (ClickFeedback true) w' calm_demo_reachable eq_refl E).
Defined.

Lemma calm_run_refines_witness :
  calm_reachable no_number_text calm_demo /\ clos_refl_trans spec_state spec_step SIntro (abs calm_demo).
Proof.
  split; [exact calm_demo_reachable|]. exact (calm_run_refines no_number_text calm_demo calm_demo_reachable).
Defined.

Lemma calm_result_screen_witness :
  calm_reachable no_number_text calm_demo /\ ui_stage (w_ui calm_demo) = Result /\
  exists n em col, (0 <= n <= 100)%Z /\
    render no_number_text (w_ui calm_demo) =
      Some (ResultScreen em col (Z_to_string n ++ "%") (aiExplanation (w_ui calm_demo)) (showThankYou (w_ui calm_demo))).
Proof.
  assert (Hs : ui_stage (w_ui calm_demo) = Result) by by_eval.
  split; [exact calm_demo_reachable|]. split; [exact Hs|].
  exact (calm_result_screen no_number_text calm_demo calm_demo_reachable Hs).
Defined.

Lemma calm_no_crash_witness :
  calm_reachable no_number_text calm_demo /\ crashed calm_demo = false /\ ui_stage (w_ui calm_demo) = Result.
Proof.
  split; [exact calm_demo_reachable|]. split; [|vm_compute; reflexivity].
  exact (proj1 (calm_no_crash no_number_text calm_demo calm_demo_reachable)).
Defined.
